(** * Edge monitoring core: sensor capability layer, temperature sensor, logger

    Shallow embedding of [src/sensor.c], [src/temperature_sensor.c] and
    [src/logger.c], with the statements of the specification settled
    against it.

    Conventions of the embedding:
    - a C pointer argument is an [option]: [None] is the null pointer;
    - [uint32_t] values are [Z] in [0, 2^32), every arithmetic result
      reduced with [u32];
    - [float] is IEEE 754 binary32, taken from the Standard Library's
      [SpecFloat] at precision 24 and maximal exponent 128, every operation
      rounded to nearest-even as the C code evaluates it;
    - what libc hands back during one call ([time], [rand], [malloc],
      [fopen]) is an explicit input or a component of the world;
    - module-level [static] state ([private_data]) is threaded explicitly. *)

From Stdlib Require Import ZArith QArith Bool List Lia DecimalString DecimalZ.
From Stdlib Require Import Floats.SpecFloat.
From stdpp Require Import gmap strings list fin_maps.

Set Default Proof Using "Type".

(* ===================================================================== *)
(** ** Machine integers *)
(* ===================================================================== *)

Module U32.
Local Open Scope Z_scope.

Definition modulus : Z := 2 ^ 32.

(** Reduction of an integer to [uint32_t]. *)
Definition u32 (z : Z) : Z := z mod modulus.

(** Conversion of a [uint32_t] to [int] (two's complement). *)
Definition to_int (z : Z) : Z :=
  if u32 z <? 2 ^ 31 then u32 z else u32 z - modulus.

Definition add (a b : Z) : Z := u32 (a + b).
Definition sub (a b : Z) : Z := u32 (a - b).
Definition mul (a b : Z) : Z := u32 (a * b).
End U32.

(* ===================================================================== *)
(** ** binary32 arithmetic *)
(* ===================================================================== *)

Module F32.
Local Open Scope Z_scope.

Definition float : Type := spec_float.

Definition prec : Z := 24.
Definition emax : Z := 128.

Definition add : float -> float -> float := SFadd prec emax.
Definition sub : float -> float -> float := SFsub prec emax.
Definition mul : float -> float -> float := SFmul prec emax.
Definition div : float -> float -> float := SFdiv prec emax.
Definition opp : float -> float := SFopp.

(** [a < b] and [a > b] of C; both are false when an operand is NaN. *)
Definition ltb (a b : float) : bool := SFltb a b.
Definition gtb (a b : float) : bool := SFltb b a.

(** [a >= b] of C. *)
Definition geb (a b : float) : bool := SFleb b a.

(** Integer to [float] conversion (rounds when the integer needs more
    than 24 bits). *)
Definition of_Z (z : Z) : float := binary_normalize prec emax z 0 false.

(** Decimal literal [n/d] written with suffix [f]: the nearest binary32. *)
Definition lit (n d : Z) : float := div (of_Z n) (of_Z d).

Definition zero : float := S754_zero false.

(** [FLT_MAX] of <float.h>. *)
Definition FLT_MAX : float := SFmax_float prec emax.



End F32.

Abbreviation float := F32.float.

(* ===================================================================== *)
(** ** C strings and libc results *)
(* ===================================================================== *)

(** [strncpy (dst, src, n); dst[n] = 0]: the first [n] bytes of [src]. *)
Definition strncpy (n : nat) (src : string) : string := String.substring 0 n src.

(** The one-byte string ["\n"]. *)
Definition newline : string := String (Ascii.ascii_of_nat 10) EmptyString.

(** [snprintf (buf, n + 1, ...)]: the formatted text cut to [n] bytes. *)
Definition snprintf (n : nat) (text : string) : string := String.substring 0 n text.

(** [%d] of a C [int]. *)
Definition decimal (i : Z) : string := NilZero.string_of_int (Z.to_int i).

(** What libc returns during one call into the library: the reading of
    [time(NULL)], the result of the k-th call to [rand()], and the text
    [strftime] renders for the local time under ["%Y-%m-%d %H:%M:%S"]. *)
Record Libc := {
  libc_time : Z;
  libc_rand : nat -> Z;
  libc_strftime : string
}.

(* ===================================================================== *)
(** ** sensor.c *)
(* ===================================================================== *)

Module Sensor.
Local Open Scope Z_scope.
Import U32.

Inductive SensorError :=
| SENSOR_ERROR_NONE
| SENSOR_ERROR_INVALID_PARAM
| SENSOR_ERROR_INIT_FAILED
| SENSOR_ERROR_READ_FAILED
| SENSOR_ERROR_OUT_OF_RANGE
| SENSOR_ERROR_HARDWARE
| SENSOR_ERROR_MEMORY
| SENSOR_ERROR_COMMUNICATION
| SENSOR_ERROR_CALIBRATION.

Inductive SensorType :=
| SENSOR_TYPE_TEMPERATURE
| SENSOR_TYPE_HUMIDITY
| SENSOR_TYPE_PRESSURE
| SENSOR_TYPE_GAS
| SENSOR_TYPE_VIBRATION
| SENSOR_TYPE_CURRENT
| SENSOR_TYPE_VOLTAGE
| SENSOR_TYPE_POWER
| SENSOR_TYPE_FLOW
| SENSOR_TYPE_LEVEL
| SENSOR_TYPE_POSITION
| SENSOR_TYPE_SPEED
| SENSOR_TYPE_ACCELERATION
| SENSOR_TYPE_GYROSCOPE
| SENSOR_TYPE_MAGNETIC.

(** [SensorData]; the fields carry the prefix [data_]. *)
Record SensorData := {
  data_type : SensorType;
  data_value : float;
  data_timestamp : Z;
  data_is_valid : bool;
  data_error : SensorError;
  data_unit : string
}.

Definition set_data_value (v : float) (d : SensorData) : SensorData :=
  {| data_type := data_type d; data_value := v;
     data_timestamp := data_timestamp d; data_is_valid := data_is_valid d;
     data_error := data_error d; data_unit := data_unit d |}.

Definition set_data_is_valid (b : bool) (d : SensorData) : SensorData :=
  {| data_type := data_type d; data_value := data_value d;
     data_timestamp := data_timestamp d; data_is_valid := b;
     data_error := data_error d; data_unit := data_unit d |}.

Definition set_data_error (e : SensorError) (d : SensorData) : SensorData :=
  {| data_type := data_type d; data_value := data_value d;
     data_timestamp := data_timestamp d; data_is_valid := data_is_valid d;
     data_error := e; data_unit := data_unit d |}.

Section Core.
(** The state the bound implementations act on (their file-level
    statics). *)
Variable W : Type.

(** [Sensor]; the fields carry the prefix [s_].  The three behaviour
    slots are function pointers, [None] when null. *)
Record Sensor := {
  s_type : SensorType;
  s_id : string;
  s_name : string;
  s_location : string;
  s_initialize : option (W -> bool * W);
  s_read : option (Libc -> W -> SensorData -> bool * SensorData * W);
  s_cleanup : option (W -> W);
  s_last_error : SensorError;
  s_sample_count : Z;
  s_error_count : Z
}.

Definition set_last_error (e : SensorError) (s : Sensor) : Sensor :=
  {| s_type := s_type s; s_id := s_id s; s_name := s_name s;
     s_location := s_location s; s_initialize := s_initialize s;
     s_read := s_read s; s_cleanup := s_cleanup s;
     s_last_error := e; s_sample_count := s_sample_count s;
     s_error_count := s_error_count s |}.

Definition set_sample_count (n : Z) (s : Sensor) : Sensor :=
  {| s_type := s_type s; s_id := s_id s; s_name := s_name s;
     s_location := s_location s; s_initialize := s_initialize s;
     s_read := s_read s; s_cleanup := s_cleanup s;
     s_last_error := s_last_error s; s_sample_count := n;
     s_error_count := s_error_count s |}.

Definition set_error_count (n : Z) (s : Sensor) : Sensor :=
  {| s_type := s_type s; s_id := s_id s; s_name := s_name s;
     s_location := s_location s; s_initialize := s_initialize s;
     s_read := s_read s; s_cleanup := s_cleanup s;
     s_last_error := s_last_error s; s_sample_count := s_sample_count s;
     s_error_count := n |}.

Definition default_init (w : W) : bool * W := (true, w).

Definition default_cleanup (w : W) : W := w.

(** [sensor_init]: the [read] slot is not assigned here. *)
Definition sensor_init (sensor : option Sensor) (type : SensorType)
    (id : option string) (w : W) : bool * option Sensor * W :=
  match sensor, id with
  | Some s, Some id =>
      let s := {| s_type := type;
                  s_id := strncpy 31 id;
                  s_name := EmptyString;
                  s_location := EmptyString;
                  s_initialize := Some default_init;
                  s_read := s_read s;
                  s_cleanup := Some default_cleanup;
                  s_last_error := SENSOR_ERROR_NONE;
                  s_sample_count := 0;
                  s_error_count := 0 |} in
      let '(ok, w) := default_init w in
      if negb ok
      then (false, Some (set_last_error SENSOR_ERROR_INIT_FAILED s), w)
      else (true, Some s, w)
  | Some s, None =>
      (false, Some (set_last_error SENSOR_ERROR_INVALID_PARAM s), w)
  | None, _ => (false, None, w)
  end.

(** The [switch] of [sensor_read_data]. *)
Definition default_unit (type : SensorType) : string :=
  match type with
  | SENSOR_TYPE_TEMPERATURE => "°C"
  | SENSOR_TYPE_HUMIDITY => "%"
  | SENSOR_TYPE_PRESSURE => "kPa"
  | SENSOR_TYPE_GAS => "ppm"
  | SENSOR_TYPE_VIBRATION => "g"
  | SENSOR_TYPE_CURRENT => "A"
  | SENSOR_TYPE_VOLTAGE => "V"
  | SENSOR_TYPE_POWER => "W"
  | SENSOR_TYPE_FLOW => "L/min"
  | SENSOR_TYPE_LEVEL => "m"
  | SENSOR_TYPE_POSITION => "mm"
  | SENSOR_TYPE_SPEED => "rpm"
  | SENSOR_TYPE_ACCELERATION => "m/s²"
  | SENSOR_TYPE_GYROSCOPE => "°/s"
  | SENSOR_TYPE_MAGNETIC => "µT"
  end.

(** The record as [sensor_read_data] leaves it before it dispatches to
    the bound read implementation. *)
Definition stamp (env : Libc) (s : Sensor) (d : SensorData) : SensorData :=
  {| data_type := s_type s;
     data_value := data_value d;
     data_timestamp := u32 (libc_time env);
     data_is_valid := false;
     data_error := SENSOR_ERROR_NONE;
     data_unit := strncpy 15 (default_unit (s_type s)) |}.

Definition sensor_read_data (env : Libc) (sensor : option Sensor)
    (data : option SensorData) (w : W)
    : bool * option Sensor * option SensorData * W :=
  match sensor with
  | None => (false, None, data, w)
  | Some s =>
      match data, s_read s with
      | Some d, Some read =>
          let d := stamp env s d in
          let s := set_sample_count (add (s_sample_count s) 1) s in
          let '(ok, d, w) := read env w d in
          if negb ok then
            let s := set_last_error (data_error d) s in
            let s := set_error_count (add (s_error_count s) 1) s in
            (false, Some s, Some d, w)
          else
            (true, Some (set_last_error SENSOR_ERROR_NONE s), Some d, w)
      | _, _ =>
          (false, Some (set_last_error SENSOR_ERROR_INVALID_PARAM s), data, w)
      end
  end.

Definition sensor_cleanup (sensor : option Sensor) (w : W) : W :=
  match sensor with
  | Some s => match s_cleanup s with
              | Some cleanup => cleanup w
              | None => w
              end
  | None => w
  end.

Definition sensor_set_name (sensor : option Sensor) (name : option string)
    : option Sensor :=
  match sensor, name with
  | Some s, Some name =>
      Some {| s_type := s_type s; s_id := s_id s;
              s_name := strncpy 63 name;
              s_location := s_location s; s_initialize := s_initialize s;
              s_read := s_read s; s_cleanup := s_cleanup s;
              s_last_error := s_last_error s;
              s_sample_count := s_sample_count s;
              s_error_count := s_error_count s |}
  | _, _ => sensor
  end.

Definition sensor_set_location (sensor : option Sensor)
    (location : option string) : option Sensor :=
  match sensor, location with
  | Some s, Some location =>
      Some {| s_type := s_type s; s_id := s_id s; s_name := s_name s;
              s_location := strncpy 63 location;
              s_initialize := s_initialize s;
              s_read := s_read s; s_cleanup := s_cleanup s;
              s_last_error := s_last_error s;
              s_sample_count := s_sample_count s;
              s_error_count := s_error_count s |}
  | _, _ => sensor
  end.
End Core.

Arguments s_type {W}.
Arguments s_id {W}.
Arguments s_name {W}.
Arguments s_location {W}.
Arguments s_initialize {W}.
Arguments s_read {W}.
Arguments s_cleanup {W}.
Arguments s_last_error {W}.
Arguments s_sample_count {W}.
Arguments s_error_count {W}.
Arguments set_last_error {W}.
Arguments set_sample_count {W}.
Arguments set_error_count {W}.
Arguments default_init {W}.
Arguments default_cleanup {W}.
Arguments sensor_init {W}.
Arguments stamp {W}.
Arguments sensor_read_data {W}.
Arguments sensor_cleanup {W}.
Arguments sensor_set_name {W}.
Arguments sensor_set_location {W}.

Definition error_messages : list string :=
  [ "No error"; "Invalid parameter"; "Initialization failed";
    "Read operation failed"; "Value out of range"; "Hardware error";
    "Memory allocation failed"; "Communication error";
    "Calibration error" ]%string.

Definition error_code (e : SensorError) : nat :=
  match e with
  | SENSOR_ERROR_NONE => 0 | SENSOR_ERROR_INVALID_PARAM => 1
  | SENSOR_ERROR_INIT_FAILED => 2 | SENSOR_ERROR_READ_FAILED => 3
  | SENSOR_ERROR_OUT_OF_RANGE => 4 | SENSOR_ERROR_HARDWARE => 5
  | SENSOR_ERROR_MEMORY => 6 | SENSOR_ERROR_COMMUNICATION => 7
  | SENSOR_ERROR_CALIBRATION => 8
  end%nat.

Definition sensor_error_to_string (e : SensorError) : string :=
  if (length error_messages <=? error_code e)%nat then "Unknown error"
  else nth (error_code e) error_messages "Unknown error"%string.
End Sensor.

(* ===================================================================== *)
(** ** temperature_sensor.c *)
(* ===================================================================== *)

Module Temperature.
Local Open Scope Z_scope.
Import U32 Sensor.

Record TemperatureSensorData := {
  temperature : float;
  humidity : float;
  dew_point : float;
  heat_index : float
}.

Record TemperatureConfig := {
  min_temp : float;
  max_temp : float;
  alert_threshold : float;
  critical_threshold : float;
  calibration_offset : float;
  sampling_rate_ms : Z;
  enable_humidity : bool;
  enable_dew_point : bool;
  enable_heat_index : bool
}.

Record TemperatureStats := {
  min_value : float;
  max_value : float;
  avg_value : float;
  std_deviation : float;
  sample_count : Z;
  alert_count : Z;
  critical_count : Z
}.

Record TemperatureSensorPrivate := {
  config : TemperatureConfig;
  last_reading : TemperatureSensorData;
  stats : TemperatureStats;
  last_sample_time : Z
}.

(** The file-level [static TemperatureSensorPrivate* private_data]. *)
Definition PrivateData : Type := option TemperatureSensorPrivate.

Definition set_stats (st : TemperatureStats) (p : TemperatureSensorPrivate)
    : TemperatureSensorPrivate :=
  {| config := config p; last_reading := last_reading p; stats := st;
     last_sample_time := last_sample_time p |}.

Definition set_alert_count (n : Z) (st : TemperatureStats) : TemperatureStats :=
  {| min_value := min_value st; max_value := max_value st;
     avg_value := avg_value st; std_deviation := std_deviation st;
     sample_count := sample_count st; alert_count := n;
     critical_count := critical_count st |}.

Definition set_critical_count (n : Z) (st : TemperatureStats) : TemperatureStats :=
  {| min_value := min_value st; max_value := max_value st;
     avg_value := avg_value st; std_deviation := std_deviation st;
     sample_count := sample_count st; alert_count := alert_count st;
     critical_count := n |}.

(** [RAND_MAX] of the C library the Makefile builds against (glibc). *)
Definition RAND_MAX : Z := 2147483647.

(** The statistics as [temperature_sensor_init] and
    [temperature_sensor_reset_stats] seed them. *)
Definition initial_stats : TemperatureStats :=
  {| min_value := F32.FLT_MAX;
     max_value := F32.opp F32.FLT_MAX;
     avg_value := F32.zero;
     std_deviation := F32.zero;
     sample_count := 0;
     alert_count := 0;
     critical_count := 0 |}.

Definition calculate_dew_point (temperature humidity : float) : float :=
  F32.sub temperature
    (F32.div (F32.sub (F32.of_Z 100) humidity) (F32.of_Z 5)).

Definition calculate_heat_index (temperature humidity : float) : float :=
  let temp_f :=
    F32.add (F32.div (F32.mul temperature (F32.of_Z 9)) (F32.of_Z 5))
            (F32.of_Z 32) in
  let hi_f :=
    F32.mul (F32.lit 5 10)
      (F32.add
         (F32.add (F32.add temp_f (F32.of_Z 61))
                  (F32.mul (F32.sub temp_f (F32.of_Z 68)) (F32.lit 12 10)))
         (F32.mul humidity (F32.lit 94 1000))) in
  F32.div (F32.mul (F32.sub hi_f (F32.of_Z 32)) (F32.of_Z 5)) (F32.of_Z 9).

(** What [update_stats] stores into [private->stats]. *)
Definition update_stats_values (st : TemperatureStats) (value : float)
    : TemperatureStats :=
  {| min_value := if F32.ltb value (min_value st) then value else min_value st;
     max_value := if F32.gtb value (max_value st) then value else max_value st;
     avg_value :=
       F32.div
         (F32.add (F32.mul (avg_value st) (F32.of_Z (sample_count st))) value)
         (F32.of_Z (add (sample_count st) 1));
     std_deviation := std_deviation st;
     sample_count := add (sample_count st) 1;
     alert_count := alert_count st;
     critical_count := critical_count st |}.

(** [update_stats] at its one call site, where [private] is not null. *)
Definition update_stats (private : TemperatureSensorPrivate) (value : float)
    : TemperatureSensorPrivate :=
  set_stats (update_stats_values (stats private) value) private.

Definition temperature_init (w : PrivateData) : bool * PrivateData :=
  (true, w).

(** [(uint32_t)time(NULL) * 1000]. *)
Definition current_time_ms (env : Libc) : Z :=
  mul (u32 (libc_time env)) 1000.

(** The debounce test of [temperature_read]. *)
Definition debounced (env : Libc) (p : TemperatureSensorPrivate) : bool :=
  sub (current_time_ms env) (last_sample_time p)
    <? sampling_rate_ms (config p).

(** The simulated temperature of a fresh sample. *)
Definition sample_temperature (env : Libc) (cfg : TemperatureConfig) : float :=
  let base_temp := F32.of_Z 25 in
  let variation :=
    F32.sub
      (F32.mul (F32.div (F32.of_Z (libc_rand env 0)) (F32.of_Z RAND_MAX))
               (F32.of_Z 2))
      (F32.of_Z 1) in
  F32.add (F32.add base_temp variation) (calibration_offset cfg).

Definition sample_humidity (env : Libc) (cfg : TemperatureConfig) : float :=
  if enable_humidity cfg then
    F32.add (F32.of_Z 45)
      (F32.mul (F32.div (F32.of_Z (libc_rand env 1)) (F32.of_Z RAND_MAX))
               (F32.of_Z 10))
  else F32.zero.

(** [last_reading] after the sampling part of a fresh read. *)
Definition sample_reading (env : Libc) (p : TemperatureSensorPrivate)
    : TemperatureSensorData :=
  let cfg := config p in
  let t := sample_temperature env cfg in
  let h := sample_humidity env cfg in
  {| temperature := t;
     humidity := h;
     dew_point :=
       if enable_dew_point cfg && F32.gtb h F32.zero
       then calculate_dew_point t h
       else dew_point (last_reading p);
     heat_index :=
       if enable_heat_index cfg && F32.gtb h F32.zero
       then calculate_heat_index t h
       else heat_index (last_reading p) |}.

Definition temperature_read (env : Libc) (private_data : PrivateData)
    (data : option SensorData)
    : bool * option SensorData * PrivateData :=
  match data, private_data with
  | None, _ => (false, None, private_data)
  | Some d, None =>
      (false, Some (set_data_error SENSOR_ERROR_INVALID_PARAM d), None)
  | Some d, Some p =>
      let current_time := current_time_ms env in
      if debounced env p then
        let d := set_data_value (temperature (last_reading p)) d in
        let d := set_data_is_valid true d in
        let d := set_data_error SENSOR_ERROR_NONE d in
        (true, Some d, Some p)
      else
        let p := {| config := config p;
                    last_reading := sample_reading env p;
                    stats := stats p;
                    last_sample_time := last_sample_time p |} in
        let d := set_data_value (temperature (last_reading p)) d in
        let d := set_data_is_valid true d in
        let d := set_data_error SENSOR_ERROR_NONE d in
        let p := update_stats p (data_value d) in
        let p := {| config := config p; last_reading := last_reading p;
                    stats := stats p; last_sample_time := current_time |} in
        if F32.ltb (data_value d) (min_temp (config p))
           || F32.gtb (data_value d) (max_temp (config p))
        then (false, Some (set_data_error SENSOR_ERROR_OUT_OF_RANGE d), Some p)
        else
          let '(d, p) :=
            if F32.gtb (data_value d) (alert_threshold (config p))
            then (set_data_error SENSOR_ERROR_OUT_OF_RANGE d,
                  set_stats
                    (set_alert_count (add (alert_count (stats p)) 1) (stats p))
                    p)
            else (d, p) in
          let '(d, p) :=
            if F32.gtb (data_value d) (critical_threshold (config p))
            then (set_data_error SENSOR_ERROR_OUT_OF_RANGE d,
                  set_stats
                    (set_critical_count
                       (add (critical_count (stats p)) 1) (stats p))
                    p)
            else (d, p) in
          (true, Some d, Some p)
  end.

(** [temperature_read] as the function the [read] slot points to: the
    dispatcher always passes a record. *)
Definition temperature_read_slot (env : Libc) (w : PrivateData)
    (d : SensorData) : bool * SensorData * PrivateData :=
  let '(ok, d', w') := temperature_read env w (Some d) in
  (ok, default d d', w').

Definition temperature_cleanup (w : PrivateData) : PrivateData := None.

(** [temperature_sensor_init]; [malloc_ok] tells whether [malloc]
    returns a block. *)
Definition temperature_sensor_init (malloc_ok : bool)
    (sensor : option (Sensor PrivateData)) (id : option string)
    (config : option TemperatureConfig) (private_data : PrivateData)
    : bool * option (Sensor PrivateData) * PrivateData :=
  match sensor, id, config with
  | Some s, Some id, Some cfg =>
      let '(ok, sensor, private_data) :=
        sensor_init (Some s) SENSOR_TYPE_TEMPERATURE (Some id) private_data in
      if negb ok then (false, sensor, private_data)
      else if negb malloc_ok then
        (false, option_map (set_last_error SENSOR_ERROR_MEMORY) sensor, None)
      else
        let p := {| config := cfg;
                    last_reading := {| temperature := F32.zero;
                                       humidity := F32.zero;
                                       dew_point := F32.zero;
                                       heat_index := F32.zero |};
                    stats := initial_stats;
                    last_sample_time := 0 |} in
        let sensor :=
          option_map
            (fun s =>
               {| s_type := s_type s; s_id := s_id s; s_name := s_name s;
                  s_location := s_location s;
                  s_initialize := Some temperature_init;
                  s_read := Some temperature_read_slot;
                  s_cleanup := Some temperature_cleanup;
                  s_last_error := s_last_error s;
                  s_sample_count := s_sample_count s;
                  s_error_count := s_error_count s |})
            sensor in
        let sensor := sensor_set_name sensor (Some "Temperature Sensor"%string) in
        let sensor := sensor_set_location sensor (Some "Factory Floor"%string) in
        (true, sensor, Some p)
  | Some s, _, _ =>
      (false, Some (set_last_error SENSOR_ERROR_INVALID_PARAM s), private_data)
  | None, _, _ => (false, None, private_data)
  end.

Definition temperature_sensor_cleanup (sensor : option (Sensor PrivateData))
    (private_data : PrivateData) : PrivateData :=
  match sensor with
  | Some _ => sensor_cleanup sensor private_data
  | None => private_data
  end.

Definition temperature_sensor_reset_stats
    (sensor : option (Sensor PrivateData)) (private_data : PrivateData)
    : PrivateData :=
  match sensor, private_data with
  | Some _, Some p => Some (set_stats initial_stats p)
  | _, _ => private_data
  end.

Definition temperature_sensor_set_config
    (sensor : option (Sensor PrivateData)) (cfg : option TemperatureConfig)
    (private_data : PrivateData) : PrivateData :=
  match sensor, cfg, private_data with
  | Some _, Some cfg, Some p =>
      Some {| config := cfg; last_reading := last_reading p;
              stats := stats p; last_sample_time := last_sample_time p |}
  | _, _, _ => private_data
  end.

(** *** Notions the properties of the read path are stated with *)

(** The range test of [temperature_read]. *)
Definition out_of_range (cfg : TemperatureConfig) (v : float) : bool :=
  F32.ltb v (min_temp cfg) || F32.gtb v (max_temp cfg).









(** *** The running mean as the specification words it *)





End Temperature.

(* ===================================================================== *)
(** ** logger.c *)
(* ===================================================================== *)

Module Logger.
Local Open Scope Z_scope.
Import U32.

Inductive LogLevel :=
| LOG_LEVEL_DEBUG
| LOG_LEVEL_INFO
| LOG_LEVEL_WARNING
| LOG_LEVEL_ERROR
| LOG_LEVEL_CRITICAL.

(** The integer value of an enumerator. *)
Definition level_code (l : LogLevel) : nat :=
  match l with
  | LOG_LEVEL_DEBUG => 0
  | LOG_LEVEL_INFO => 1
  | LOG_LEVEL_WARNING => 2
  | LOG_LEVEL_ERROR => 3
  | LOG_LEVEL_CRITICAL => 4
  end%nat.

(** The cast [(LogLevel)i] for an index of [level_strings]. *)
Definition level_of_code (i : nat) : LogLevel :=
  match i with
  | 0 => LOG_LEVEL_DEBUG
  | 1 => LOG_LEVEL_INFO
  | 2 => LOG_LEVEL_WARNING
  | 3 => LOG_LEVEL_ERROR
  | _ => LOG_LEVEL_CRITICAL
  end%nat.

Record LoggerConfig := {
  log_file : string;
  min_level : LogLevel;
  log_to_console : bool;
  log_to_file : bool;
  log_timestamp : bool;
  log_sensor_data : bool;
  max_file_size_kb : Z;
  max_files : Z
}.

(** [LoggerPrivate]; [log_fp] is the [FILE* log_file] member, an open
    stream being identified with the path it was opened on. *)
Record LoggerPrivate := {
  config : LoggerConfig;
  log_fp : option string;
  current_file_size : Z;
  file_count : Z
}.

Definition level_strings : list string :=
  [ "DEBUG"; "INFO"; "WARNING"; "ERROR"; "CRITICAL" ]%string.

Definition default_config : LoggerConfig :=
  {| log_file := "logs/edgetrack.log";
     min_level := LOG_LEVEL_INFO;
     log_to_console := true;
     log_to_file := true;
     log_timestamp := true;
     log_sensor_data := true;
     max_file_size_kb := 1024;
     max_files := 5 |}.

(** *** The operating system as the logger sees it *)

Inductive OpenMode := ModeAppend | ModeTruncate.

(** Calls that leave the process, in the order they are made. *)
Inductive Event :=
| EvPrintf (line : string)
| EvFprintf (path : string) (line : string)
| EvFclose (path : string)
| EvRemove (path : string)
| EvRename (old_name new_name : string)
| EvFopen (path : string) (mode : OpenMode) (ok : bool).

(** The logger's static pointer, the files (path to content), the paths
    [fopen] refuses, and the calls made so far (oldest first). *)
Record World := {
  private_data : option LoggerPrivate;
  fs : gmap string string;
  fopen_denied : string -> bool;
  events : list Event
}.

Definition set_private (p : option LoggerPrivate) (w : World) : World :=
  {| private_data := p; fs := fs w; fopen_denied := fopen_denied w;
     events := events w |}.

Definition sys (e : Event) (fs' : gmap string string) (w : World) : World :=
  {| private_data := private_data w; fs := fs';
     fopen_denied := fopen_denied w; events := events w ++ [e] |}.

(** [printf ("%s\n", line)]. *)
Definition sys_printf (line : string) (w : World) : World :=
  sys (EvPrintf line) (fs w) w.

(** [fprintf (fp, "%s\n", line); fflush (fp)]. *)
Definition sys_fprintf (fp : string) (line : string) (w : World) : World :=
  sys (EvFprintf fp line)
      (alter (fun content => content +:+ line +:+ newline) fp (fs w)) w.

Definition sys_fclose (fp : string) (w : World) : World :=
  sys (EvFclose fp) (fs w) w.

Definition sys_remove (path : string) (w : World) : World :=
  sys (EvRemove path) (delete path (fs w)) w.

(** [rename]: fails, changing nothing, when [old_name] does not exist. *)
Definition sys_rename (old_name new_name : string) (w : World) : World :=
  sys (EvRename old_name new_name)
      (match fs w !! old_name with
       | Some content => <[new_name := content]> (delete old_name (fs w))
       | None => fs w
       end) w.

Definition sys_fopen (path : string) (mode : OpenMode) (w : World)
    : option string * World :=
  if fopen_denied w path then (None, sys (EvFopen path mode false) (fs w) w)
  else
    let fs' :=
      match mode, fs w !! path with
      | ModeAppend, Some _ => fs w
      | _, _ => <[path := EmptyString]> (fs w)
      end in
    (Some path, sys (EvFopen path mode true) fs' w).

(** *** Level names *)

Definition logger_level_to_string (level : LogLevel) : string :=
  if (length level_strings <=? level_code level)%nat then "UNKNOWN"
  else nth (level_code level) level_strings "UNKNOWN"%string.

(** [tolower] in the C locale, on the byte value. *)
Definition tolower (c : Ascii.ascii) : Z :=
  let n := Z.of_N (Ascii.N_of_ascii c) in
  if (65 <=? n) && (n <=? 90) then n + 32 else n.

(** [strcasecmp]: the difference at the first position where the folded
    bytes differ, the end of a string reading as byte 0. *)
Fixpoint strcasecmp (a b : string) : Z :=
  match a, b with
  | EmptyString, EmptyString => 0
  | EmptyString, String c2 _ => 0 - tolower c2
  | String c1 _, EmptyString => tolower c1 - 0
  | String c1 a', String c2 b' =>
      if tolower c1 =? tolower c2 then strcasecmp a' b'
      else tolower c1 - tolower c2
  end.

(** The [for] loop of [logger_string_to_level] from index [i] on, over
    the remaining entries of [level_strings]. *)
Fixpoint string_to_level_loop (level_str : string) (i : nat)
    (names : list string) : option nat :=
  match names with
  | [] => None
  | name :: names' =>
      if strcasecmp level_str name =? 0 then Some i
      else string_to_level_loop level_str (S i) names'
  end.

Definition logger_string_to_level (level_str : option string) : LogLevel :=
  match level_str with
  | None => LOG_LEVEL_INFO
  | Some level_str =>
      match string_to_level_loop level_str 0 level_strings with
      | Some i => level_of_code i
      | None => LOG_LEVEL_INFO
      end
  end.

(** *** Rotation and logging *)

(** ["<path>.<i>"] as [snprintf] leaves it in a [char[128]]. *)
Definition rotated_name (path : string) (i : Z) : string :=
  snprintf 127 (path +:+ "." +:+ decimal i).

(** One pass of the [for] body of [logger_rotate_log_file] at index [i]. *)
Definition rotate_step (cfg : LoggerConfig) (i : Z) (w : World) : World :=
  let old_name :=
    if i =? 0 then strncpy 127 (log_file cfg)
    else rotated_name (log_file cfg) i in
  let new_name := rotated_name (log_file cfg) (i + 1) in
  if u32 i =? sub (max_files cfg) 1
  then sys_remove old_name w
  else sys_rename old_name new_name w.

(** The call [rotate_step] makes at index [i]. *)
Definition rotate_call (cfg : LoggerConfig) (i : Z) : Event :=
  let old_name :=
    if i =? 0 then strncpy 127 (log_file cfg)
    else rotated_name (log_file cfg) i in
  if u32 i =? sub (max_files cfg) 1 then EvRemove old_name
  else EvRename old_name (rotated_name (log_file cfg) (i + 1)).

(** The [for] loop with [n] iterations left: [i] runs from [n - 1] down
    to [0]. *)
Fixpoint rotate_loop (cfg : LoggerConfig) (n : nat) (w : World) : World :=
  match n with
  | O => w
  | S k => rotate_loop cfg k (rotate_step cfg (Z.of_nat k) w)
  end.

(** [logger_rotate_log_file], the nested call to [logger_log] given as
    [log]. *)
Definition rotate_with
    (log : LogLevel -> option string -> World -> option (bool * World))
    (w : World) : option World :=
  match private_data w with
  | None => Some w
  | Some p =>
      match log_fp p with
      | None => Some w
      | Some fp =>
          let cfg := config p in
          let w := sys_fclose fp w in
          let w := set_private
                     (Some {| config := cfg; log_fp := None;
                              current_file_size := current_file_size p;
                              file_count := file_count p |}) w in
          let i0 := to_int (sub (max_files cfg) 1) in
          let w := rotate_loop cfg (Z.to_nat (i0 + 1)) w in
          let '(fp', w) := sys_fopen (log_file cfg) ModeTruncate w in
          match fp' with
          | None => Some w
          | Some fp' =>
              let w := set_private
                         (Some {| config := cfg; log_fp := Some fp';
                                  current_file_size := 0;
                                  file_count := file_count p |}) w in
              match log LOG_LEVEL_INFO (Some "Log file rotated"%string) w with
              | Some (_, w) => Some w
              | None => None
              end
          end
      end
  end.

(** The text [logger_log] writes for [message]. *)
Definition format_message (env : Libc) (cfg : LoggerConfig)
    (level : LogLevel) (message : string) : string :=
  if log_timestamp cfg then
    snprintf 511
      ("[" +:+ libc_strftime env +:+ "] [" +:+ logger_level_to_string level
           +:+ "] " +:+ message)
  else
    snprintf 511
      ("[" +:+ logger_level_to_string level +:+ "] " +:+ message).

(** [max_file_size_kb * 1024] in [uint32_t]. *)
Definition size_limit (cfg : LoggerConfig) : Z :=
  mul (max_file_size_kb cfg) 1024.

(** [logger_log]; [fuel] bounds how deep the calls through
    [logger_rotate_log_file] may nest, [None] meaning the bound was hit.
    The local [LogEntry] the C function fills is never read and has no
    counterpart here. *)
Fixpoint logger_log (fuel : nat) (env : Libc) (level : LogLevel)
    (message : option string) (w : World) : option (bool * World) :=
  match private_data w, message with
  | Some p, Some message =>
      if (level_code level <? level_code (min_level (config p)))%nat
      then Some (false, w)
      else
        let cfg := config p in
        let formatted_message := format_message env cfg level message in
        let w := if log_to_console cfg
                 then sys_printf formatted_message w else w in
        match log_to_file cfg, log_fp p with
        | true, Some fp =>
            let w := sys_fprintf fp formatted_message w in
            let size :=
              u32 (current_file_size p
                   + (Z.of_nat (String.length formatted_message) + 1)) in
            let w := set_private
                       (Some {| config := cfg; log_fp := Some fp;
                                current_file_size := size;
                                file_count := file_count p |}) w in
            if size_limit cfg <=? size then
              match fuel with
              | O => None
              | S fuel' =>
                  match rotate_with (logger_log fuel' env) w with
                  | Some w => Some (true, w)
                  | None => None
                  end
              end
            else Some (true, w)
        | _, _ => Some (true, w)
        end
  | _, _ => Some (false, w)
  end.


Definition logger_set_config (cfg : option LoggerConfig) (w : World) : World :=
  match private_data w, cfg with
  | Some p, Some cfg =>
      set_private (Some {| config := cfg; log_fp := log_fp p;
                           current_file_size := current_file_size p;
                           file_count := file_count p |}) w
  | _, _ => w
  end.

(** *** Notions the properties of the logger are stated with *)

(** The guard at the head of [logger_log]. *)
Definition log_gated (w : World) (level : LogLevel) (message : option string)
    : Prop :=
  private_data w = None \/ message = None \/
  exists p, private_data w = Some p /\
            (level_code level < level_code (min_level (config p)))%nat.

(** The file a rotation takes at index [i]: the log file itself at 0. *)
Definition old_name (cfg : LoggerConfig) (i : Z) : string :=
  if i =? 0 then strncpy 127 (log_file cfg) else rotated_name (log_file cfg) i.

(** The calls of a rotation between closing and reopening, listed by
    index: for [i] from [max_files - 1] down to 0 the file at the last
    index is deleted, every other one moves up by one. *)
Definition rotation_events (cfg : LoggerConfig) : list Event :=
  map (fun k : nat =>
         let i := Z.of_nat k in
         if i =? max_files cfg - 1 then EvRemove (old_name cfg i)
         else EvRename (old_name cfg i) (rotated_name (log_file cfg) (i + 1)))
      (rev (seq 0 (Z.to_nat (max_files cfg)))).

(** The names the logger may give a file: the log file and its rotated
    copies 1 .. [max_files - 1]. *)
Definition log_names (cfg : LoggerConfig) : gset string :=
  {[ log_file cfg ]} ∪
  list_to_set
    (map (fun k : nat => rotated_name (log_file cfg) (Z.of_nat k))
         (seq 1 (Z.to_nat (max_files cfg) - 1))).

(** [f] is named like the log file or one of its rotated copies. *)
Definition is_log_file (cfg : LoggerConfig) (f : string) : Prop :=
  f = log_file cfg \/ exists i, 1 <= i /\ f = rotated_name (log_file cfg) i.

(** Successive calls of [logger_log], each with the same nesting bound. *)
Fixpoint logger_log_all (fuel : nat) (env : Libc)
    (calls : list (LogLevel * option string)) (w : World) : option World :=
  match calls with
  | [] => Some w
  | (level, message) :: calls' =>
      match logger_log fuel env level message w with
      | Some (_, w') => logger_log_all fuel env calls' w'
      | None => None
      end
  end.
End Logger.

(* ===================================================================== *)
(** ** Concrete inputs *)
(* ===================================================================== *)

Module Examples.
Local Open Scope Z_scope.
Import Sensor Temperature.

(** A [Sensor] object before initialisation. *)
Definition blank_sensor : Sensor PrivateData :=
  {| s_type := SENSOR_TYPE_TEMPERATURE; s_id := EmptyString; s_name := EmptyString;
     s_location := EmptyString; s_initialize := None; s_read := None;
     s_cleanup := None; s_last_error := SENSOR_ERROR_NONE;
     s_sample_count := 0; s_error_count := 0 |}.

Definition blank_data : SensorData :=
  {| data_type := SENSOR_TYPE_TEMPERATURE; data_value := F32.zero;
     data_timestamp := 0; data_is_valid := false;
     data_error := SENSOR_ERROR_NONE; data_unit := EmptyString |}.

(** The configuration with the given range, thresholds and offset, the
    other members as in [main]. *)
Definition config_of (lo hi alert critical offset : Z) : TemperatureConfig :=
  {| min_temp := F32.of_Z lo; max_temp := F32.of_Z hi;
     alert_threshold := F32.of_Z alert;
     critical_threshold := F32.of_Z critical;
     calibration_offset := F32.of_Z offset;
     sampling_rate_ms := 1000;
     enable_humidity := true; enable_dew_point := true;
     enable_heat_index := true |}.

(** The configuration [main] uses. *)
Definition main_config : TemperatureConfig := config_of 0 50 40 45 0.

(** Range inverted and sampling period zero, as in the repository's
    [test_error_handling]. *)
Definition inverted_config : TemperatureConfig :=
  {| min_temp := F32.of_Z 125; max_temp := F32.of_Z (-40);
     alert_threshold := F32.of_Z 40; critical_threshold := F32.of_Z 45;
     calibration_offset := F32.zero;
     sampling_rate_ms := 0;
     enable_humidity := true; enable_dew_point := true;
     enable_heat_index := true |}.

(** The clock reads [t] seconds and every [rand()] returns [r]. *)
Definition env_at (t r : Z) : Libc :=
  {| libc_time := t; libc_rand := fun _ => r;
     libc_strftime := "2024-01-01 00:00:00" |}.

(** [rand()] results for which the simulated variation is exactly
    [0], [-1] and [+1]. *)
Definition rand_mid : Z := 1073741824.
Definition rand_high : Z := RAND_MAX.


(** The configuration of [main] with a sampling period of 2.5 s. *)
Definition slow_config : TemperatureConfig :=
  {| min_temp := F32.of_Z 0; max_temp := F32.of_Z 50;
     alert_threshold := F32.of_Z 40; critical_threshold := F32.of_Z 45;
     calibration_offset := F32.zero;
     sampling_rate_ms := 2500;
     enable_humidity := true; enable_dew_point := true;
     enable_heat_index := true |}.



(** The private state [temperature_sensor_init] builds for [cfg]. *)
Definition private_of (cfg : TemperatureConfig) : TemperatureSensorPrivate :=
  {| config := cfg;
     last_reading := {| temperature := F32.zero; humidity := F32.zero;
                        dew_point := F32.zero; heat_index := F32.zero |};
     stats := initial_stats;
     last_sample_time := 0 |}.

(** The sensor object [temperature_sensor_init] leaves for id "TEMP001". *)
Definition temp_sensor : Sensor PrivateData :=
  {| s_type := SENSOR_TYPE_TEMPERATURE; s_id := "TEMP001";
     s_name := "Temperature Sensor"; s_location := "Factory Floor";
     s_initialize := Some temperature_init;
     s_read := Some temperature_read_slot;
     s_cleanup := Some temperature_cleanup;
     s_last_error := SENSOR_ERROR_NONE;
     s_sample_count := 0; s_error_count := 0 |}.

(** A logger writing to ["app.log"], keeping [files] files of at most
    [kb] KiB, with [size] bytes counted so far. *)
Definition logger_config (kb files : Z) : Logger.LoggerConfig :=
  {| Logger.log_file := "app.log";
     Logger.min_level := Logger.LOG_LEVEL_INFO;
     Logger.log_to_console := true;
     Logger.log_to_file := true;
     Logger.log_timestamp := false;
     Logger.log_sensor_data := true;
     Logger.max_file_size_kb := kb;
     Logger.max_files := files |}.

Definition logger_world (kb files size : Z) : Logger.World :=
  {| Logger.private_data :=
       Some {| Logger.config := logger_config kb files;
               Logger.log_fp := Some "app.log"%string;
               Logger.current_file_size := size;
               Logger.file_count := 0 |};
     Logger.fs := {[ "app.log"%string := "old"%string ]};
     Logger.fopen_denied := fun _ => false;
     Logger.events := [] |}.
End Examples.

(* ===================================================================== *)
(** ** sensor.c, temperature_sensor.c: the remaining operations *)
(* ===================================================================== *)

Module SensorOps.
Local Open Scope Z_scope.
Import U32 Sensor.

Definition sensor_type_strings : list string :=
  [ "Temperature"; "Humidity"; "Pressure"; "Gas"; "Vibration"; "Current";
    "Voltage"; "Power"; "Flow"; "Level"; "Position"; "Speed";
    "Acceleration"; "Gyroscope"; "Magnetic" ]%string.

(** The integer value of an enumerator of [SensorType]. *)
Definition type_code (t : SensorType) : nat :=
  match t with
  | SENSOR_TYPE_TEMPERATURE => 0 | SENSOR_TYPE_HUMIDITY => 1
  | SENSOR_TYPE_PRESSURE => 2 | SENSOR_TYPE_GAS => 3
  | SENSOR_TYPE_VIBRATION => 4 | SENSOR_TYPE_CURRENT => 5
  | SENSOR_TYPE_VOLTAGE => 6 | SENSOR_TYPE_POWER => 7
  | SENSOR_TYPE_FLOW => 8 | SENSOR_TYPE_LEVEL => 9
  | SENSOR_TYPE_POSITION => 10 | SENSOR_TYPE_SPEED => 11
  | SENSOR_TYPE_ACCELERATION => 12 | SENSOR_TYPE_GYROSCOPE => 13
  | SENSOR_TYPE_MAGNETIC => 14
  end%nat.

Definition sensor_type_to_string (t : SensorType) : string :=
  if (length sensor_type_strings <=? type_code t)%nat
  then "Unknown sensor type"
  else nth (type_code t) sensor_type_strings "Unknown sensor type"%string.

(** [sensor_set_unit]: a placeholder that ignores both arguments. *)
Definition sensor_set_unit {W : Type} (sensor : option (Sensor W))
    (unit : option string) : option (Sensor W) := sensor.

(** Successive calls of [sensor_read_data] on one sensor and one record,
    one per element of [envs]; the results come back in call order. *)
Fixpoint sensor_read_all {W : Type} (envs : list Libc)
    (sensor : option (Sensor W)) (data : option SensorData) (w : W)
    : list bool * option (Sensor W) * option SensorData * W :=
  match envs with
  | [] => ([], sensor, data, w)
  | env :: envs' =>
      let '(ok, sensor, data, w) := sensor_read_data env sensor data w in
      let '(oks, sensor, data, w) := sensor_read_all envs' sensor data w in
      (ok :: oks, sensor, data, w)
  end.
End SensorOps.

Module TemperatureOps.
Local Open Scope Z_scope.
Import U32 Sensor Temperature.

(** [temperature_sensor_get_stats]: the content of [*stats] afterwards. *)
Definition temperature_sensor_get_stats (sensor : option (Sensor PrivateData))
    (stats_out : option TemperatureStats) (private_data : PrivateData)
    : option TemperatureStats :=
  match sensor, stats_out, private_data with
  | Some _, Some _, Some p => Some (stats p)
  | _, _, _ => stats_out
  end.

(** [temperature_sensor_get_config]: the content of [*config] afterwards. *)
Definition temperature_sensor_get_config (sensor : option (Sensor PrivateData))
    (config_out : option TemperatureConfig) (private_data : PrivateData)
    : option TemperatureConfig :=
  match sensor, config_out, private_data with
  | Some _, Some _, Some p => Some (config p)
  | _, _, _ => config_out
  end.

Definition temperature_sensor_calculate_dew_point
    (temperature humidity : float) : float :=
  calculate_dew_point temperature humidity.

Definition temperature_sensor_calculate_heat_index
    (temperature humidity : float) : float :=
  calculate_heat_index temperature humidity.

(** Successive calls of [temperature_read] with a record, one per element
    of [envs]. *)
Fixpoint temperature_read_all (envs : list Libc) (private_data : PrivateData)
    (d : SensorData) : PrivateData :=
  match envs with
  | [] => private_data
  | env :: envs' =>
      let '(_, _, private_data) := temperature_read env private_data (Some d) in
      temperature_read_all envs' private_data d
  end.
End TemperatureOps.

(* ===================================================================== *)
(** ** logger.c: set-up, shutdown and sensor lines *)
(* ===================================================================== *)

Module LoggerOps.
Local Open Scope Z_scope.
Import U32 Sensor SensorOps Logger.

Definition logger_get_config (config_out : option LoggerConfig) (w : World)
    : option LoggerConfig :=
  match private_data w, config_out with
  | Some p, Some _ => Some (config p)
  | _, _ => config_out
  end.

Definition slash : Ascii.ascii := Ascii.ascii_of_nat 47.

(** [last_slash = strrchr (dir, '/'); if (last_slash) *last_slash = 0]:
    the text before the last slash, [None] when there is no slash. *)
Fixpoint cut_at_last_slash (dir : string) : option string :=
  match dir with
  | EmptyString => None
  | String c dir' =>
      match cut_at_last_slash dir' with
      | Some d => Some (String c d)
      | None => if Ascii.eqb c slash then Some EmptyString else None
      end
  end.

(** The one-byte string holding a double quote. *)
Definition dquote : string := String (Ascii.ascii_of_nat 34) EmptyString.

(** The command [logger_init] hands to [system] (the branch compiled
    outside Windows). *)
Definition mkdir_command (dir : string) : string :=
  snprintf 255 ("mkdir -p " +:+ dquote +:+ dir +:+ dquote).

(** [logger_init].  [malloc_ok] tells whether [malloc] returns a block.
    The result carries, beside the return value and the world, the
    command passed to [system], if any; what that command does to the
    directory tree shows only in the paths [fopen] refuses.  [stat] finds
    the file exactly when the file system holds it. *)
Definition logger_init (fuel : nat) (env : Libc) (malloc_ok : bool)
    (cfg_in : option LoggerConfig) (w : World)
    : option (bool * option string * World) :=
  if negb malloc_ok then Some (false, None, set_private None w)
  else
    let cfg := match cfg_in with
               | Some c => c
               | None => default_config
               end in
    let w := set_private
               (Some {| config := cfg; log_fp := None;
                        current_file_size := 0; file_count := 0 |}) w in
    let '(opened, command, w) :=
      if log_to_file cfg then
        let command :=
          option_map mkdir_command
            (cut_at_last_slash (strncpy 127 (log_file cfg))) in
        let '(fp, w) := sys_fopen (log_file cfg) ModeAppend w in
        match fp with
        | None => (false, command, set_private None w)
        | Some fp =>
            let size :=
              match fs w !! log_file cfg with
              | Some content => u32 (Z.of_nat (String.length content)) / 1024
              | None => 0
              end in
            (true, command,
             set_private
               (Some {| config := cfg; log_fp := Some fp;
                        current_file_size := size; file_count := 0 |}) w)
        end
      else (true, None, w) in
    if negb opened then Some (false, command, w)
    else
      match logger_log fuel env LOG_LEVEL_INFO
              (Some "Logger initialized"%string) w with
      | Some (_, w) => Some (true, command, w)
      | None => None
      end.

(** How a call of [logger_cleanup] ends: it returns; or it reaches
    [fclose (private_data->log_file)] with nothing to close, which the C
    standard leaves undefined; or the nesting bound of the shutdown
    message was hit.  ([logger_log] never clears [private_data]; the
    branch for that case is there to make the function total.) *)
Inductive CleanupOutcome :=
| CleanupReturns (w : World)
| CleanupClosesNull (w : World)
| CleanupUnbounded.

Definition logger_cleanup (fuel : nat) (env : Libc) (w : World)
    : CleanupOutcome :=
  match private_data w with
  | None => CleanupReturns w
  | Some p =>
      match log_fp p with
      | None => CleanupReturns (set_private None w)
      | Some _ =>
          match logger_log fuel env LOG_LEVEL_INFO
                  (Some "Logger shutting down"%string) w with
          | None => CleanupUnbounded
          | Some (_, w) =>
              match private_data w with
              | Some p' =>
                  match log_fp p' with
                  | Some fp =>
                      CleanupReturns (set_private None (sys_fclose fp w))
                  | None => CleanupClosesNull w
                  end
              | None => CleanupClosesNull w
              end
          end
      end
  end.

(** [entry.message] as [logger_log_sensor_data] formats it; [fmt] is the
    text [printf] renders for [%.2f]. *)
Definition sensor_message {W : Type} (fmt : float -> string)
    (sensor : Sensor W) (data : SensorData) : string :=
  let sensor_id := strncpy 31 (s_id sensor) in
  let sensor_type := strncpy 31 (sensor_type_to_string (s_type sensor)) in
  let unit := strncpy 15 (data_unit data) in
  let error :=
    match data_error data with
    | SENSOR_ERROR_NONE => strncpy 63 "No Error"
    | e => strncpy 63 (sensor_error_to_string e)
    end in
  snprintf 255
    ("Sensor: " +:+ sensor_id +:+ ", Type: " +:+ sensor_type
       +:+ ", Value: " +:+ fmt (data_value data) +:+ unit
       +:+ ", Valid: " +:+ (if data_is_valid data then "Yes" else "No")
       +:+ ", Error: " +:+ error).

Definition logger_log_sensor_data {W : Type} (fuel : nat) (env : Libc)
    (fmt : float -> string) (sensor : option (Sensor W))
    (data : option SensorData) (level : LogLevel) (w : World)
    : option (bool * World) :=
  match private_data w, sensor, data with
  | Some p, Some sensor, Some data =>
      if (level_code level <? level_code (min_level (config p)))%nat
      then Some (false, w)
      else logger_log fuel env level (Some (sensor_message fmt sensor data)) w
  | _, _, _ => Some (false, w)
  end.

(** *** Notions the properties of the logger are stated with *)

(** The configuration, and the logger state, with the [log_sensor_data]
    switch set to [b]. *)
Definition set_log_sensor_data (b : bool) (cfg : LoggerConfig)
    : LoggerConfig :=
  {| log_file := log_file cfg;
     min_level := min_level cfg;
     log_to_console := log_to_console cfg;
     log_to_file := log_to_file cfg;
     log_timestamp := log_timestamp cfg;
     log_sensor_data := b;
     max_file_size_kb := max_file_size_kb cfg;
     max_files := max_files cfg |}.

Definition with_sensor_switch (b : bool) (w : World) : World :=
  set_private
    (option_map
       (fun p => {| config := set_log_sensor_data b (config p);
                    log_fp := log_fp p;
                    current_file_size := current_file_size p;
                    file_count := file_count p |})
       (private_data w))
    w.

(** The bytes [fprintf (fp, "%s\n", line)] writes for each of [lines] in
    turn. *)
Fixpoint written (lines : list string) : string :=
  match lines with
  | [] => EmptyString
  | line :: lines' => line +:+ newline +:+ written lines'
  end.

(** The line [logger_log] writes for each of [calls] under [cfg]. *)
Definition lines_of (env : Libc) (cfg : LoggerConfig)
    (calls : list (LogLevel * string)) : list string :=
  map (fun c => format_message env cfg c.1 c.2) calls.

(** The calls of [logger_log] for a list of levels and messages. *)
Definition log_calls (calls : list (LogLevel * string))
    : list (LogLevel * option string) :=
  map (fun c => (c.1, Some c.2)) calls.
End LoggerOps.

(* ===================================================================== *)
(** ** Concrete inputs for the remaining operations *)
(* ===================================================================== *)

Module OpsExamples.
Local Open Scope Z_scope.
Import Sensor Temperature Examples.

(** Three reads: at second 1, again within the same second, and at
    second 5. *)
Definition three_reads : list Libc :=
  [ env_at 1 rand_mid; env_at 1 rand_mid; env_at 5 rand_high ].

(** The configuration of [main] with the humidity channel switched off. *)
Definition dry_config : TemperatureConfig :=
  {| min_temp := F32.of_Z 0; max_temp := F32.of_Z 50;
     alert_threshold := F32.of_Z 40; critical_threshold := F32.of_Z 45;
     calibration_offset := F32.zero;
     sampling_rate_ms := 1000;
     enable_humidity := false; enable_dew_point := true;
     enable_heat_index := true |}.

(** [logger_world] on a file system where every [fopen] is refused. *)
Definition locked_world (kb files size : Z) : Logger.World :=
  {| Logger.private_data := Logger.private_data (logger_world kb files size);
     Logger.fs := Logger.fs (logger_world kb files size);
     Logger.fopen_denied := fun _ => true;
     Logger.events := [] |}.

(** The process before [logger_init]: no logger, a log file left by an
    earlier run. *)
Definition unset_world : Logger.World :=
  {| Logger.private_data := None;
     Logger.fs := {[ "app.log"%string := "old"%string ]};
     Logger.fopen_denied := fun _ => false;
     Logger.events := [] |}.

(** Two accepted messages. *)
Definition two_calls : list (Logger.LogLevel * string) :=
  [ (Logger.LOG_LEVEL_WARNING, "a"%string);
    (Logger.LOG_LEVEL_ERROR, "b"%string) ].
End OpsExamples.

(* ===================================================================== *)
(** * Properties *)
(* ===================================================================== *)

Module U32Facts.
Import U32.
Local Open Scope Z_scope.

Lemma u32_range z : 0 <= u32 z < modulus.
Proof. apply Z.mod_pos_bound. reflexivity. Qed.

Lemma u32_small z : 0 <= z < modulus -> u32 z = z.
Proof. apply Z.mod_small. Qed.

Lemma add_u32_l a b : add (u32 a) b = u32 (a + b).
Proof. unfold add, u32. apply Zplus_mod_idemp_l. Qed.
End U32Facts.

Module SensorFacts.
Import U32 Sensor.
Local Open Scope Z_scope.

Section Dispatch.
Context {W : Type}.
Implicit Types (s : Sensor W) (d : SensorData) (w : W) (env : Libc).

Lemma sensor_read_data_bound env s d w read :
  s_read s = Some read ->
  sensor_read_data env (Some s) (Some d) w =
    let '(ok, d', w') := read env w (stamp env s d) in
    let s1 := set_sample_count (add (s_sample_count s) 1) s in
    if ok
    then (true, Some (set_last_error SENSOR_ERROR_NONE s1), Some d', w')
    else (false,
          Some (set_error_count (add (s_error_count s) 1)
                  (set_last_error (data_error d') s1)),
          Some d', w').
Proof.
  intros Hread. unfold sensor_read_data. rewrite Hread.
  destruct (read env w (stamp env s d)) as [[ok d'] w'].
  destruct ok; reflexivity.
Qed.

Lemma default_unit_fits (t : SensorType) :
  strncpy 15 (default_unit t) = default_unit t.
Proof. destruct t; reflexivity. Qed.

Lemma sensor_read_data_absent (env : Libc) (sensor : option (Sensor W))
    (data : option SensorData) w :
  sensor = None \/ data = None \/
    (exists s, sensor = Some s /\ s_read s = None) ->
  sensor_read_data env sensor data w =
    (false, option_map (set_last_error SENSOR_ERROR_INVALID_PARAM) sensor,
     data, w).
Proof.
  unfold sensor_read_data.
  intros [-> | [-> | (s & -> & Hread)]]; simpl.
  - reflexivity.
  - destruct sensor as [s|]; reflexivity.
  - rewrite Hread. destruct data; reflexivity.
Qed.

(** C7 (amended). [sensor_read_data] on a sensor with a bound read
    implementation hands that implementation a record stamped with the
    sensor's type, the clock reading, the default unit of the type and
    a cleared validity flag, and counts the sample whether the
    implementation succeeds or fails; when it fails the call returns
    false, copies the error the record reports into [last_error] and
    counts the error.  With the sensor, the record or the read slot
    absent the call returns false, touches neither record nor
    implementation state, and sets [last_error] of the sensor, when
    there is one, to [SENSOR_ERROR_INVALID_PARAM]; with no sensor the
    false return is all there is. *)
Theorem sensor_read_data_contract (env : Libc) w :
  (forall s d read,
      s_read s = Some read ->
      let d0 := stamp env s d in
      let r := read env w d0 in
      (data_type d0 = s_type s /\
       data_timestamp d0 = u32 (libc_time env) /\
       data_unit d0 = default_unit (s_type s) /\
       data_is_valid d0 = false) /\
      exists s',
        sensor_read_data env (Some s) (Some d) w
          = (r.1.1, Some s', Some r.1.2, r.2) /\
        s_sample_count s' = add (s_sample_count s) 1 /\
        (r.1.1 = false ->
           s_last_error s' = data_error r.1.2 /\
           s_error_count s' = add (s_error_count s) 1)) /\
  (forall (sensor : option (Sensor W)) data,
      sensor = None \/ data = None \/
        (exists s, sensor = Some s /\ s_read s = None) ->
      sensor_read_data env sensor data w =
        (false,
         option_map (set_last_error SENSOR_ERROR_INVALID_PARAM) sensor,
         data, w)).
Proof.
  split.
  - intros s d read Hread d0 r. split.
    + subst d0. simpl. rewrite default_unit_fits. auto.
    + rewrite (sensor_read_data_bound env s d w read Hread).
      fold d0. fold r. destruct r as [[ok d'] w']. simpl.
      destruct ok; eexists; (split; [reflexivity|]); simpl;
        (split; [reflexivity|]); intros; [discriminate | auto].
  - intros sensor data. apply sensor_read_data_absent.
Qed.
End Dispatch.
End SensorFacts.

Module TemperatureFacts.
Import U32 Sensor Temperature Examples SensorFacts.
Local Open Scope Z_scope.

Implicit Types (env : Libc) (p : TemperatureSensorPrivate) (d : SensorData).
Implicit Types (cfg : TemperatureConfig) (st : TemperatureStats).

(** *** The two branches of [temperature_read] *)

Lemma temperature_read_debounced env p d :
  debounced env p = true ->
  temperature_read env (Some p) (Some d) =
    (true,
     Some {| data_type := data_type d;
             data_value := temperature (last_reading p);
             data_timestamp := data_timestamp d;
             data_is_valid := true;
             data_error := SENSOR_ERROR_NONE;
             data_unit := data_unit d |},
     Some p).
Proof. intros H. unfold temperature_read. rewrite H. reflexivity. Qed.

Lemma temperature_read_fresh env p d :
  debounced env p = false ->
  let cfg := config p in
  let v := sample_temperature env cfg in
  let oor := out_of_range cfg v in
  let al := F32.gtb v (alert_threshold cfg) in
  let cr := F32.gtb v (critical_threshold cfg) in
  let st1 := update_stats_values (stats p) v in
  temperature_read env (Some p) (Some d) =
    (negb oor,
     Some {| data_type := data_type d;
             data_value := v;
             data_timestamp := data_timestamp d;
             data_is_valid := true;
             data_error := if oor || al || cr
                           then SENSOR_ERROR_OUT_OF_RANGE
                           else SENSOR_ERROR_NONE;
             data_unit := data_unit d |},
     Some {| config := cfg;
             last_reading := sample_reading env p;
             stats :=
               {| min_value := min_value st1;
                  max_value := max_value st1;
                  avg_value := avg_value st1;
                  std_deviation := std_deviation st1;
                  sample_count := sample_count st1;
                  alert_count :=
                    if negb oor && al then add (alert_count (stats p)) 1
                    else alert_count (stats p);
                  critical_count :=
                    if negb oor && cr then add (critical_count (stats p)) 1
                    else critical_count (stats p) |};
             last_sample_time := current_time_ms env |}).
Proof.
  intros H cfg v oor al cr st1.
  assert (Ht : temperature (sample_reading env p) = v) by reflexivity.
  unfold temperature_read. rewrite H.
  cbn -[F32.ltb F32.gtb sample_temperature sample_reading
        update_stats_values current_time_ms add].
  rewrite !Ht. fold cfg. fold st1.
  subst oor al cr. unfold out_of_range.
  destruct (F32.ltb v (min_temp cfg)), (F32.gtb v (max_temp cfg));
    try reflexivity.
  cbn [orb negb andb].
  destruct (F32.gtb v (alert_threshold cfg));
    cbn -[F32.gtb update_stats_values add];
    destruct (F32.gtb v (critical_threshold cfg)); reflexivity.
Qed.

(** Every read of an initialised sensor hands back the temperature it
    leaves in [last_reading]. *)
Lemma temperature_read_value env p d :
  exists ok d' p',
    temperature_read env (Some p) (Some d) = (ok, Some d', Some p') /\
    data_value d' = temperature (last_reading p').
Proof.
  destruct (debounced env p) eqn:Hdeb.
  - rewrite (temperature_read_debounced _ _ _ Hdeb). eauto 6.
  - rewrite (temperature_read_fresh _ _ _ Hdeb). eauto 6.
Qed.

(** *** Construction *)

Lemma temperature_sensor_init_stores_config
    (s : Sensor PrivateData) (id : string) cfg (pd : PrivateData) :
  exists s',
    temperature_sensor_init true (Some s) (Some id) (Some cfg) pd
      = (true, Some s', Some (private_of cfg)) /\
    s_read s' = Some temperature_read_slot.
Proof. eexists. split; reflexivity. Qed.

Lemma temperature_sensor_init_no_memory
    (s : Sensor PrivateData) (id : string) cfg (pd : PrivateData) :
  exists s',
    temperature_sensor_init false (Some s) (Some id) (Some cfg) pd
      = (false, Some s', None) /\
    s_last_error s' = SENSOR_ERROR_MEMORY.
Proof. eexists. split; reflexivity. Qed.

(** C1. Construction accepts a configuration that breaks both invariants:
    with the range inverted ([min_temp] = 125, [max_temp] = -40) and
    [sampling_rate_ms] = 0, [temperature_sensor_init] returns true and
    leaves the private state allocated around that very configuration. *)
Theorem temperature_sensor_init_accepts_inverted_config :
  F32.ltb (min_temp inverted_config) (max_temp inverted_config) = false /\
  (0 <? sampling_rate_ms inverted_config) = false /\
  exists s',
    temperature_sensor_init true (Some blank_sensor) (Some "TEMP001"%string)
      (Some inverted_config) None
    = (true, Some s', Some (private_of inverted_config)).
Proof.
  split; [reflexivity|]. split; [reflexivity|].
  eexists. reflexivity.
Qed.

(** *** Classification of a fresh sample *)

(** Every fresh sample outside the range fails the read with
    [SENSOR_ERROR_OUT_OF_RANGE] and comes back with [is_valid] set. *)
Lemma temperature_read_out_of_range env p d :
  debounced env p = false ->
  out_of_range (config p) (sample_temperature env (config p)) = true ->
  exists d' p',
    temperature_read env (Some p) (Some d) = (false, Some d', Some p') /\
    data_error d' = SENSOR_ERROR_OUT_OF_RANGE /\
    data_is_valid d' = true.
Proof.
  intros Hfresh Hoor.
  pose proof (temperature_read_fresh env p d Hfresh) as Hread.
  cbv zeta in Hread. rewrite Hoor in Hread.
  do 2 eexists. split; [exact Hread|]. split; reflexivity.
Qed.

(** C3. A fresh sample above [max_temp] (55 against the range 0..50) makes
    [temperature_read] return false with [SENSOR_ERROR_OUT_OF_RANGE], but
    the record it hands back still has [is_valid] set; the same record
    comes out of [sensor_read_data] on the initialised sensor. *)
Theorem temperature_read_out_of_range_keeps_valid :
  let cfg := config_of 0 50 40 45 30 in
  let env := env_at 1 rand_mid in
  debounced env (private_of cfg) = false /\
  sample_temperature env cfg = F32.of_Z 55 /\
  out_of_range cfg (F32.of_Z 55) = true /\
  (exists p',
      temperature_read env (Some (private_of cfg)) (Some blank_data)
      = (false,
         Some {| data_type := SENSOR_TYPE_TEMPERATURE;
                 data_value := F32.of_Z 55;
                 data_timestamp := 0;
                 data_is_valid := true;
                 data_error := SENSOR_ERROR_OUT_OF_RANGE;
                 data_unit := EmptyString |},
         Some p')) /\
  (exists s s' d' p',
      temperature_sensor_init true (Some blank_sensor) (Some "TEMP001"%string)
        (Some cfg) None = (true, Some s, Some (private_of cfg)) /\
      sensor_read_data env (Some s) (Some blank_data) (Some (private_of cfg))
        = (false, Some s', Some d', Some p') /\
      data_is_valid d' = true /\
      data_error d' = SENSOR_ERROR_OUT_OF_RANGE /\
      s_last_error s' = SENSOR_ERROR_OUT_OF_RANGE).
Proof.
  cbv zeta.
  split; [vm_compute; reflexivity|].
  split; [vm_compute; reflexivity|].
  split; [vm_compute; reflexivity|].
  split.
  - eexists. vm_compute. reflexivity.
  - do 4 eexists.
    split; [reflexivity|].
    split.
    + rewrite sensor_read_data_bound with (read := temperature_read_slot)
        by reflexivity.
      set (r := temperature_read_slot _ _ _). vm_compute in r. subst r.
      cbv beta iota. reflexivity.
    + split; [reflexivity|]. split; reflexivity.
Qed.

(** A sample at 100 against the range 0..50 and thresholds 40 and 45 is
    above all three limits, and the read counts neither an alert nor a
    critical event for it. *)
Lemma temperature_read_hot_sample_counts_nothing :
  let cfg := config_of 0 50 40 45 75 in
  let env := env_at 1 rand_mid in
  let p := private_of cfg in
  let v := sample_temperature env cfg in
  debounced env p = false /\
  F32.gtb v (max_temp cfg) = true /\
  F32.gtb v (alert_threshold cfg) = true /\
  F32.gtb v (critical_threshold cfg) = true /\
  exists d' p',
    temperature_read env (Some p) (Some blank_data)
      = (false, Some d', Some p') /\
    alert_count (stats p') <> add (alert_count (stats p)) 1 /\
    critical_count (stats p') <> add (critical_count (stats p)) 1.
Proof.
  cbv zeta.
  split; [vm_compute; reflexivity|].
  split; [vm_compute; reflexivity|].
  split; [vm_compute; reflexivity|].
  split; [vm_compute; reflexivity|].
  do 2 eexists. split; [vm_compute; reflexivity|].
  split; vm_compute; discriminate.
Qed.

(** C2 (amended). The range check gates the two threshold checks, which
    are independent of each other: a fresh sample outside
    [min_temp, max_temp] makes the read fail with
    [SENSOR_ERROR_OUT_OF_RANGE] and leaves [alert_count] and
    [critical_count] as they were; a fresh sample inside the range and
    above both thresholds makes the one read succeed, report
    [SENSOR_ERROR_OUT_OF_RANGE] and increment both counters. *)
Theorem temperature_read_threshold_tiers env p d :
  debounced env p = false ->
  let cfg := config p in
  let v := sample_temperature env cfg in
  (out_of_range cfg v = true ->
   exists d' p',
     temperature_read env (Some p) (Some d) = (false, Some d', Some p') /\
     data_error d' = SENSOR_ERROR_OUT_OF_RANGE /\
     alert_count (stats p') = alert_count (stats p) /\
     critical_count (stats p') = critical_count (stats p)) /\
  (out_of_range cfg v = false ->
   F32.gtb v (alert_threshold cfg) = true ->
   F32.gtb v (critical_threshold cfg) = true ->
   exists d' p',
     temperature_read env (Some p) (Some d) = (true, Some d', Some p') /\
     data_is_valid d' = true /\
     data_error d' = SENSOR_ERROR_OUT_OF_RANGE /\
     alert_count (stats p') = add (alert_count (stats p)) 1 /\
     critical_count (stats p') = add (critical_count (stats p)) 1).
Proof.
  intros Hfresh cfg v.
  pose proof (temperature_read_fresh env p d Hfresh) as Hread.
  cbv zeta in Hread. fold cfg in Hread. fold v in Hread.
  split.
  - intros Hoor. rewrite Hoor in Hread.
    do 2 eexists. split; [exact Hread|]. cbn. auto.
  - intros Hoor Hal Hcr. rewrite Hoor, Hal, Hcr in Hread.
    do 2 eexists. split; [exact Hread|]. cbn. auto.
Qed.

Lemma temperature_read_threshold_tiers_witness :
  (exists d' p',
      temperature_read (env_at 1 rand_mid)
        (Some (private_of (config_of 0 50 40 45 75))) (Some blank_data)
        = (false, Some d', Some p') /\
      alert_count (stats p') = 0 /\ critical_count (stats p') = 0) /\
  (exists d' p',
      temperature_read (env_at 1 rand_mid)
        (Some (private_of (config_of 0 50 20 22 0))) (Some blank_data)
        = (true, Some d', Some p') /\
      alert_count (stats p') = 1 /\ critical_count (stats p') = 1).
Proof.
  split.
  - destruct (temperature_read_threshold_tiers (env_at 1 rand_mid)
                (private_of (config_of 0 50 40 45 75)) blank_data)
      as [Hout _]; [vm_compute; reflexivity|].
    destruct Hout as (d' & p' & Hread & _ & Ha & Hc);
      [vm_compute; reflexivity|].
    exists d', p'. split; [exact Hread|]. split; [exact Ha | exact Hc].
  - destruct (temperature_read_threshold_tiers (env_at 1 rand_mid)
                (private_of (config_of 0 50 20 22 0)) blank_data)
      as [_ Hin]; [vm_compute; reflexivity|].
    destruct Hin as (d' & p' & Hread & _ & _ & Ha & Hc);
      try (vm_compute; reflexivity).
    exists d', p'. split; [exact Hread|]. split; [exact Ha | exact Hc].
Defined.

(** With the thresholds at 20 and 25, a fresh sample of exactly 25 (equal
    to [critical_threshold]) counts an alert but no critical event; a
    sample above [alert_threshold] that is out of range counts nothing and
    fails; with the critical threshold below the alert threshold a sample
    between them counts a critical event but no alert. *)
Lemma temperature_read_critical_is_strict :
  let env := env_at 1 rand_mid in
  (let cfg := config_of 0 50 20 25 0 in
   let v := sample_temperature env cfg in
   debounced env (private_of cfg) = false /\
   F32.geb v (critical_threshold cfg) = true /\
   exists d' p',
     temperature_read env (Some (private_of cfg)) (Some blank_data)
       = (true, Some d', Some p') /\
     alert_count (stats p') = 1 /\ critical_count (stats p') = 0) /\
  (let cfg := config_of 0 20 22 30 0 in
   let v := sample_temperature env cfg in
   debounced env (private_of cfg) = false /\
   F32.gtb v (alert_threshold cfg) = true /\
   F32.gtb v (critical_threshold cfg) = false /\
   exists d' p',
     temperature_read env (Some (private_of cfg)) (Some blank_data)
       = (false, Some d', Some p') /\
     alert_count (stats p') = 0) /\
  (let cfg := config_of 0 50 40 20 0 in
   let v := sample_temperature env cfg in
   debounced env (private_of cfg) = false /\
   F32.geb v (critical_threshold cfg) = true /\
   exists d' p',
     temperature_read env (Some (private_of cfg)) (Some blank_data)
       = (true, Some d', Some p') /\
     alert_count (stats p') = 0 /\ critical_count (stats p') = 1).
Proof.
  cbv zeta. split; [|split].
  - split; [vm_compute; reflexivity|].
    split; [vm_compute; reflexivity|].
    do 2 eexists. split; [vm_compute; reflexivity|]. split; reflexivity.
  - split; [vm_compute; reflexivity|].
    split; [vm_compute; reflexivity|].
    split; [vm_compute; reflexivity|].
    do 2 eexists. split; [vm_compute; reflexivity|]. reflexivity.
  - split; [vm_compute; reflexivity|].
    split; [vm_compute; reflexivity|].
    do 2 eexists. split; [vm_compute; reflexivity|]. split; reflexivity.
Qed.

(** C4 (amended). For every fresh sample inside [min_temp, max_temp] and
    strictly above [alert_threshold], the read succeeds and increments
    [alert_count]; it increments [critical_count] as well when the value
    is strictly above [critical_threshold], and leaves [critical_count]
    alone when it is not (a value equal to the threshold included). *)
Theorem temperature_read_alert_and_critical env p d :
  debounced env p = false ->
  let cfg := config p in
  let v := sample_temperature env cfg in
  out_of_range cfg v = false ->
  F32.gtb v (alert_threshold cfg) = true ->
  exists d' p',
    temperature_read env (Some p) (Some d) = (true, Some d', Some p') /\
    alert_count (stats p') = add (alert_count (stats p)) 1 /\
    critical_count (stats p') =
      if F32.gtb v (critical_threshold cfg)
      then add (critical_count (stats p)) 1
      else critical_count (stats p).
Proof.
  intros Hfresh cfg v Hoor Hal.
  pose proof (temperature_read_fresh env p d Hfresh) as Hread.
  cbv zeta in Hread. fold cfg in Hread. fold v in Hread.
  rewrite Hoor, Hal in Hread.
  do 2 eexists. split; [exact Hread|]. cbn. auto.
Qed.

Lemma temperature_read_alert_and_critical_witness :
  (exists d' p',
      temperature_read (env_at 1 rand_mid)
        (Some (private_of (config_of 0 50 20 25 0))) (Some blank_data)
        = (true, Some d', Some p') /\
      alert_count (stats p') = 1 /\ critical_count (stats p') = 0) /\
  (exists d' p',
      temperature_read (env_at 1 rand_high)
        (Some (private_of (config_of 0 50 20 25 0))) (Some blank_data)
        = (true, Some d', Some p') /\
      alert_count (stats p') = 1 /\ critical_count (stats p') = 1).
Proof.
  split.
  - destruct (temperature_read_alert_and_critical (env_at 1 rand_mid)
                (private_of (config_of 0 50 20 25 0)) blank_data)
      as (d' & p' & Hread & Ha & Hc); try (vm_compute; reflexivity).
    exists d', p'. split; [exact Hread|]. split; [exact Ha | exact Hc].
  - destruct (temperature_read_alert_and_critical (env_at 1 rand_high)
                (private_of (config_of 0 50 20 25 0)) blank_data)
      as (d' & p' & Hread & Ha & Hc); try (vm_compute; reflexivity).
    exists d', p'. split; [exact Hread|]. split; [exact Ha | exact Hc].
Defined.

(** *** Debounce *)

(** The time the debounce measures runs from the last read that
    sampled, not from the previous read.  With a sampling period of
    2.5 s and reads at seconds 10, 12 and 13: the first samples, the
    second is answered from the cache, and the third, one second after
    the second, samples afresh (3 s after the first), returning another
    value and moving [sample_count] and [last_sample_time]. *)
Lemma temperature_read_debounce_counts_from_last_sample :
  let p0 := private_of slow_config in
  let env1 := env_at 10 rand_mid in
  let env2 := env_at 12 rand_mid in
  let env3 := env_at 13 rand_high in
  exists d1 p1 d2 d3 p3,
    temperature_read env1 (Some p0) (Some blank_data)
      = (true, Some d1, Some p1) /\
    temperature_read env2 (Some p1) (Some blank_data)
      = (true, Some d2, Some p1) /\
    sub (current_time_ms env3) (current_time_ms env2)
      < sampling_rate_ms (config p1) /\
    temperature_read env3 (Some p1) (Some blank_data)
      = (true, Some d3, Some p3) /\
    data_value d3 <> data_value d2 /\
    sample_count (stats p3) <> sample_count (stats p1) /\
    last_sample_time p3 <> last_sample_time p1.
Proof.
  cbv zeta. do 5 eexists.
  split; [vm_compute; reflexivity|].
  split; [vm_compute; reflexivity|].
  split; [vm_compute; reflexivity|].
  split; [vm_compute; reflexivity|].
  split; [|split]; vm_compute; discriminate.
Qed.

(** C5 (amended). Whatever the first of two consecutive reads did, it
    hands back a record and a state; when the second read finds the time
    since the last sample, [current_time - last_sample_time] in 32-bit
    arithmetic, below [sampling_rate_ms], it returns
    true with the first read's value, [is_valid] set and
    [SENSOR_ERROR_NONE], and the private state (statistics and
    [last_sample_time] included) is the one the first read left.  After a
    first read that sampled, [last_sample_time] is the time of that read,
    so the elapsed time is the time between the two reads. *)
Theorem temperature_read_debounce env1 env2 p0 d1 d2 :
  exists ok1 d1' p1,
    temperature_read env1 (Some p0) (Some d1) = (ok1, Some d1', Some p1) /\
    (debounced env1 p0 = false ->
     last_sample_time p1 = current_time_ms env1 /\ config p1 = config p0) /\
    (sub (current_time_ms env2) (last_sample_time p1)
       < sampling_rate_ms (config p1) ->
     temperature_read env2 (Some p1) (Some d2) =
       (true,
        Some {| data_type := data_type d2;
                data_value := data_value d1';
                data_timestamp := data_timestamp d2;
                data_is_valid := true;
                data_error := SENSOR_ERROR_NONE;
                data_unit := data_unit d2 |},
        Some p1)).
Proof.
  destruct (temperature_read_value env1 p0 d1) as (ok1 & d1' & p1 & Hread & Hv).
  exists ok1, d1', p1. split; [exact Hread|]. split.
  - intros Hfresh. rewrite (temperature_read_fresh _ _ _ Hfresh) in Hread.
    cbv zeta in Hread. injection Hread as _ _ <-. split; reflexivity.
  - intros Hlt. rewrite Hv. apply temperature_read_debounced.
    unfold debounced. apply Z.ltb_lt. exact Hlt.
Qed.

Lemma temperature_read_debounce_witness :
  exists ok1 d1' p1,
    temperature_read (env_at 1 rand_mid) (Some (private_of main_config))
      (Some blank_data) = (ok1, Some d1', Some p1) /\
    data_value d1' = F32.of_Z 25 /\
    temperature_read (env_at 1 rand_high) (Some p1) (Some blank_data) =
      (true,
       Some {| data_type := SENSOR_TYPE_TEMPERATURE;
               data_value := F32.of_Z 25;
               data_timestamp := 0;
               data_is_valid := true;
               data_error := SENSOR_ERROR_NONE;
               data_unit := EmptyString |},
       Some p1).
Proof.
  destruct (temperature_read_debounce (env_at 1 rand_mid) (env_at 1 rand_high)
              (private_of main_config) blank_data blank_data)
    as (ok1 & d1' & p1 & Hread & _ & Hsecond).
  exists ok1, d1', p1. split; [exact Hread|].
  assert (Hres : (ok1, Some d1', Some p1) =
                 temperature_read (env_at 1 rand_mid)
                   (Some (private_of main_config)) (Some blank_data))
    by (symmetry; exact Hread).
  vm_compute in Hres. injection Hres as Hok Hd Hp.
  assert (Hval : data_value d1' = F32.of_Z 25)
    by (rewrite Hd; vm_compute; reflexivity).
  split; [exact Hval|].
  rewrite <- Hval. apply Hsecond. rewrite Hp. vm_compute. reflexivity.
Defined.

(** *** The dispatcher on the temperature sensor *)

Lemma temperature_sensor_init_temp_sensor cfg :
  temperature_sensor_init true (Some blank_sensor) (Some "TEMP001"%string)
    (Some cfg) None = (true, Some temp_sensor, Some (private_of cfg)).
Proof. reflexivity. Qed.

Lemma sensor_read_data_contract_witness :
  let env := env_at 1 rand_mid in
  let w := Some (private_of (config_of 0 50 40 45 30)) in
  (exists s' d' p',
      sensor_read_data env (Some temp_sensor) (Some blank_data) w
        = (false, Some s', Some d', Some p') /\
      data_unit (stamp env temp_sensor blank_data) = "°C"%string /\
      s_sample_count s' = 1 /\
      s_error_count s' = 1 /\
      s_last_error s' = data_error d') /\
  sensor_read_data env (None : option (Sensor PrivateData))
    (Some blank_data) w = (false, None, Some blank_data, w).
Proof.
  cbv zeta.
  destruct (sensor_read_data_contract (env_at 1 rand_mid)
              (Some (private_of (config_of 0 50 40 45 30))))
    as [Hbound Habsent].
  split.
  - destruct (Hbound temp_sensor blank_data temperature_read_slot eq_refl)
      as ((_ & _ & Hunit & _) & s' & Hread & Hcount & Herr).
    set (r := temperature_read_slot _ _ _) in *.
    assert (Hr : exists d' p', r = (false, d', Some p'))
      by (vm_compute; eauto).
    destruct Hr as (d' & p' & Hr). rewrite Hr in Hread, Herr.
    cbn [fst snd] in Hread, Herr.
    destruct (Herr eq_refl) as [Hlast Hcnt].
    exists s', d', p'.
    split; [exact Hread|]. split; [exact Hunit|].
    split; [exact Hcount|]. split; [exact Hcnt | exact Hlast].
  - apply (Habsent None (Some blank_data)). left. reflexivity.
Defined.

(** With a null sensor the call only returns false: there is no sensor
    to carry [SENSOR_ERROR_INVALID_PARAM], and the record is handed back
    as it came, its error still [SENSOR_ERROR_NONE]. *)
Lemma sensor_read_data_null_sensor_is_silent :
  let env := env_at 1 rand_mid in
  let w : PrivateData := Some (private_of main_config) in
  sensor_read_data env None (Some blank_data) w
    = (false, None, Some blank_data, w) /\
  data_error blank_data = SENSOR_ERROR_NONE /\
  forall sensor' data',
    sensor_read_data env None (Some blank_data) w
      = (false, sensor', data', w) ->
    (forall s, sensor' = Some s ->
               s_last_error s <> SENSOR_ERROR_INVALID_PARAM) /\
    (forall d, data' = Some d ->
               data_error d <> SENSOR_ERROR_INVALID_PARAM).
Proof.
  cbv zeta. split; [reflexivity|]. split; [reflexivity|].
  intros sensor' data' H. cbn in H. injection H as <- <-.
  split; [intros s Hs; discriminate Hs|].
  intros d [= <-]. discriminate.
Qed.
End TemperatureFacts.

Module F32Facts.
Import F32.
Local Open Scope Z_scope.

Lemma compare_cont_Eq (m n : positive) :
  Pos.compare_cont Eq m n = Pos.compare m n.
Proof. reflexivity. Qed.



Lemma SFcompare_finite_Lt s1 m1 e1 s2 m2 e2 :
  SFcompare (S754_finite s1 m1 e1) (S754_finite s2 m2 e2) = Some Lt <->
  match s1, s2 with
  | true, false => True
  | false, true => False
  | false, false => e1 < e2 \/ (e1 = e2 /\ Zpos m1 < Zpos m2)
  | true, true => e2 < e1 \/ (e1 = e2 /\ Zpos m2 < Zpos m1)
  end.
Proof.
  simpl. rewrite compare_cont_Eq.
  destruct s1, s2; try (split; [auto | reflexivity]);
    try (split; [discriminate | tauto]);
    destruct (Z.compare_spec e1 e2) as [He|He|He],
      (Pos.compare_spec m1 m2) as [Hm|Hm|Hm]; simpl;
    split; intros Hx; try discriminate; try reflexivity;
    try (destruct Hx as [Hx | [Hx1 Hx2]]); try lia; auto.
Qed.

Lemma ltb_trans (a b c : float) :
  ltb a b = true -> ltb b c = true -> ltb a c = true.
Proof.
  unfold ltb, SFltb.
  destruct (SFcompare a b) as [[]|] eqn:Hab; try discriminate.
  destruct (SFcompare b c) as [[]|] eqn:Hbc; try discriminate.
  intros _ _.
  enough (SFcompare a c = Some Lt) as -> by reflexivity.
  destruct a as [sa|sa| |sa ma ea], b as [sb|sb| |sb mb eb],
    c as [sc|sc| |sc mc ec];
    try discriminate;
    try (simpl in *; destruct sa; try discriminate;
         destruct sb; try discriminate;
         destruct sc; try discriminate; reflexivity).
  apply SFcompare_finite_Lt in Hab, Hbc. apply SFcompare_finite_Lt.
  destruct sa, sb, sc; try tauto; lia.
Qed.




(** *** Division by one *)



End F32Facts.

Module StatisticsFacts.
Import U32 Sensor Temperature Examples U32Facts TemperatureFacts F32Facts.
Local Open Scope Z_scope.

Implicit Types (p : TemperatureSensorPrivate) (st : TemperatureStats).
Implicit Types (v m : float) (vs : list float).

(** *** A running extremum under a strict order *)

Section Extremum.
Variable lt : float -> float -> bool.
Hypothesis lt_irrefl : forall a, lt a a = false.
Hypothesis lt_trans :
  forall a b c, lt a b = true -> lt b c = true -> lt a c = true.


End Extremum.



(** *** What [stats_after] holds *)





(** *** The running mean *)





(** *** From reads to [stats_after] *)






End StatisticsFacts.

Module LoggerFacts.
Import U32 Logger Examples U32Facts.
Local Open Scope Z_scope.

Implicit Types (w : World) (p : LoggerPrivate) (cfg : LoggerConfig).
Implicit Types (level : LogLevel) (env : Libc) (fuel : nat).

(** *** Level names *)

Lemma strcasecmp_head c a c' b :
  strcasecmp (String c a) (String c' b) = 0 -> tolower c = tolower c'.
Proof.
  cbn [strcasecmp].
  destruct (Z.eqb_spec (tolower c) (tolower c')); [auto | lia].
Qed.

Ltac head_clash H H' :=
  apply strcasecmp_head in H; apply strcasecmp_head in H';
  rewrite H in H'; vm_compute in H'; discriminate H'.

Lemma logger_string_to_level_match (l : LogLevel) (s : string) :
  strcasecmp s (logger_level_to_string l) = 0 ->
  logger_string_to_level (Some s) = l.
Proof.
  intros H.
  destruct s as [|c r]; [destruct l; vm_compute in H; discriminate|].
  unfold logger_string_to_level.
  cbn [string_to_level_loop level_strings].
  destruct l; vm_compute (logger_level_to_string _) in H;
    repeat match goal with
      | |- context [Z.eqb (strcasecmp ?a ?b) 0] =>
          let E := fresh "E" in
          destruct (Z.eqb_spec (strcasecmp a b) 0) as [E|E];
          [ first [ reflexivity | head_clash H E ] | try contradiction ]
      end.
Qed.

Lemma logger_string_to_level_no_match (s : string) :
  (forall name, In name level_strings -> strcasecmp s name <> 0) ->
  logger_string_to_level (Some s) = LOG_LEVEL_INFO.
Proof.
  intros H. unfold logger_string_to_level.
  cbn [string_to_level_loop level_strings].
  repeat match goal with
    | |- context [Z.eqb (strcasecmp ?a ?b) 0] =>
        let E := fresh "E" in
        destruct (Z.eqb_spec (strcasecmp a b) 0) as [E|E];
        [ exfalso; apply (H b); [cbn; tauto | exact E] | ]
    end.
  reflexivity.
Qed.

(** C10. [logger_string_to_level] is total; it maps the name of every
    level back to that level, and so does every string that matches the
    name up to the case of its letters; for the null pointer and for
    every string that matches none of the five names it answers
    [LOG_LEVEL_INFO]. *)
Theorem logger_string_to_level_round_trip :
  (forall l, logger_string_to_level (Some (logger_level_to_string l)) = l) /\
  (forall l s, strcasecmp s (logger_level_to_string l) = 0 ->
               logger_string_to_level (Some s) = l) /\
  logger_string_to_level None = LOG_LEVEL_INFO /\
  (forall s, (forall name, In name level_strings -> strcasecmp s name <> 0) ->
             logger_string_to_level (Some s) = LOG_LEVEL_INFO).
Proof.
  split; [intros l; destruct l; reflexivity|].
  split; [exact logger_string_to_level_match|].
  split; [reflexivity | exact logger_string_to_level_no_match].
Qed.

Lemma logger_string_to_level_round_trip_witness :
  logger_string_to_level (Some "warning"%string) = LOG_LEVEL_WARNING /\
  logger_string_to_level (Some "verbose"%string) = LOG_LEVEL_INFO.
Proof.
  destruct logger_string_to_level_round_trip as (_ & Hmatch & _ & Hnone).
  split.
  - apply Hmatch. reflexivity.
  - apply Hnone. intros name Hin.
    cbn in Hin. destruct Hin as [<-|[<-|[<-|[<-|[<-|[]]]]]];
      vm_compute; discriminate.
Defined.

(** *** The guard of [logger_log] *)

Lemma logger_log_eq fuel env level message w :
  logger_log fuel env level message w =
  match private_data w, message with
  | Some p, Some message =>
      if (level_code level <? level_code (min_level (config p)))%nat
      then Some (false, w)
      else
        let cfg := config p in
        let formatted_message := format_message env cfg level message in
        let w := if log_to_console cfg
                 then sys_printf formatted_message w else w in
        match log_to_file cfg, log_fp p with
        | true, Some fp =>
            let w := sys_fprintf fp formatted_message w in
            let size :=
              u32 (current_file_size p
                   + (Z.of_nat (String.length formatted_message) + 1)) in
            let w := set_private
                       (Some {| config := cfg; log_fp := Some fp;
                                current_file_size := size;
                                file_count := file_count p |}) w in
            if size_limit cfg <=? size then
              match fuel with
              | O => None
              | S fuel' =>
                  match rotate_with (logger_log fuel' env) w with
                  | Some w => Some (true, w)
                  | None => None
                  end
              end
            else Some (true, w)
        | _, _ => Some (true, w)
        end
  | _, _ => Some (false, w)
  end.
Proof. destruct fuel; reflexivity. Qed.

Lemma logger_log_gated fuel env level message w :
  log_gated w level message ->
  logger_log fuel env level message w = Some (false, w).
Proof.
  intros Hg. rewrite logger_log_eq.
  destruct Hg as [Hp | [-> | (p & Hp & Hlt)]].
  - rewrite Hp. reflexivity.
  - destruct (private_data w); reflexivity.
  - rewrite Hp. destruct message; [|reflexivity].
    apply Nat.ltb_lt in Hlt. rewrite Hlt. reflexivity.
Qed.

Lemma logger_log_false fuel env level message w w' :
  logger_log fuel env level message w = Some (false, w') ->
  log_gated w level message.
Proof.
  rewrite logger_log_eq. unfold log_gated.
  destruct (private_data w) as [p|]; [|auto].
  destruct message as [message|]; [|auto].
  destruct (Nat.ltb_spec (level_code level) (level_code (min_level (config p))))
    as [Hlt|Hge].
  - intros _. right. right. exists p. auto.
  - cbv zeta.
    destruct (log_to_file (config p)), (log_fp p); try discriminate.
    destruct (size_limit (config p) <=? _); [|discriminate].
    destruct fuel; [discriminate|].
    destruct (rotate_with _ _); discriminate.
Qed.

(** C8. [logger_log] returns false exactly when the logger is not
    initialised, the message is null, or the level is below the configured
    minimum; it then leaves the world (console, files, logger state) as it
    was.  In particular a DEBUG message under minimum level INFO returns
    false. *)
Theorem logger_log_false_iff fuel env level message w :
  (log_gated w level message ->
   logger_log fuel env level message w = Some (false, w)) /\
  (forall w', logger_log fuel env level message w = Some (false, w') ->
              log_gated w level message) /\
  (forall p, private_data w = Some p ->
             min_level (config p) = LOG_LEVEL_INFO ->
             logger_log fuel env LOG_LEVEL_DEBUG (Some "x"%string) w
             = Some (false, w)).
Proof.
  split; [apply logger_log_gated|].
  split; [intros w'; apply logger_log_false|].
  intros p Hp Hmin. apply logger_log_gated.
  right. right. exists p. split; [exact Hp|]. rewrite Hmin. cbn. lia.
Qed.

Lemma logger_log_false_iff_witness :
  logger_log 1 (env_at 1 0) LOG_LEVEL_DEBUG (Some "x"%string)
    (logger_world 1 3 0) = Some (false, logger_world 1 3 0) /\
  log_gated (logger_world 1 3 0) LOG_LEVEL_DEBUG (Some "x"%string).
Proof.
  destruct (logger_log_false_iff 1 (env_at 1 0) LOG_LEVEL_DEBUG
              (Some "x"%string) (logger_world 1 3 0)) as (_ & Hback & Hdebug).
  assert (Hres : logger_log 1 (env_at 1 0) LOG_LEVEL_DEBUG (Some "x"%string)
                   (logger_world 1 3 0) = Some (false, logger_world 1 3 0))
    by (eapply Hdebug; reflexivity).
  split; [exact Hres | exact (Hback _ Hres)].
Defined.

(** *** Rotation *)

Lemma substring_length (n : nat) (s : string) :
  (String.length (String.substring 0 n s) <= n)%nat.
Proof.
  revert s. induction n as [|n IH]; intros [|c s]; cbn; try lia.
  specialize (IH s). lia.
Qed.

Lemma format_message_length env cfg level message :
  Z.of_nat (String.length (format_message env cfg level message)) <= 511.
Proof.
  unfold format_message, snprintf.
  destruct (log_timestamp cfg);
    match goal with
    | |- context [String.substring 0 511 ?s] =>
        pose proof (substring_length 511 s)
    end; lia.
Qed.

(** The limit is a multiple of 1024, so it is 0 or at least 1024. *)
Lemma size_limit_cases cfg :
  size_limit cfg = 0 \/ 1024 <= size_limit cfg.
Proof.
  unfold size_limit, mul, u32, modulus.
  change (2 ^ 32) with (4194304 * 1024).
  rewrite Z.mul_mod_distr_r by lia.
  pose proof (Z.mod_pos_bound (max_file_size_kb cfg) 4194304 ltac:(lia)).
  lia.
Qed.

Lemma rotate_step_eq cfg i w :
  rotate_step cfg i w =
  {| private_data := private_data w;
     fs := fs (rotate_step cfg i w);
     fopen_denied := fopen_denied w;
     events := events w ++ [rotate_call cfg i] |}.
Proof.
  unfold rotate_step, rotate_call.
  destruct (u32 i =? sub (max_files cfg) 1); reflexivity.
Qed.

Lemma rotate_loop_frame cfg n : forall w,
  private_data (rotate_loop cfg n w) = private_data w /\
  fopen_denied (rotate_loop cfg n w) = fopen_denied w /\
  events (rotate_loop cfg n w)
  = events w ++ map (fun k => rotate_call cfg (Z.of_nat k)) (rev (seq 0 n)).
Proof.
  induction n as [|n IH]; intros w.
  - cbn. rewrite app_nil_r. auto.
  - cbn [rotate_loop]. destruct (IH (rotate_step cfg (Z.of_nat n) w))
      as (Hp & Hd & He).
    rewrite Hp, Hd, He. rewrite (rotate_step_eq cfg (Z.of_nat n) w) at 1 2 3.
    cbn [private_data fopen_denied events].
    rewrite seq_S, rev_app_distr. cbn [rev app map Nat.add].
    rewrite <- app_assoc. auto.
Qed.

(** Within the range of [int] the loop runs over the indices
    [max_files - 1 .. 0] and makes the calls of [rotation_events]. *)
Lemma rotate_loop_count cfg :
  0 <= max_files cfg <= 2 ^ 31 ->
  Z.to_nat (to_int (sub (max_files cfg) 1) + 1) = Z.to_nat (max_files cfg).
Proof.
  intros H. unfold to_int, sub, u32, modulus.
  change (2 ^ 32) with 4294967296. change (2 ^ 31) with 2147483648 in *.
  destruct (Z.eq_dec (max_files cfg) 0) as [->|Hne]; [reflexivity|].
  rewrite !(Z.mod_small (max_files cfg - 1)) by lia.
  destruct (Z.ltb_spec (max_files cfg - 1) 2147483648); [f_equal|]; lia.
Qed.

Lemma rotate_calls_planned cfg :
  0 <= max_files cfg <= 2 ^ 31 ->
  map (fun k => rotate_call cfg (Z.of_nat k))
      (rev (seq 0 (Z.to_nat (max_files cfg))))
  = rotation_events cfg.
Proof.
  intros H. unfold rotation_events. apply map_ext_in.
  intros k Hk. apply in_rev, in_seq in Hk.
  unfold rotate_call, old_name. cbv zeta.
  replace (u32 (Z.of_nat k) =? sub (max_files cfg) 1)
    with (Z.of_nat k =? max_files cfg - 1); [reflexivity|].
  unfold sub, u32, modulus.
  change (2 ^ 32) with 4294967296. change (2 ^ 31) with 2147483648 in *.
  destruct (Z.eq_dec (max_files cfg) 0) as [H0|H0]; [lia|].
  rewrite (Z.mod_small (max_files cfg - 1)) by lia.
  rewrite (Z.mod_small (Z.of_nat k)) by lia. reflexivity.
Qed.

(** [logger_rotate_log_file] up to its closing call to [logger_log]. *)
Lemma rotate_with_reopen log w p fp :
  private_data w = Some p ->
  log_fp p = Some fp ->
  fopen_denied w (log_file (config p)) = false ->
  exists w1,
    rotate_with log w =
      match log LOG_LEVEL_INFO (Some "Log file rotated"%string) w1 with
      | Some (_, w2) => Some w2
      | None => None
      end /\
    private_data w1 =
      Some {| config := config p; log_fp := Some (log_file (config p));
              current_file_size := 0; file_count := file_count p |} /\
    fopen_denied w1 = fopen_denied w /\
    events w1 =
      events w ++ [EvFclose fp]
        ++ map (fun k => rotate_call (config p) (Z.of_nat k))
             (rev (seq 0 (Z.to_nat
                            (to_int (sub (max_files (config p)) 1) + 1))))
        ++ [EvFopen (log_file (config p)) ModeTruncate true].
Proof.
  intros Hp Hfp Hopen. unfold rotate_with. rewrite Hp, Hfp.
  set (cfg := config p).
  set (w0 := set_private _ (sys_fclose fp w)).
  set (n := Z.to_nat (to_int (sub (max_files cfg) 1) + 1)).
  destruct (rotate_loop_frame cfg n w0) as (Hpriv & Hden & Hev).
  assert (Hden0 : fopen_denied w0 = fopen_denied w) by reflexivity.
  assert (Hev0 : events w0 = events w ++ [EvFclose fp]) by reflexivity.
  fold cfg in Hopen.
  unfold sys_fopen. rewrite Hden, Hden0, Hopen.
  eexists. split; [reflexivity|].
  cbn [private_data set_private sys fopen_denied events].
  split; [reflexivity|]. split; [congruence|].
  rewrite Hev, Hev0. rewrite <- !app_assoc. reflexivity.
Qed.

(** A write that stays below the limit. *)
Lemma logger_log_plain fuel env level message w p fp :
  private_data w = Some p ->
  (level_code (min_level (config p)) <= level_code level)%nat ->
  log_to_file (config p) = true ->
  log_fp p = Some fp ->
  let line := format_message env (config p) level message in
  let size := u32 (current_file_size p + (Z.of_nat (String.length line) + 1)) in
  size < size_limit (config p) ->
  exists w',
    logger_log fuel env level (Some message) w = Some (true, w') /\
    private_data w' =
      Some {| config := config p; log_fp := Some fp;
              current_file_size := size; file_count := file_count p |} /\
    fopen_denied w' = fopen_denied w /\
    events w' =
      events w ++ (if log_to_console (config p) then [EvPrintf line] else [])
        ++ [EvFprintf fp line].
Proof.
  intros Hp Hlevel Hfile Hfp line size Hsize.
  rewrite logger_log_eq, Hp.
  apply Nat.ltb_ge in Hlevel. rewrite Hlevel. cbv zeta.
  rewrite Hfile, Hfp. fold line. fold size.
  apply Z.leb_gt in Hsize. rewrite Hsize.
  eexists. split; [reflexivity|].
  cbn [private_data set_private]. split; [reflexivity|].
  destruct (log_to_console (config p));
    cbn [fopen_denied events set_private sys_fprintf sys_printf sys];
    rewrite <- ?app_assoc; auto.
Qed.

Lemma logger_log_rotates_once fuel env level message w p fp :
  private_data w = Some p ->
  let cfg := config p in
  (level_code (min_level cfg) <= level_code level)%nat ->
  log_to_file cfg = true ->
  log_fp p = Some fp ->
  0 <= max_files cfg <= 2 ^ 31 ->
  size_limit cfg <> 0 ->
  fopen_denied w (log_file cfg) = false ->
  let line := format_message env cfg level message in
  size_limit cfg
    <= u32 (current_file_size p + (Z.of_nat (String.length line) + 1)) ->
  let notice :=
    format_message env cfg LOG_LEVEL_INFO "Log file rotated" in
  let notice_logged :=
    (level_code (min_level cfg) <=? level_code LOG_LEVEL_INFO)%nat in
  exists w',
    logger_log (S fuel) env level (Some message) w = Some (true, w') /\
    events w' =
      events w
        ++ (if log_to_console cfg then [EvPrintf line] else [])
        ++ [EvFprintf fp line; EvFclose fp]
        ++ rotation_events cfg
        ++ [EvFopen (log_file cfg) ModeTruncate true]
        ++ (if notice_logged
            then (if log_to_console cfg then [EvPrintf notice] else [])
                   ++ [EvFprintf (log_file cfg) notice]
            else []) /\
    private_data w' =
      Some {| config := cfg;
              log_fp := Some (log_file cfg);
              current_file_size :=
                if notice_logged
                then Z.of_nat (String.length notice) + 1 else 0;
              file_count := file_count p |}.
Proof.
  intros Hp cfg Hlevel Hfile Hfp Hfiles Hlimit Hopen line Hreach
    notice notice_logged.
  subst cfg line notice notice_logged.
  rewrite logger_log_eq, Hp.
  pose proof Hlevel as Hlevel'. apply Nat.ltb_ge in Hlevel'.
  rewrite Hlevel'. cbv zeta. rewrite Hfile, Hfp.
  apply Z.leb_le in Hreach. rewrite Hreach.
  set (cfg := config p) in *.
  set (line := format_message env cfg level message) in *.
  set (notice := format_message env cfg LOG_LEVEL_INFO "Log file rotated") in *.
  set (w0 := set_private _ _).
  destruct (rotate_with_reopen (logger_log fuel env) w0
              {| config := cfg; log_fp := Some fp;
                 current_file_size :=
                   u32 (current_file_size p
                        + (Z.of_nat (String.length line) + 1));
                 file_count := file_count p |} fp)
    as (w1 & Hrot & Hp1 & Hd1 & He1);
    [reflexivity | reflexivity | |].
  { subst w0. destruct (log_to_console cfg); exact Hopen. }
  rewrite Hrot. cbn [config file_count] in Hp1, He1.
  rewrite rotate_loop_count, rotate_calls_planned in He1 by exact Hfiles.
  assert (Hev0 : events w0 =
            events w ++ (if log_to_console cfg then [EvPrintf line] else [])
              ++ [EvFprintf fp line]).
  { subst w0. destruct (log_to_console cfg);
      cbn [events set_private sys_fprintf sys_printf sys];
      rewrite <- ?app_assoc; reflexivity. }
  assert (Hd0 : fopen_denied w0 = fopen_denied w).
  { subst w0. destruct (log_to_console cfg); reflexivity. }
  destruct (Nat.leb_spec (level_code (min_level cfg))
              (level_code LOG_LEVEL_INFO)) as [Hinfo|Hinfo].
  - assert (Hnotice_len := format_message_length env cfg LOG_LEVEL_INFO
                             "Log file rotated").
    fold notice in Hnotice_len.
    assert (Hsmall : u32 (0 + (Z.of_nat (String.length notice) + 1))
                     = Z.of_nat (String.length notice) + 1).
    { apply u32_small. unfold modulus. lia. }
    destruct (logger_log_plain fuel env LOG_LEVEL_INFO "Log file rotated"
                w1 _ (log_file cfg) Hp1 Hinfo Hfile eq_refl)
      as (w2 & Hlog & Hp2 & _ & He2).
    { cbn [config current_file_size]. fold notice. rewrite Hsmall.
      destruct (size_limit_cases cfg); lia. }
    rewrite Hlog. exists w2. split; [reflexivity|].
    cbn [config current_file_size file_count] in Hp2, He2.
    fold notice in Hp2, He2. rewrite Hsmall in Hp2.
    split; [|exact Hp2].
    rewrite He2, He1, Hev0. rewrite <- !app_assoc. reflexivity.
  - rewrite logger_log_gated.
    + exists w1. split; [reflexivity|]. split; [|exact Hp1].
      rewrite He1, Hev0. rewrite <- !app_assoc, app_nil_r. reflexivity.
    + right. right. eexists. split; [exact Hp1|]. exact Hinfo.
Qed.

(** With the limit at 0 every write reaches it, the notice of a rotation
    included: no nesting bound is enough. *)
Lemma logger_log_zero_limit fuel env : forall level message w p fp,
  private_data w = Some p ->
  size_limit (config p) = 0 ->
  log_to_file (config p) = true ->
  log_fp p = Some fp ->
  (level_code (min_level (config p)) <= level_code LOG_LEVEL_INFO)%nat ->
  (level_code (min_level (config p)) <= level_code level)%nat ->
  fopen_denied w (log_file (config p)) = false ->
  logger_log fuel env level (Some message) w = None.
Proof.
  induction fuel as [|fuel IH];
    intros level message w p fp Hp Hlimit Hfile Hfp Hinfo Hlevel Hopen;
    rewrite logger_log_eq, Hp;
    apply Nat.ltb_ge in Hlevel; rewrite Hlevel; cbv zeta;
    rewrite Hfile, Hfp, Hlimit;
    match goal with
    | |- context [0 <=? u32 ?x] =>
        pose proof (u32_range x) as Hr;
        destruct (Z.leb_spec 0 (u32 x)) as [_|Hneg]; [|lia]
    end.
  - reflexivity.
  - set (w0 := set_private _ _).
    destruct (rotate_with_reopen (logger_log fuel env) w0
                {| config := config p; log_fp := Some fp;
                   current_file_size :=
                     u32 (current_file_size p
                          + (Z.of_nat
                               (String.length
                                  (format_message env (config p) level message))
                             + 1));
                   file_count := file_count p |} fp)
      as (w1 & Hrot & Hp1 & Hd1 & _); [reflexivity | reflexivity | |].
    { subst w0. destruct (log_to_console (config p)); exact Hopen. }
    rewrite Hrot.
    rewrite (IH LOG_LEVEL_INFO "Log file rotated"%string w1 _
               (log_file (config p)) Hp1);
      try assumption; try reflexivity.
    cbn [config]. rewrite Hd1. subst w0.
    destruct (log_to_console (config p)); exact Hopen.
Qed.

(** A logger with [max_file_size_kb] = 0: the call that writes never
    returns. *)
Lemma logger_log_zero_limit_never_returns :
  ~ exists fuel r,
      logger_log fuel (env_at 1 0) LOG_LEVEL_WARNING (Some "x"%string)
        (logger_world 0 3 0) = Some r.
Proof.
  intros (fuel & r & H).
  rewrite (logger_log_zero_limit fuel (env_at 1 0) LOG_LEVEL_WARNING "x"
             (logger_world 0 3 0) _ "app.log" eq_refl) in H;
    try reflexivity; try discriminate; cbn; lia.
Qed.

(** *** The files the logger creates *)

Lemma rotated_name_in_log_names cfg (k : Z) :
  1 <= k <= max_files cfg - 1 ->
  rotated_name (log_file cfg) k ∈ log_names cfg.
Proof.
  intros Hk. unfold log_names. apply elem_of_union_r.
  apply elem_of_list_to_set, list_elem_of_In, in_map_iff.
  exists (Z.to_nat k). split; [f_equal; lia|].
  apply in_seq. lia.
Qed.

Lemma log_file_in_log_names cfg : log_file cfg ∈ log_names cfg.
Proof. unfold log_names. set_solver. Qed.

Lemma rotate_step_dom cfg (i : Z) w :
  (u32 i <> sub (max_files cfg) 1 ->
   rotated_name (log_file cfg) (i + 1) ∈ log_names cfg) ->
  dom (fs (rotate_step cfg i w)) ⊆ dom (fs w) ∪ log_names cfg.
Proof.
  intros Hnew. unfold rotate_step.
  destruct (Z.eqb_spec (u32 i) (sub (max_files cfg) 1)) as [_|Hne].
  - cbn [fs sys_remove sys]. rewrite dom_delete_L. set_solver.
  - specialize (Hnew Hne). cbn [fs sys_rename sys].
    destruct (fs w !! _); [|set_solver].
    rewrite dom_insert_L, dom_delete_L. set_solver.
Qed.

Lemma rotate_loop_dom cfg n : forall w,
  0 <= max_files cfg < modulus ->
  (n <= Z.to_nat (to_int (sub (max_files cfg) 1) + 1))%nat ->
  dom (fs (rotate_loop cfg n w)) ⊆ dom (fs w) ∪ log_names cfg.
Proof.
  induction n as [|n IH]; intros w Hfiles Hn; cbn [rotate_loop].
  - set_solver.
  - etrans; [apply IH; [exact Hfiles | lia]|].
    pose proof (rotate_step_dom cfg (Z.of_nat n) w) as Hstep.
    enough (u32 (Z.of_nat n) <> sub (max_files cfg) 1 ->
            rotated_name (log_file cfg) (Z.of_nat n + 1) ∈ log_names cfg)
      as Hnew by (specialize (Hstep Hnew); set_solver).
    intros Hne. apply rotated_name_in_log_names.
    revert Hn Hne. unfold to_int, sub, u32, modulus in *.
    change (2 ^ 32) with 4294967296 in *.
    change (2 ^ 31) with 2147483648.
    destruct (Z.eq_dec (max_files cfg) 0) as [->|H0];
      [intros Hn; vm_compute in Hn; lia|].
    rewrite !(Z.mod_small (max_files cfg - 1)) by lia.
    destruct (Z.ltb_spec (max_files cfg - 1) 2147483648); [|lia].
    intros Hn. rewrite (Z.mod_small (Z.of_nat n)) by lia. lia.
Qed.

Lemma logger_log_dom fuel env : forall level message w r p,
  private_data w = Some p ->
  0 <= max_files (config p) < modulus ->
  logger_log fuel env level message w = Some r ->
  dom (fs r.2) ⊆ dom (fs w) ∪ log_names (config p) /\
  exists p', private_data r.2 = Some p' /\ config p' = config p.
Proof.
  induction fuel as [|fuel IH]; intros level message w r p Hp Hfiles;
    rewrite logger_log_eq, Hp;
    (destruct message as [message|];
     [|intros [= <-]; split; [set_solver | eauto]]);
    (destruct (_ <? _)%nat;
     [intros [= <-]; split; [set_solver | eauto]|]);
    cbv zeta;
    set (line := format_message env (config p) level message);
    set (w0 := if log_to_console (config p) then sys_printf line w else w);
    assert (Hfs0 : fs w0 = fs w)
      by (subst w0; destruct (log_to_console (config p)); reflexivity);
    assert (Hp0 : private_data w0 = Some p)
      by (subst w0; destruct (log_to_console (config p)); exact Hp);
    (destruct (log_to_file (config p));
     [|intros [= <-]; cbn [snd]; rewrite Hfs0; split; [set_solver | eauto]]);
    (destruct (log_fp p) as [fp|];
     [|intros [= <-]; cbn [snd]; rewrite Hfs0; split; [set_solver | eauto]]);
    set (w1 := set_private _ (sys_fprintf fp line w0));
    assert (Hfs1 : dom (fs w1) = dom (fs w))
      by (subst w1; cbn [fs set_private sys_fprintf sys];
          rewrite dom_alter_L, Hfs0; reflexivity);
    (destruct (_ <=? _);
     [|intros [= <-]; cbn [snd]; rewrite Hfs1; split; [set_solver|];
       eexists; split; reflexivity]).
  - discriminate.
  - unfold rotate_with. cbn [private_data w1 set_private log_fp config].
    set (w2 := set_private _ (sys_fclose fp w1)).
    set (n := Z.to_nat (to_int (sub (max_files (config p)) 1) + 1)).
    pose proof (rotate_loop_dom (config p) n w2 Hfiles (Nat.le_refl _)) as Hloop.
    destruct (rotate_loop_frame (config p) n w2) as (Hp3 & _ & _).
    assert (Hfs2 : dom (fs w2) = dom (fs w)) by exact Hfs1.
    rewrite Hfs2 in Hloop.
    set (w3 := rotate_loop (config p) n w2) in *.
    unfold sys_fopen. destruct (fopen_denied w3 (log_file (config p))).
    + intros [= <-]. cbn [snd fs private_data sys]. split; [exact Hloop|].
      rewrite Hp3. eexists. split; reflexivity.
    + set (w5 := set_private _ _).
      destruct (logger_log fuel env LOG_LEVEL_INFO _ w5) as [[b w6]|] eqn:Hlog;
        [|discriminate].
      intros [= <-]. cbn [snd].
      eapply IH in Hlog; [|reflexivity | exact Hfiles].
      destruct Hlog as (Hdom & p' & Hp' & Hcfg).
      cbn [snd config] in Hdom, Hp', Hcfg.
      split; [|eauto].
      assert (Hfs5 : dom (fs w5) ⊆ dom (fs w) ∪ log_names (config p)).
      { subst w5. cbn [fs set_private sys]. rewrite dom_insert_L.
        pose proof (log_file_in_log_names (config p)) as Hbase.
        clear -Hloop Hbase. set_solver. }
      clear -Hdom Hfs5. set_solver.
Qed.

Lemma logger_log_all_dom fuel env calls : forall w w' p,
  private_data w = Some p ->
  0 <= max_files (config p) < modulus ->
  logger_log_all fuel env calls w = Some w' ->
  dom (fs w') ⊆ dom (fs w) ∪ log_names (config p).
Proof.
  induction calls as [|[level message] calls IH]; intros w w' p Hp Hfiles;
    cbn [logger_log_all].
  - intros [= <-]. set_solver.
  - destruct (logger_log fuel env level message w) as [[b w1]|] eqn:Hlog;
      [|discriminate].
    intros Hrest.
    destruct (logger_log_dom fuel env level message w (b, w1) p Hp Hfiles Hlog)
      as (Hdom & p1 & Hp1 & Hcfg).
    cbn [snd] in Hdom, Hp1.
    rewrite <- Hcfg in Hfiles.
    pose proof (IH w1 w' p1 Hp1 Hfiles Hrest) as Hdom'.
    rewrite Hcfg in Hdom'. clear -Hdom Hdom'. set_solver.
Qed.

Lemma size_list_to_set_le (l : list string) :
  (size (list_to_set l : gset string) <= length l)%nat.
Proof.
  induction l as [|x l IH]; cbn [list_to_set length].
  - rewrite size_empty. lia.
  - rewrite size_union_alt, size_singleton.
    set (rest := (list_to_set l : gset string)) in *.
    assert (Hsub : rest ∖ {[x]} ⊆ rest) by set_solver.
    apply subseteq_size in Hsub. lia.
Qed.

Lemma size_log_names cfg :
  0 <= max_files cfg ->
  Z.of_nat (size (log_names cfg)) <= Z.max 1 (max_files cfg).
Proof.
  intros Hfiles. unfold log_names.
  rewrite size_union_alt, size_singleton.
  match goal with
  | |- context [size (list_to_set ?l ∖ ?X)] =>
      pose proof (size_list_to_set_le l) as Hlen;
      set (rest := (list_to_set l : gset string)) in *;
      assert (Hsub : rest ∖ X ⊆ rest) by set_solver
  end.
  apply subseteq_size in Hsub.
  rewrite length_map, length_seq in Hlen. lia.
Qed.

(** C9 (amended). Provided [max_file_size_kb * 1024] (in 32 bits) is not 0,
    [max_files] is at most 2^31 and the log file can be reopened: a write
    that brings the byte counter to the limit or beyond is followed, inside
    the same call and before any other line is written, by exactly one
    rotation, which closes the current file, then for [i] from
    [max_files - 1] down to 0 deletes the file at index [max_files - 1] and
    renames each other ["<path>.i"] (the plain path for [i = 0]) to
    ["<path>.(i+1)"], reopens the log file in truncate mode and restarts
    the counter at 0, the rotation notice being the first line counted when
    INFO is logged.  The logger gives files no names other than the log
    file's and ["<path>.1"] .. ["<path>.(max_files - 1)"]: where no other
    log file exists beforehand, none exists after any sequence of calls,
    and the log files present never number more than [max_files + 1]. *)
Theorem logger_rotation_contract env :
  (forall fuel level message w p fp,
      private_data w = Some p ->
      let cfg := config p in
      (level_code (min_level cfg) <= level_code level)%nat ->
      log_to_file cfg = true ->
      log_fp p = Some fp ->
      0 <= max_files cfg <= 2 ^ 31 ->
      size_limit cfg <> 0 ->
      fopen_denied w (log_file cfg) = false ->
      let line := format_message env cfg level message in
      size_limit cfg
        <= u32 (current_file_size p + (Z.of_nat (String.length line) + 1)) ->
      let notice :=
        format_message env cfg LOG_LEVEL_INFO "Log file rotated" in
      let notice_logged :=
        (level_code (min_level cfg) <=? level_code LOG_LEVEL_INFO)%nat in
      exists w',
        logger_log (S fuel) env level (Some message) w = Some (true, w') /\
        events w' =
          events w
            ++ (if log_to_console cfg then [EvPrintf line] else [])
            ++ [EvFprintf fp line; EvFclose fp]
            ++ rotation_events cfg
            ++ [EvFopen (log_file cfg) ModeTruncate true]
            ++ (if notice_logged
                then (if log_to_console cfg then [EvPrintf notice] else [])
                       ++ [EvFprintf (log_file cfg) notice]
                else []) /\
        private_data w' =
          Some {| config := cfg;
                  log_fp := Some (log_file cfg);
                  current_file_size :=
                    if notice_logged
                    then Z.of_nat (String.length notice) + 1 else 0;
                  file_count := file_count p |}) /\
  (forall fuel calls w w' p,
      private_data w = Some p ->
      let cfg := config p in
      0 <= max_files cfg < modulus ->
      (forall f, f ∈ dom (fs w) -> is_log_file cfg f -> f ∈ log_names cfg) ->
      logger_log_all fuel env calls w = Some w' ->
      (forall f, f ∈ dom (fs w') -> is_log_file cfg f -> f ∈ log_names cfg) /\
      (forall L : gset string,
          (forall f, f ∈ L -> f ∈ dom (fs w') /\ is_log_file cfg f) ->
          Z.of_nat (size L) <= max_files cfg + 1)).
Proof.
  split.
  - intros fuel level message w p fp. apply logger_log_rotates_once.
  - intros fuel calls w w' p Hp cfg Hfiles Htidy Hrun.
    pose proof (logger_log_all_dom fuel env calls w w' p Hp Hfiles Hrun)
      as Hdom.
    fold cfg in Hdom.
    assert (Htidy' : forall f, f ∈ dom (fs w') -> is_log_file cfg f ->
                               f ∈ log_names cfg).
    { intros f Hf Hlog. apply Hdom in Hf.
      apply elem_of_union in Hf as [Hf|Hf]; [exact (Htidy f Hf Hlog) | exact Hf]. }
    split; [exact Htidy'|].
    intros L HL.
    assert (Hsub : L ⊆ log_names cfg).
    { intros f Hf. destruct (HL f Hf) as [Hin Hlog]. exact (Htidy' f Hin Hlog). }
    apply subseteq_size in Hsub.
    pose proof (size_log_names cfg ltac:(lia)). lia.
Qed.

Lemma logger_rotation_contract_witness :
  let w := logger_world 1 3 1020 in
  let cfg := logger_config 1 3 in
  exists w',
    logger_log 1 (env_at 1 0) LOG_LEVEL_WARNING
      (Some "disk almost full"%string) w = Some (true, w') /\
    events w' =
      [EvPrintf "[WARNING] disk almost full";
       EvFprintf "app.log" "[WARNING] disk almost full";
       EvFclose "app.log";
       EvRemove "app.log.2";
       EvRename "app.log.1" "app.log.2";
       EvRename "app.log" "app.log.1";
       EvFopen "app.log" ModeTruncate true;
       EvPrintf "[INFO] Log file rotated";
       EvFprintf "app.log" "[INFO] Log file rotated"]%string /\
    (forall L : gset string,
        (forall f, f ∈ L -> f ∈ dom (fs w') /\ is_log_file cfg f) ->
        Z.of_nat (size L) <= 4).
Proof.
  cbv zeta.
  destruct (logger_rotation_contract (env_at 1 0)) as [Honce Hfiles].
  destruct (Honce 0%nat LOG_LEVEL_WARNING "disk almost full"%string
              (logger_world 1 3 1020) _ "app.log"%string eq_refl)
    as (w' & Hlog & Hev & _);
    try reflexivity; try (vm_compute; discriminate); try (cbn; lia).
  exists w'. split; [exact Hlog|]. split; [exact Hev|].
  refine (proj2 (Hfiles 1%nat
                   [(LOG_LEVEL_WARNING, Some "disk almost full"%string)]
                   (logger_world 1 3 1020) w' _ eq_refl _ _ _)).
  - vm_compute. split; [discriminate | reflexivity].
  - intros f Hf _. cbn [fs logger_world] in Hf.
    rewrite dom_singleton_L in Hf. apply elem_of_singleton in Hf as ->.
    apply log_file_in_log_names.
  - cbn [logger_log_all]. rewrite Hlog. reflexivity.
Defined.
End LoggerFacts.

(* ===================================================================== *)
(** * Properties of the remaining operations *)
(* ===================================================================== *)

Module SensorOpsFacts.
Import U32 U32Facts Sensor SensorOps SensorFacts.
Local Open Scope Z_scope.

Lemma strncpy_length (n : nat) (s : string) :
  String.length (strncpy n s) = Nat.min n (String.length s).
Proof.
  unfold strncpy. revert s.
  induction n as [|n IH]; intros [|c s]; cbn; try reflexivity.
  rewrite IH. reflexivity.
Qed.

Lemma strncpy_fits (n : nat) (s : string) :
  (String.length s <= n)%nat -> strncpy n s = s.
Proof.
  unfold strncpy. revert s.
  induction n as [|n IH]; intros [|c s]; cbn; intros H;
    try reflexivity; try lia.
  rewrite IH by lia. reflexivity.
Qed.

Lemma strncpy_prefix (n : nat) (s : string) :
  exists rest, s = strncpy n s +:+ rest.
Proof.
  unfold strncpy. revert s.
  induction n as [|n IH]; intros [|c s]; cbn.
  - exists EmptyString. reflexivity.
  - eexists. reflexivity.
  - exists EmptyString. reflexivity.
  - destruct (IH s) as [rest Hrest]. exists rest.
    change (String c s = String c (String.substring 0 n s +:+ rest)).
    f_equal. exact Hrest.
Qed.

Section Generic.
Context {W : Type}.
Implicit Types (s : Sensor W) (d : SensorData) (w : W) (env : Libc).

(** X1. [sensor_init] on a sensor object and an identifier cannot fail:
    it returns true, never reports [SENSOR_ERROR_INIT_FAILED], and leaves
    the object with the given type, the first 31 bytes of the identifier
    (the identifier itself when it fits), empty name and location, both
    counters at zero and no error; the [read] slot is the one the object
    had before, and the implementation state is untouched.  Without an
    identifier it changes nothing of the object but [last_error], which
    becomes [SENSOR_ERROR_INVALID_PARAM]. *)
Theorem sensor_init_establishes s (type : SensorType) (id : string) w :
  (exists s',
     sensor_init (Some s) type (Some id) w = (true, Some s', w) /\
     s_type s' = type /\
     (exists rest, id = s_id s' +:+ rest) /\
     String.length (s_id s') = Nat.min 31 (String.length id) /\
     s_name s' = EmptyString /\ s_location s' = EmptyString /\
     s_sample_count s' = 0 /\ s_error_count s' = 0 /\
     s_last_error s' = SENSOR_ERROR_NONE /\
     s_read s' = s_read s) /\
  sensor_init (Some s) type None w
    = (false, Some (set_last_error SENSOR_ERROR_INVALID_PARAM s), w) /\
  sensor_init None type (Some id) w = (false, None, w).
Proof.
  split; [|split; reflexivity].
  eexists. split; [reflexivity|]. cbn.
  split; [reflexivity|]. split; [apply strncpy_prefix|].
  split; [apply strncpy_length|]. repeat split.
Qed.

(** X2. The setters of name and location store the first 63 bytes of the
    text (the text itself when it fits), touch no other member (type,
    identifier, the other text, the three behaviour slots, error state
    and both counters), and commute with each other; with the sensor or
    the text absent they change nothing. *)
Theorem sensor_set_name_location s (name location : string) :
  (exists s1,
     sensor_set_name (Some s) (Some name) = Some s1 /\
     String.length (s_name s1) = Nat.min 63 (String.length name) /\
     (exists rest, name = s_name s1 +:+ rest) /\
     (s_type s1, s_id s1, s_location s1, s_initialize s1, s_read s1,
      s_cleanup s1, s_last_error s1, s_sample_count s1, s_error_count s1)
     = (s_type s, s_id s, s_location s, s_initialize s, s_read s,
        s_cleanup s, s_last_error s, s_sample_count s, s_error_count s)) /\
  (exists s2,
     sensor_set_location (Some s) (Some location) = Some s2 /\
     String.length (s_location s2) = Nat.min 63 (String.length location) /\
     (exists rest, location = s_location s2 +:+ rest) /\
     (s_type s2, s_id s2, s_name s2, s_initialize s2, s_read s2,
      s_cleanup s2, s_last_error s2, s_sample_count s2, s_error_count s2)
     = (s_type s, s_id s, s_name s, s_initialize s, s_read s,
        s_cleanup s, s_last_error s, s_sample_count s, s_error_count s)) /\
  sensor_set_location (sensor_set_name (Some s) (Some name)) (Some location)
  = sensor_set_name (sensor_set_location (Some s) (Some location))
      (Some name) /\
  sensor_set_name (Some s) None = Some s /\
  sensor_set_location (Some s) None = Some s /\
  sensor_set_name (@None (Sensor W)) (Some name) = None /\
  sensor_set_location (@None (Sensor W)) (Some location) = None.
Proof.
  split; [|split].
  - eexists. split; [reflexivity|]. cbn.
    split; [apply strncpy_length|]. split; [apply strncpy_prefix|reflexivity].
  - eexists. split; [reflexivity|]. cbn.
    split; [apply strncpy_length|]. split; [apply strncpy_prefix|reflexivity].
  - repeat split.
Qed.

(** The members of a sensor that [sensor_read_data] leaves alone. *)
Lemma sensor_read_data_frame env s d w read :
  s_read s = Some read ->
  exists ok s' d' w',
    sensor_read_data env (Some s) (Some d) w = (ok, Some s', Some d', w') /\
    read env w (stamp env s d) = (ok, d', w') /\
    s_read s' = Some read /\ s_type s' = s_type s /\ s_id s' = s_id s /\
    s_name s' = s_name s /\ s_location s' = s_location s /\
    s_sample_count s' = add (s_sample_count s) 1 /\
    s_error_count s'
      = (if ok then s_error_count s else add (s_error_count s) 1) /\
    s_last_error s' = (if ok then SENSOR_ERROR_NONE else data_error d').
Proof.
  intros Hread. rewrite (sensor_read_data_bound env s d w read Hread).
  destruct (read env w (stamp env s d)) as [[ok d'] w'].
  destruct ok; do 4 eexists; (split; [reflexivity|]); cbn; repeat split;
    assumption.
Qed.

(** X3. Over any sequence of [sensor_read_data] calls on a sensor with a
    bound read implementation, [sample_count] advances by the number of
    calls, failed ones included, and [error_count] by the number of calls
    that returned false (both modulo 2^32); the read slot, type,
    identifier, name and location stay as they were, and [last_error]
    reflects the last call alone: no error after a success, the error of
    the record after a failure. *)
Theorem sensor_read_all_counts (envs : list Libc) : forall s d w read,
  s_read s = Some read ->
  0 <= s_sample_count s < modulus ->
  0 <= s_error_count s < modulus ->
  exists oks s' d' w',
    sensor_read_all envs (Some s) (Some d) w = (oks, Some s', Some d', w') /\
    length oks = length envs /\
    s_sample_count s' = u32 (s_sample_count s + Z.of_nat (length envs)) /\
    s_error_count s'
      = u32 (s_error_count s + Z.of_nat (length (List.filter negb oks))) /\
    (s_read s', s_type s', s_id s', s_name s', s_location s')
      = (Some read, s_type s, s_id s, s_name s, s_location s) /\
    (last oks = Some true -> s_last_error s' = SENSOR_ERROR_NONE) /\
    (last oks = Some false -> s_last_error s' = data_error d').
Proof.
  induction envs as [|env envs IH]; intros s d w read Hread Hsc Hec.
  - exists [], s, d, w. cbn. rewrite !Z.add_0_r, !u32_small by assumption.
    rewrite Hread. repeat split; discriminate.
  - destruct (sensor_read_data_frame env s d w read Hread)
      as (ok & s1 & d1 & w1 & Hcall & _ & Hr1 & Ht1 & Hi1 & Hn1 & Hl1
          & Hs1 & He1 & Hle1).
    destruct (IH s1 d1 w1 read Hr1) as (oks & s' & d' & w' & Hall & Hlen
          & Hs' & He' & Hfr & Hlt & Hlf).
    { rewrite Hs1. apply u32_range. }
    { rewrite He1. destruct ok; [assumption | apply u32_range]. }
    exists (ok :: oks), s', d', w'.
    cbn [sensor_read_all]. rewrite Hcall, Hall.
    split; [reflexivity|]. split; [cbn; congruence|].
    split.
    { rewrite Hs', Hs1. unfold add, u32. rewrite Zplus_mod_idemp_l.
      f_equal. cbn [length]. lia. }
    split.
    { rewrite He', He1. destruct ok; cbn [List.filter negb length].
      - reflexivity.
      - unfold add, u32. rewrite Zplus_mod_idemp_l. f_equal.
        cbn [length]. lia. }
    split; [rewrite Hfr; congruence|].
    destruct oks as [|ok' oks'].
    + destruct envs; [|discriminate Hlen].
      cbn in Hall. injection Hall as <- <- <-.
      cbn [last]. split; intros [= ->]; exact Hle1.
    + split; intros Hlast; [apply Hlt | apply Hlf]; exact Hlast.
Qed.
End Generic.

(** X4. The two name tables cover their enumerations: no sensor type and
    no error code falls through to the fallback text, and different
    enumerators have different names. *)
Theorem sensor_names_distinct :
  (forall t, sensor_type_to_string t <> "Unknown sensor type"%string) /\
  (forall t1 t2, sensor_type_to_string t1 = sensor_type_to_string t2 ->
                 t1 = t2) /\
  (forall e, sensor_error_to_string e <> "Unknown error"%string) /\
  (forall e1 e2, sensor_error_to_string e1 = sensor_error_to_string e2 ->
                 e1 = e2).
Proof.
  split; [intros []; discriminate|].
  split; [intros [] []; (reflexivity || discriminate)|].
  split; [intros []; discriminate|].
  intros [] []; (reflexivity || discriminate).
Qed.
End SensorOpsFacts.

Module TemperatureOpsFacts.
Import U32 U32Facts F32Facts Sensor SensorOps Temperature TemperatureOps.
Import Examples OpsExamples SensorFacts TemperatureFacts SensorOpsFacts.
Local Open Scope Z_scope.

Implicit Types (env : Libc) (p : TemperatureSensorPrivate) (d : SensorData).
Implicit Types (cfg : TemperatureConfig) (st : TemperatureStats).

(** *** Order facts on binary32 used below *)

Lemma SFcompare_finite_Eq s1 m1 e1 s2 m2 e2 :
  SFcompare (S754_finite s1 m1 e1) (S754_finite s2 m2 e2) = Some Eq ->
  s1 = s2 /\ m1 = m2 /\ e1 = e2.
Proof.
  simpl. rewrite compare_cont_Eq.
  destruct s1, s2; try discriminate;
    destruct (Z.compare_spec e1 e2) as [He|He|He]; try discriminate;
    destruct (Pos.compare_spec m1 m2) as [Hm|Hm|Hm]; try discriminate;
    auto.
Qed.

Lemma SFcompare_Eq_l (a b c : float) :
  SFcompare a b = Some Eq -> SFcompare a c = SFcompare b c.
Proof.
  destruct a as [sa|sa| |sa ma ea], b as [sb|sb| |sb mb eb];
    try discriminate;
    try (destruct sa; discriminate); try (destruct sb; discriminate).
  - reflexivity.
  - destruct sa, sb; try discriminate; reflexivity.
  - intros H. apply SFcompare_finite_Eq in H as (-> & -> & ->). reflexivity.
Qed.

(** [a <= b] and [b < c] give [a < c]. *)
Lemma geb_gtb_trans (a b c : float) :
  F32.geb b a = true -> F32.gtb c b = true -> F32.gtb c a = true.
Proof.
  unfold F32.geb, F32.gtb, SFleb. intros Hab Hbc.
  destruct (SFcompare a b) as [[]|] eqn:Hc; try discriminate.
  - unfold SFltb in *. rewrite (SFcompare_Eq_l a b c Hc). exact Hbc.
  - apply (ltb_trans a b c); [|exact Hbc].
    unfold F32.ltb, SFltb. rewrite Hc. reflexivity.
Qed.

(** *** One read *)

(** What every call of [temperature_read] on an allocated state does to
    that state. *)
Lemma temperature_read_step env p d :
  exists ok d' p',
    temperature_read env (Some p) (Some d) = (ok, Some d', Some p') /\
    config p' = config p /\
    (debounced env p = true -> p' = p /\ ok = true) /\
    (debounced env p = false ->
     let v := sample_temperature env (config p) in
     let oor := out_of_range (config p) v in
     ok = negb oor /\
     data_value d' = v /\
     last_reading p' = sample_reading env p /\
     last_sample_time p' = current_time_ms env /\
     sample_count (stats p') = add (sample_count (stats p)) 1 /\
     alert_count (stats p')
       = (if negb oor && F32.gtb v (alert_threshold (config p))
          then add (alert_count (stats p)) 1 else alert_count (stats p)) /\
     critical_count (stats p')
       = (if negb oor && F32.gtb v (critical_threshold (config p))
          then add (critical_count (stats p)) 1
          else critical_count (stats p))).
Proof.
  destruct (debounced env p) eqn:Hdeb.
  - rewrite (temperature_read_debounced _ _ _ Hdeb).
    do 3 eexists. split; [reflexivity|]. split; [reflexivity|].
    split; [auto | discriminate].
  - rewrite (temperature_read_fresh _ _ _ Hdeb). cbv zeta.
    do 3 eexists. split; [reflexivity|]. split; [reflexivity|].
    split; [discriminate|]. intros _. cbn -[update_stats_values add].
    repeat split.
Qed.

(** *** Counters over a sequence of reads *)

Lemma temperature_read_all_counters_aux (envs : list Libc) : forall p d,
  0 <= alert_count (stats p) <= sample_count (stats p) ->
  0 <= critical_count (stats p) <= sample_count (stats p) ->
  sample_count (stats p) + Z.of_nat (length envs) < modulus ->
  exists p',
    temperature_read_all envs (Some p) d = Some p' /\
    config p' = config p /\
    let ds := sample_count (stats p') - sample_count (stats p) in
    let da := alert_count (stats p') - alert_count (stats p) in
    let dc := critical_count (stats p') - critical_count (stats p) in
    0 <= da <= ds /\ 0 <= dc <= ds /\ ds <= Z.of_nat (length envs) /\
    (F32.geb (critical_threshold (config p)) (alert_threshold (config p))
       = true -> dc <= da).
Proof.
  induction envs as [|env envs IH]; intros p d Ha Hc Hn.
  - exists p. cbn. repeat split; lia.
  - cbn [length] in Hn. cbn [temperature_read_all].
    destruct (temperature_read_step env p d)
      as (ok & d' & p1 & -> & Hcfg & Hdeb & Hfresh).
    assert (Hstep :
      let ds := sample_count (stats p1) - sample_count (stats p) in
      let da := alert_count (stats p1) - alert_count (stats p) in
      let dc := critical_count (stats p1) - critical_count (stats p) in
      0 <= da <= ds /\ 0 <= dc <= ds /\ ds <= 1 /\
      (F32.geb (critical_threshold (config p)) (alert_threshold (config p))
         = true -> dc <= da)).
    { destruct (debounced env p) eqn:Hd.
      - destruct (Hdeb eq_refl) as [-> _]. cbv zeta. repeat split; lia.
      - destruct (Hfresh eq_refl) as (_ & _ & _ & _ & Hs & Hal & Hcr).
        cbv zeta in Hal, Hcr.
        set (v := sample_temperature env (config p)) in *.
        assert (Hs1 : sample_count (stats p1) = sample_count (stats p) + 1).
        { rewrite Hs. apply u32_small. unfold modulus in *. lia. }
        assert (Ha1 : add (alert_count (stats p)) 1
                      = alert_count (stats p) + 1).
        { apply u32_small. unfold modulus in *. lia. }
        assert (Hc1 : add (critical_count (stats p)) 1
                      = critical_count (stats p) + 1).
        { apply u32_small. unfold modulus in *. lia. }
        rewrite Ha1 in Hal. rewrite Hc1 in Hcr. cbv zeta.
        destruct (out_of_range (config p) v); cbn [negb andb] in Hal, Hcr.
        + repeat split; lia.
        + destruct (F32.gtb v (alert_threshold (config p))) eqn:Hga,
            (F32.gtb v (critical_threshold (config p))) eqn:Hgc;
            repeat split; try lia.
          intros Hord.
          rewrite (geb_gtb_trans _ _ _ Hord Hgc) in Hga. discriminate. }
    cbv zeta in Hstep. destruct Hstep as (Hda & Hdc & Hds & Hord).
    destruct (IH p1 d) as (p' & Hall & Hcfg' & Hda' & Hdc' & Hds' & Hord');
      [lia | lia | lia |].
    exists p'. split; [exact Hall|]. split; [congruence|].
    rewrite Hcfg in Hord'. cbv zeta. cbn [length].
    split; [lia|]. split; [lia|]. split; [lia|].
    intros H. specialize (Hord H). specialize (Hord' H). lia.
Qed.

(** X5. Over any sequence of fewer than 2^32 reads of a freshly
    constructed or reset sensor, the statistics never count more samples
    than reads were made, nor more alerts or critical events than
    samples, and the configuration stays the one stored. *)
Theorem temperature_read_all_counters (envs : list Libc) p d :
  stats p = initial_stats ->
  Z.of_nat (length envs) < modulus ->
  exists p',
    temperature_read_all envs (Some p) d = Some p' /\
    config p' = config p /\
    0 <= alert_count (stats p') <= sample_count (stats p') /\
    0 <= critical_count (stats p') <= sample_count (stats p') /\
    sample_count (stats p') <= Z.of_nat (length envs).
Proof.
  intros Hst Hn.
  destruct (temperature_read_all_counters_aux envs p d)
    as (p' & Hall & Hcfg & Hda & Hdc & Hds & _);
    try (rewrite Hst; cbn; lia).
  rewrite Hst in Hda, Hdc, Hds. cbn in Hda, Hdc, Hds.
  exists p'. repeat split; try assumption; lia.
Qed.

(** X6. When [alert_threshold] is at most [critical_threshold], every
    sample that counts a critical event counts an alert as well: from
    construction or a reset on, [critical_count] never exceeds
    [alert_count]. *)
Theorem temperature_read_all_critical_le_alert (envs : list Libc) p d :
  stats p = initial_stats ->
  Z.of_nat (length envs) < modulus ->
  F32.geb (critical_threshold (config p)) (alert_threshold (config p)) = true ->
  exists p',
    temperature_read_all envs (Some p) d = Some p' /\
    critical_count (stats p') <= alert_count (stats p').
Proof.
  intros Hst Hn Hord.
  destruct (temperature_read_all_counters_aux envs p d)
    as (p' & Hall & _ & _ & _ & _ & Hle);
    try (rewrite Hst; cbn; lia).
  specialize (Hle Hord). rewrite Hst in Hle. cbn in Hle.
  exists p'. split; [exact Hall | lia].
Qed.

(** *** Configuration and statistics accessors *)

Lemma temperature_read_all_config (envs : list Libc) : forall p d,
  exists p',
    temperature_read_all envs (Some p) d = Some p' /\ config p' = config p.
Proof.
  induction envs as [|env envs IH]; intros p d.
  - exists p. split; reflexivity.
  - cbn [temperature_read_all].
    destruct (temperature_read_step env p d)
      as (ok & d' & p1 & -> & Hcfg & _).
    destruct (IH p1 d) as (p' & Hall & Hcfg').
    exists p'. split; [exact Hall | congruence].
Qed.

(** X7. A configuration handed to [temperature_sensor_set_config] is
    stored without any check and is the one
    [temperature_sensor_get_config] returns, also after any number of
    reads; the statistics, the cached reading and the debounce timer are
    not touched by the update.  Without a sensor, a configuration or an
    allocated state both calls do nothing. *)
Theorem temperature_sensor_config_round_trip
    (s : Sensor PrivateData) cfg (out : TemperatureConfig) p
    (envs : list Libc) d :
  (exists p1,
     temperature_sensor_set_config (Some s) (Some cfg) (Some p) = Some p1 /\
     (stats p1, last_reading p1, last_sample_time p1)
       = (stats p, last_reading p, last_sample_time p) /\
     temperature_sensor_get_config (Some s) (Some out) (Some p1) = Some cfg /\
     temperature_sensor_get_config (Some s) (Some out)
       (temperature_read_all envs (Some p1) d) = Some cfg) /\
  temperature_sensor_set_config None (Some cfg) (Some p) = Some p /\
  temperature_sensor_set_config (Some s) None (Some p) = Some p /\
  temperature_sensor_set_config (Some s) (Some cfg) None = None /\
  temperature_sensor_get_config None (Some out) (Some p) = Some out /\
  temperature_sensor_get_config (Some s) (Some out) None = Some out.
Proof.
  split; [|repeat split].
  eexists. split; [reflexivity|]. split; [reflexivity|].
  split; [reflexivity|].
  match goal with
  | |- context [temperature_read_all envs (Some ?q) d] =>
      destruct (temperature_read_all_config envs q d) as (p' & -> & Hcfg)
  end.
  cbn in Hcfg. cbn. congruence.
Qed.

(** X8. [temperature_sensor_reset_stats] puts the statistics back to
    their seeds whatever was read before, and
    [temperature_sensor_get_stats] then reports exactly the seeds; the
    configuration, the cached reading and the debounce timer survive the
    reset, so a read that follows within the sampling period is still
    answered from the cache and counts no sample.  A second reset
    changes nothing. *)
Theorem temperature_sensor_reset_stats_restarts
    (s : Sensor PrivateData) (envs : list Libc) p d (out : TemperatureStats)
    env d2 :
  exists p1 p2,
    temperature_read_all envs (Some p) d = Some p1 /\
    temperature_sensor_reset_stats (Some s) (Some p1) = Some p2 /\
    temperature_sensor_get_stats (Some s) (Some out) (Some p2)
      = Some initial_stats /\
    (config p2, last_reading p2, last_sample_time p2)
      = (config p1, last_reading p1, last_sample_time p1) /\
    temperature_sensor_reset_stats (Some s) (Some p2) = Some p2 /\
    (debounced env p1 = true ->
     exists d2',
       temperature_read env (Some p2) (Some d2) = (true, Some d2', Some p2) /\
       data_value d2' = temperature (last_reading p1) /\
       sample_count (stats p2) = 0).
Proof.
  destruct (temperature_read_all_config envs p d) as (p1 & Hall & _).
  exists p1. eexists. split; [exact Hall|]. split; [reflexivity|].
  split; [reflexivity|]. split; [reflexivity|]. split; [reflexivity|].
  intros Hdeb. rewrite temperature_read_debounced by exact Hdeb.
  eexists. split; [reflexivity|]. split; reflexivity.
Qed.

(** *** Derived values *)

Lemma gtb_zero_zero : F32.gtb F32.zero F32.zero = false.
Proof. reflexivity. Qed.

(** X9. With [enable_humidity] off no read ever computes a derived
    value: whatever [enable_dew_point] and [enable_heat_index] say, the
    cached dew point and heat index stay as they were over any sequence
    of reads, and the cached humidity is the old one (no fresh sample
    yet) or zero. *)
Theorem temperature_read_all_without_humidity (envs : list Libc) :
  forall p d,
  enable_humidity (config p) = false ->
  exists p',
    temperature_read_all envs (Some p) d = Some p' /\
    dew_point (last_reading p') = dew_point (last_reading p) /\
    heat_index (last_reading p') = heat_index (last_reading p) /\
    (humidity (last_reading p') = humidity (last_reading p) \/
     humidity (last_reading p') = F32.zero).
Proof.
  induction envs as [|env envs IH]; intros p d Hoff.
  - exists p. cbn. auto.
  - cbn [temperature_read_all].
    destruct (temperature_read_step env p d)
      as (ok & d' & p1 & -> & Hcfg & Hdeb & Hfresh).
    destruct (IH p1 d) as (p' & Hall & Hdp & Hhi & Hh); [congruence|].
    exists p'. split; [exact Hall|].
    destruct (debounced env p) eqn:Hd.
    + destruct (Hdeb eq_refl) as [-> _]. auto.
    + destruct (Hfresh eq_refl) as (_ & _ & Hlr & _).
      assert (Hsr : sample_reading env p =
                    {| temperature := sample_temperature env (config p);
                       humidity := F32.zero;
                       dew_point := dew_point (last_reading p);
                       heat_index := heat_index (last_reading p) |}).
      { unfold sample_reading, sample_humidity. rewrite Hoff.
        rewrite gtb_zero_zero, !andb_false_r. reflexivity. }
      rewrite Hsr in Hlr. rewrite Hlr in Hdp, Hhi, Hh. cbn in Hdp, Hhi, Hh.
      split; [exact Hdp|]. split; [exact Hhi|].
      right. destruct Hh as [Hh|Hh]; exact Hh.
Qed.

(** X10. The derived values a fresh read caches are the ones the public
    calculators return for the cached temperature and humidity: with
    the humidity sample above zero, an enabled dew point (heat index) in
    [last_reading] equals [temperature_sensor_calculate_dew_point]
    ([temperature_sensor_calculate_heat_index]) of the cached pair; a
    disabled one keeps its previous value. *)
Theorem temperature_read_derived_values env p d :
  debounced env p = false ->
  exists ok d' p',
    temperature_read env (Some p) (Some d) = (ok, Some d', Some p') /\
    let r := last_reading p' in
    (F32.gtb (humidity r) F32.zero = true ->
     dew_point r
     = (if enable_dew_point (config p)
        then temperature_sensor_calculate_dew_point (temperature r) (humidity r)
        else dew_point (last_reading p)) /\
     heat_index r
     = (if enable_heat_index (config p)
        then temperature_sensor_calculate_heat_index (temperature r)
               (humidity r)
        else heat_index (last_reading p))).
Proof.
  intros Hfresh.
  destruct (temperature_read_step env p d)
    as (ok & d' & p' & Hread & _ & _ & Hf).
  destruct (Hf Hfresh) as (_ & _ & Hlr & _).
  exists ok, d', p'. split; [exact Hread|]. cbv zeta. rewrite Hlr.
  unfold sample_reading, temperature_sensor_calculate_dew_point,
    temperature_sensor_calculate_heat_index.
  cbn [humidity temperature dew_point heat_index].
  generalize (sample_temperature env (config p)) as t.
  generalize (sample_humidity env (config p)) as h.
  intros h t Hpos. rewrite Hpos, !andb_true_r. split; reflexivity.
Qed.

(** *** The sensor object and the private state together *)

(** X11. After [temperature_sensor_cleanup] the private state is gone
    and a second cleanup finds nothing to free.  The sensor object still
    points at the temperature implementation, so a later
    [sensor_read_data] is dispatched, counted as a sample, and fails
    with [SENSOR_ERROR_INVALID_PARAM] in the record and in [last_error],
    counting an error and leaving the record's value as it was; the
    accessors of statistics and configuration do nothing. *)
Theorem temperature_sensor_use_after_cleanup env
    (s : Sensor PrivateData) d (pd : PrivateData)
    (st : TemperatureStats) cfg :
  s_cleanup s = Some temperature_cleanup ->
  s_read s = Some temperature_read_slot ->
  temperature_sensor_cleanup (Some s) pd = None /\
  temperature_sensor_cleanup (Some s) None = None /\
  (exists s' d',
     sensor_read_data env (Some s) (Some d) None
       = (false, Some s', Some d', None) /\
     data_error d' = SENSOR_ERROR_INVALID_PARAM /\
     data_value d' = data_value d /\
     data_is_valid d' = false /\
     s_last_error s' = SENSOR_ERROR_INVALID_PARAM /\
     s_sample_count s' = add (s_sample_count s) 1 /\
     s_error_count s' = add (s_error_count s) 1) /\
  temperature_sensor_get_stats (Some s) (Some st) None = Some st /\
  temperature_sensor_get_config (Some s) (Some cfg) None = Some cfg /\
  temperature_sensor_reset_stats (Some s) None = None /\
  temperature_sensor_set_config (Some s) (Some cfg) None = None.
Proof.
  intros Hcleanup Hread.
  split; [unfold temperature_sensor_cleanup, sensor_cleanup;
          rewrite Hcleanup; reflexivity|].
  split; [unfold temperature_sensor_cleanup, sensor_cleanup;
          rewrite Hcleanup; reflexivity|].
  split; [|repeat split].
  rewrite (sensor_read_data_bound env s d None temperature_read_slot Hread).
  do 2 eexists. split; [reflexivity|]. cbn. repeat split.
Qed.

(** X12. Reading a temperature sensor through [sensor_read_data]: the
    sensor object counts every call, the statistics only the calls that
    sampled, and every sample is either rejected as out of range (one
    error on the sensor object) or eligible for an alert and a critical
    event, never both.  So, from a state where this holds and without
    counter overflow, [error_count + alert_count] and
    [error_count + critical_count] stay at most the statistics'
    [sample_count], which stays at most the sensor's [sample_count]. *)
Theorem temperature_dispatch_counters (envs : list Libc) :
  forall (s : Sensor PrivateData) d p,
  s_read s = Some temperature_read_slot ->
  0 <= s_error_count s -> 0 <= alert_count (stats p) ->
  0 <= critical_count (stats p) ->
  s_error_count s + alert_count (stats p) <= sample_count (stats p) ->
  s_error_count s + critical_count (stats p) <= sample_count (stats p) ->
  sample_count (stats p) <= s_sample_count s ->
  s_sample_count s + Z.of_nat (length envs) < modulus ->
  exists oks s' d' p',
    sensor_read_all envs (Some s) (Some d) (Some p)
      = (oks, Some s', Some d', Some p') /\
    s_sample_count s' = s_sample_count s + Z.of_nat (length envs) /\
    0 <= s_error_count s' /\ 0 <= alert_count (stats p') /\
    0 <= critical_count (stats p') /\
    s_error_count s' + alert_count (stats p') <= sample_count (stats p') /\
    s_error_count s' + critical_count (stats p') <= sample_count (stats p') /\
    sample_count (stats p') <= s_sample_count s'.
Proof.
  induction envs as [|env envs IH];
    intros s d p Hread He Ha Hc Hea Hec Hss Hn.
  - exists [], s, d, p. cbn. rewrite Z.add_0_r. repeat split; assumption.
  - cbn [length] in Hn.
    destruct (sensor_read_data_frame env s d (Some p) _ Hread)
      as (ok & s1 & d1 & w1 & Hcall & Hslot & Hr1 & _ & _ & _ & _
          & Hs1 & He1 & _).
    unfold temperature_read_slot in Hslot.
    destruct (temperature_read_step env p (stamp env s d))
      as (ok' & d' & p1 & Hstep & _ & Hdeb & Hfresh).
    rewrite Hstep in Hslot. injection Hslot as -> _ <-.
    assert (Hs1' : s_sample_count s1 = s_sample_count s + 1).
    { rewrite Hs1. apply u32_small. unfold modulus in *. lia. }
    assert (Hinv :
      0 <= s_error_count s1 /\ 0 <= alert_count (stats p1) /\
      0 <= critical_count (stats p1) /\
      s_error_count s1 + alert_count (stats p1) <= sample_count (stats p1) /\
      s_error_count s1 + critical_count (stats p1)
        <= sample_count (stats p1) /\
      sample_count (stats p1) <= s_sample_count s1).
    { destruct (debounced env p) eqn:Hd.
      - destruct (Hdeb eq_refl) as [-> ->]. rewrite He1. lia.
      - destruct (Hfresh eq_refl) as (Hok & _ & _ & _ & Hsc & Hal & Hcr).
        cbv zeta in Hok, Hal, Hcr.
        set (v := sample_temperature env (config p)) in *.
        assert (Hsc1 : sample_count (stats p1) = sample_count (stats p) + 1).
        { rewrite Hsc. apply u32_small. unfold modulus in *. lia. }
        assert (Ha1 : add (alert_count (stats p)) 1
                      = alert_count (stats p) + 1).
        { apply u32_small. unfold modulus in *. lia. }
        assert (Hc1 : add (critical_count (stats p)) 1
                      = critical_count (stats p) + 1).
        { apply u32_small. unfold modulus in *. lia. }
        assert (He1' : add (s_error_count s) 1 = s_error_count s + 1).
        { apply u32_small. unfold modulus in *. lia. }
        rewrite Ha1 in Hal. rewrite Hc1 in Hcr. rewrite He1' in He1.
        rewrite Hok in He1.
        destruct (out_of_range (config p) v);
          cbn [negb andb] in He1, Hal, Hcr.
        + lia.
        + destruct (F32.gtb v (alert_threshold (config p))),
            (F32.gtb v (critical_threshold (config p))); lia. }
    destruct Hinv as (He' & Ha' & Hc' & Hea' & Hec' & Hss').
    destruct (IH s1 d1 p1 Hr1 He' Ha' Hc' Hea' Hec' Hss')
      as (oks & s' & d2 & p' & Hall & Hcount & Hrest); [lia|].
    exists (ok :: oks), s', d2, p'.
    cbn [sensor_read_all]. rewrite Hcall, Hall.
    split; [reflexivity|]. split; [cbn [length]; lia | exact Hrest].
Qed.

(** *** Construction *)

(** X23. [temperature_sensor_init] on a sensor object, an identifier
    and a configuration.  When [malloc] succeeds it returns true and
    replaces whatever private state there was by a fresh one around the
    configuration (seeded statistics, timer at 0), and the object is
    typed, named "Temperature Sensor" at "Factory Floor", bound to the
    temperature implementation, with counters at zero.  When [malloc]
    fails it returns false with [SENSOR_ERROR_MEMORY]; the private state
    is then gone, while the object has been through [sensor_init]
    (counters zeroed, default cleanup) and still carries the read slot
    it had.  With the identifier or the configuration null nothing
    changes but [last_error]. *)
Theorem temperature_sensor_init_outcomes (malloc_ok : bool)
    (s : Sensor PrivateData) (id : string) cfg (pd : PrivateData) :
  (exists s',
     temperature_sensor_init malloc_ok (Some s) (Some id) (Some cfg) pd
       = (malloc_ok, Some s',
          if malloc_ok then Some (private_of cfg) else None) /\
     s_type s' = SENSOR_TYPE_TEMPERATURE /\
     s_id s' = strncpy 31 id /\
     s_sample_count s' = 0 /\ s_error_count s' = 0 /\
     if malloc_ok
     then s_name s' = "Temperature Sensor"%string /\
          s_location s' = "Factory Floor"%string /\
          s_read s' = Some temperature_read_slot /\
          s_cleanup s' = Some temperature_cleanup /\
          s_last_error s' = SENSOR_ERROR_NONE
     else s_name s' = EmptyString /\
          s_location s' = EmptyString /\
          s_read s' = s_read s /\
          s_cleanup s' = Some default_cleanup /\
          s_last_error s' = SENSOR_ERROR_MEMORY) /\
  temperature_sensor_init malloc_ok (Some s) None (Some cfg) pd
    = (false, Some (set_last_error SENSOR_ERROR_INVALID_PARAM s), pd) /\
  temperature_sensor_init malloc_ok (Some s) (Some id) None pd
    = (false, Some (set_last_error SENSOR_ERROR_INVALID_PARAM s), pd) /\
  temperature_sensor_init malloc_ok None (Some id) (Some cfg) pd
    = (false, None, pd).
Proof.
  split; [|split; [|split]; reflexivity].
  destruct malloc_ok; eexists; (split; [reflexivity|]); cbn; repeat split.
Qed.

(** *** What the read path leaves out, and the degenerate sampling period *)

(** X24. The standard deviation is never computed: no sequence of reads
    changes [std_deviation], so from construction or a reset on it is
    zero whatever was sampled. *)
Theorem temperature_read_all_std_deviation (envs : list Libc) : forall p d,
  exists p',
    temperature_read_all envs (Some p) d = Some p' /\
    std_deviation (stats p') = std_deviation (stats p) /\
    (stats p = initial_stats -> std_deviation (stats p') = F32.zero).
Proof.
  induction envs as [|env envs IH]; intros p d.
  - exists p. split; [reflexivity|]. split; [reflexivity|].
    intros ->. reflexivity.
  - cbn [temperature_read_all].
    assert (Hstep : exists ok d' p1,
      temperature_read env (Some p) (Some d) = (ok, Some d', Some p1) /\
      std_deviation (stats p1) = std_deviation (stats p)).
    { destruct (debounced env p) eqn:Hdeb.
      - rewrite (temperature_read_debounced _ _ _ Hdeb). eauto 6.
      - rewrite (temperature_read_fresh _ _ _ Hdeb). cbv zeta.
        do 3 eexists. split; reflexivity. }
    destruct Hstep as (ok & d' & p1 & -> & Hsd).
    destruct (IH p1 d) as (p' & Hall & Hsd' & _).
    exists p'. split; [exact Hall|].
    assert (Heq : std_deviation (stats p') = std_deviation (stats p))
      by congruence.
    split; [exact Heq|]. intros Hst. rewrite Heq, Hst. reflexivity.
Qed.

Lemma debounced_zero_rate env p :
  sampling_rate_ms (config p) = 0 -> debounced env p = false.
Proof.
  intros Hrate. unfold debounced. rewrite Hrate.
  apply Z.ltb_ge. apply u32_range.
Qed.

(** X25. With [sampling_rate_ms] zero, a value construction accepts,
    nothing is ever answered from the cache: every read draws a fresh
    sample, so without counter overflow the statistics count exactly as
    many samples as reads were made. *)
Theorem temperature_read_all_zero_rate (envs : list Libc) : forall p d,
  sampling_rate_ms (config p) = 0 ->
  0 <= sample_count (stats p) ->
  sample_count (stats p) + Z.of_nat (length envs) < modulus ->
  exists p',
    temperature_read_all envs (Some p) d = Some p' /\
    sample_count (stats p')
      = sample_count (stats p) + Z.of_nat (length envs).
Proof.
  induction envs as [|env envs IH]; intros p d Hrate Hpos Hroom.
  - exists p. cbn. split; [reflexivity | lia].
  - cbn [temperature_read_all length] in *.
    destruct (temperature_read_step env p d)
      as (ok & d' & p1 & -> & Hcfg & _ & Hfresh).
    destruct (Hfresh (debounced_zero_rate env p Hrate))
      as (_ & _ & _ & _ & Hcount & _).
    assert (Hcount1 : sample_count (stats p1) = sample_count (stats p) + 1).
    { rewrite Hcount. apply u32_small. unfold modulus in *. lia. }
    destruct (IH p1 d) as (p' & Hall & Hcount'); [congruence | lia | lia |].
    exists p'. split; [exact Hall | lia].
Qed.

(** *** The properties above at concrete inputs *)

Lemma temperature_read_all_counters_witness :
  exists p',
    temperature_read_all three_reads (Some (private_of main_config)) blank_data
      = Some p' /\
    sample_count (stats p') <= 3.
Proof.
  destruct (temperature_read_all_counters three_reads
              (private_of main_config) blank_data)
    as (p' & Hall & _ & _ & _ & Hn);
    [reflexivity | vm_compute; reflexivity |].
  exists p'. split; [exact Hall | exact Hn].
Defined.

Lemma temperature_read_all_critical_le_alert_witness :
  exists p',
    temperature_read_all three_reads
      (Some (private_of (config_of 0 50 20 22 0))) blank_data = Some p' /\
    critical_count (stats p') = 2 /\
    critical_count (stats p') <= alert_count (stats p').
Proof.
  destruct (temperature_read_all_critical_le_alert three_reads
              (private_of (config_of 0 50 20 22 0)) blank_data)
    as (p' & Hall & Hle);
    [reflexivity | vm_compute; reflexivity | vm_compute; reflexivity |].
  exists p'. split; [exact Hall|]. split; [|exact Hle].
  assert (Hp : Some p' =
               temperature_read_all three_reads
                 (Some (private_of (config_of 0 50 20 22 0))) blank_data)
    by (symmetry; exact Hall).
  vm_compute in Hp. injection Hp as ->. reflexivity.
Defined.

Lemma temperature_sensor_reset_stats_restarts_witness :
  exists p1 p2 d2',
    temperature_read_all [env_at 1 rand_mid] (Some (private_of main_config))
      blank_data = Some p1 /\
    temperature_sensor_reset_stats (Some temp_sensor) (Some p1) = Some p2 /\
    temperature_read (env_at 1 rand_high) (Some p2) (Some blank_data)
      = (true, Some d2', Some p2) /\
    data_value d2' = F32.of_Z 25 /\
    sample_count (stats p2) = 0.
Proof.
  destruct (temperature_sensor_reset_stats_restarts temp_sensor
              [env_at 1 rand_mid] (private_of main_config) blank_data
              initial_stats (env_at 1 rand_high) blank_data)
    as (p1 & p2 & Hall & Hreset & _ & _ & _ & Hdeb).
  assert (Hp1 : Some p1 =
                temperature_read_all [env_at 1 rand_mid]
                  (Some (private_of main_config)) blank_data)
    by (symmetry; exact Hall).
  vm_compute in Hp1. injection Hp1 as Hp1.
  destruct Hdeb as (d2' & Hread & Hval & Hcount);
    [rewrite Hp1; vm_compute; reflexivity|].
  exists p1, p2, d2'. split; [exact Hall|]. split; [exact Hreset|].
  split; [exact Hread|]. split; [|exact Hcount].
  rewrite Hval, Hp1. vm_compute. reflexivity.
Defined.

Lemma temperature_read_all_without_humidity_witness :
  exists p',
    temperature_read_all three_reads (Some (private_of dry_config)) blank_data
      = Some p' /\
    dew_point (last_reading p') = F32.zero /\
    heat_index (last_reading p') = F32.zero.
Proof.
  destruct (temperature_read_all_without_humidity three_reads
              (private_of dry_config) blank_data)
    as (p' & Hall & Hdp & Hhi & _); [reflexivity|].
  exists p'. split; [exact Hall|]. split; [exact Hdp | exact Hhi].
Defined.

Lemma temperature_read_derived_values_witness :
  exists ok d' p',
    temperature_read (env_at 1 rand_mid) (Some (private_of main_config))
      (Some blank_data) = (ok, Some d', Some p') /\
    dew_point (last_reading p')
    = temperature_sensor_calculate_dew_point
        (temperature (last_reading p')) (humidity (last_reading p')).
Proof.
  destruct (temperature_read_derived_values (env_at 1 rand_mid)
              (private_of main_config) blank_data)
    as (ok & d' & p' & Hread & Hder); [vm_compute; reflexivity|].
  assert (Hres : (ok, Some d', Some p') =
                 temperature_read (env_at 1 rand_mid)
                   (Some (private_of main_config)) (Some blank_data))
    by (symmetry; exact Hread).
  vm_compute in Hres. injection Hres as Hok Hd Hp.
  exists ok, d', p'. split; [exact Hread|].
  cbv zeta in Hder. destruct Hder as [Hdp _].
  - rewrite Hp. vm_compute. reflexivity.
  - exact Hdp.
Defined.

Lemma temperature_sensor_use_after_cleanup_witness :
  temperature_sensor_cleanup (Some temp_sensor) (Some (private_of main_config))
    = None /\
  exists s' d',
    sensor_read_data (env_at 1 rand_mid) (Some temp_sensor) (Some blank_data)
      None = (false, Some s', Some d', None) /\
    data_error d' = SENSOR_ERROR_INVALID_PARAM /\
    s_error_count s' = 1.
Proof.
  destruct (temperature_sensor_use_after_cleanup (env_at 1 rand_mid)
              temp_sensor blank_data (Some (private_of main_config))
              initial_stats main_config)
    as (Hclean & _ & (s' & d' & Hread & Herr & _ & _ & _ & _ & Hcount) & _);
    [reflexivity | reflexivity |].
  split; [exact Hclean|]. exists s', d'.
  split; [exact Hread|]. split; [exact Herr | exact Hcount].
Defined.

Lemma temperature_dispatch_counters_witness :
  exists oks s' d' p',
    sensor_read_all three_reads (Some temp_sensor) (Some blank_data)
      (Some (private_of main_config)) = (oks, Some s', Some d', Some p') /\
    s_sample_count s' = 3 /\
    sample_count (stats p') <= s_sample_count s'.
Proof.
  destruct (temperature_dispatch_counters three_reads temp_sensor blank_data
              (private_of main_config))
    as (oks & s' & d' & p' & Hall & Hcount & _ & _ & _ & _ & _ & Hle);
    [reflexivity | cbn; lia | cbn; lia | cbn; lia | cbn; lia | cbn; lia
     | cbn; lia | reflexivity |].
  exists oks, s', d', p'. split; [exact Hall|].
  split; [exact Hcount | exact Hle].
Defined.

Lemma sensor_read_all_counts_witness :
  exists oks s' d' w',
    sensor_read_all three_reads (Some temp_sensor) (Some blank_data)
      (Some (private_of main_config)) = (oks, Some s', Some d', w') /\
    length oks = 3%nat /\
    s_sample_count s' = 3.
Proof.
  destruct (sensor_read_all_counts three_reads temp_sensor blank_data
              (Some (private_of main_config)) temperature_read_slot)
    as (oks & s' & d' & w' & Hall & Hlen & Hs & _);
    [reflexivity | split; [cbn; lia | reflexivity]
     | split; [cbn; lia | reflexivity] |].
  exists oks, s', d', w'. split; [exact Hall|].
  split; [exact Hlen | exact Hs].
Defined.

Lemma temperature_read_all_std_deviation_witness :
  exists p',
    temperature_read_all three_reads (Some (private_of main_config)) blank_data
      = Some p' /\
    std_deviation (stats p') = F32.zero.
Proof.
  destruct (temperature_read_all_std_deviation three_reads
              (private_of main_config) blank_data) as (p' & Hall & _ & Hzero).
  exists p'. split; [exact Hall | apply Hzero; reflexivity].
Defined.

Lemma temperature_read_all_zero_rate_witness :
  exists p',
    temperature_read_all three_reads (Some (private_of inverted_config))
      blank_data = Some p' /\
    sample_count (stats p') = 3.
Proof.
  destruct (temperature_read_all_zero_rate three_reads
              (private_of inverted_config) blank_data)
    as (p' & Hall & Hcount);
    [reflexivity | cbn; lia | reflexivity |].
  exists p'. split; [exact Hall | exact Hcount].
Defined.
End TemperatureOpsFacts.

Module LoggerOpsFacts.
Import U32 U32Facts Sensor SensorOps Logger LoggerOps.
Import Examples OpsExamples SensorOpsFacts LoggerFacts.
Local Open Scope Z_scope.

Implicit Types (env : Libc) (w : World) (p : LoggerPrivate).
Implicit Types (cfg : LoggerConfig) (level : LogLevel).

(** *** Rotation, step by step *)

(** [logger_rotate_log_file] up to the outcome of [fopen]. *)
Lemma rotate_with_eq log w p fp :
  private_data w = Some p ->
  log_fp p = Some fp ->
  let cfg := config p in
  let w0 :=
    rotate_loop cfg (Z.to_nat (to_int (sub (max_files cfg) 1) + 1))
      (set_private
         (Some {| config := cfg; log_fp := None;
                  current_file_size := current_file_size p;
                  file_count := file_count p |})
         (sys_fclose fp w)) in
  rotate_with log w =
    if fopen_denied w (log_file cfg)
    then Some (sys (EvFopen (log_file cfg) ModeTruncate false) (fs w0) w0)
    else
      match log LOG_LEVEL_INFO (Some "Log file rotated"%string)
              (set_private
                 (Some {| config := cfg; log_fp := Some (log_file cfg);
                          current_file_size := 0;
                          file_count := file_count p |})
                 (sys (EvFopen (log_file cfg) ModeTruncate true)
                      (<[log_file cfg := EmptyString]> (fs w0)) w0)) with
      | Some (_, w2) => Some w2
      | None => None
      end.
Proof.
  intros Hp Hfp cfg w0. unfold rotate_with. rewrite Hp, Hfp.
  fold cfg. fold w0. unfold sys_fopen.
  assert (Hden : fopen_denied w0 = fopen_denied w).
  { subst w0. destruct (rotate_loop_frame cfg
      (Z.to_nat (to_int (sub (max_files cfg) 1) + 1))
      (set_private
         (Some {| config := cfg; log_fp := None;
                  current_file_size := current_file_size p;
                  file_count := file_count p |})
         (sys_fclose fp w))) as (_ & -> & _). reflexivity. }
  rewrite Hden. destruct (fopen_denied w (log_file cfg)); reflexivity.
Qed.

(** The notice of a rotation is a write that stays below every limit
    other than zero, so it needs no nesting of its own. *)
Lemma logger_log_notice fuel env w p :
  private_data w = Some p ->
  current_file_size p = 0 ->
  size_limit (config p) <> 0 ->
  exists b w',
    logger_log fuel env LOG_LEVEL_INFO (Some "Log file rotated"%string) w
      = Some (b, w') /\
    logger_log 0 env LOG_LEVEL_INFO (Some "Log file rotated"%string) w
      = Some (b, w').
Proof.
  intros Hp Hsize Hlimit. rewrite !logger_log_eq, Hp.
  destruct (_ <? _)%nat; [eauto|]. cbv zeta.
  destruct (log_to_file (config p)), (log_fp p); eauto.
  rewrite Hsize.
  set (notice := format_message env (config p) LOG_LEVEL_INFO _).
  pose proof (format_message_length env (config p) LOG_LEVEL_INFO
                "Log file rotated") as Hlen. fold notice in Hlen.
  rewrite (u32_small (0 + (Z.of_nat (String.length notice) + 1)))
    by (unfold modulus; lia).
  destruct (size_limit_cases (config p)) as [H0|H1024]; [contradiction|].
  destruct (Z.leb_spec (size_limit (config p))
              (0 + (Z.of_nat (String.length notice) + 1))); [lia|].
  eauto.
Qed.

Lemma rotate_with_returns fuel env w :
  (forall p, private_data w = Some p -> size_limit (config p) <> 0) ->
  exists w',
    rotate_with (logger_log fuel env) w = Some w' /\
    rotate_with (logger_log 0 env) w = Some w'.
Proof.
  intros Hlimit. destruct (private_data w) as [p|] eqn:Hp.
  2:{ unfold rotate_with. rewrite Hp. eauto. }
  destruct (log_fp p) as [fp|] eqn:Hfp.
  2:{ unfold rotate_with. rewrite Hp, Hfp. eauto. }
  rewrite !(rotate_with_eq _ w p fp Hp Hfp). cbv zeta.
  destruct (fopen_denied w (log_file (config p))); [eauto|].
  match goal with
  | |- context [logger_log fuel env _ _ ?w1] =>
      destruct (logger_log_notice fuel env w1 _ eq_refl eq_refl
                  (Hlimit p eq_refl)) as (b & w' & -> & ->)
  end.
  eauto.
Qed.

(** X13. With a size limit other than zero (that is, [max_file_size_kb]
    not a multiple of 2^22) every call of [logger_log] returns: one level
    of nesting through [logger_rotate_log_file] is enough, whatever the
    message, the state of the logger and the outcome of [fopen], and a
    larger nesting bound gives the same result. *)
Theorem logger_log_returns fuel env level (message : option string) w :
  (forall p, private_data w = Some p -> size_limit (config p) <> 0) ->
  exists b w',
    logger_log 1 env level message w = Some (b, w') /\
    logger_log (S fuel) env level message w = Some (b, w').
Proof.
  intros Hlimit. rewrite !logger_log_eq.
  destruct (private_data w) as [p|] eqn:Hp; [|eauto].
  destruct message as [message|]; [|eauto].
  destruct (_ <? _)%nat; [eauto|]. cbv zeta.
  destruct (log_to_file (config p)), (log_fp p) as [fp|]; eauto.
  destruct (_ <=? _); [|eauto].
  match goal with
  | |- context [rotate_with (logger_log fuel env) ?w1] =>
      destruct (rotate_with_returns fuel env w1) as (w' & -> & ->)
  end.
  - destruct (log_to_console (config p)); cbn [private_data set_private];
      intros q [= <-]; exact (Hlimit p eq_refl).
  - eauto.
Qed.

(** *** What a write does to the files *)

Lemma length_append (a b : string) :
  String.length (a +:+ b) = (String.length a + String.length b)%nat.
Proof.
  induction a as [|c a IH]; [reflexivity|].
  change (S (String.length (a +:+ b))
          = S (String.length a + String.length b)).
  rewrite IH. reflexivity.
Qed.

Lemma append_assoc (a b c : string) : (a +:+ b) +:+ c = a +:+ b +:+ c.
Proof.
  induction a as [|x a IH]; [reflexivity|].
  change (String x ((a +:+ b) +:+ c) = String x (a +:+ b +:+ c)).
  rewrite IH. reflexivity.
Qed.

Lemma size_limit_range cfg : 0 <= size_limit cfg < modulus.
Proof. apply u32_range. Qed.

(** A write that stays below the limit, with its effect on the files. *)
Lemma logger_log_write fuel env level (message : string) w p fp :
  private_data w = Some p ->
  (level_code (min_level (config p)) <= level_code level)%nat ->
  log_to_file (config p) = true ->
  log_fp p = Some fp ->
  let line := format_message env (config p) level message in
  let size := u32 (current_file_size p + (Z.of_nat (String.length line) + 1)) in
  size < size_limit (config p) ->
  exists w',
    logger_log fuel env level (Some message) w = Some (true, w') /\
    private_data w' =
      Some {| config := config p; log_fp := Some fp;
              current_file_size := size; file_count := file_count p |} /\
    fs w' = alter (fun content => content +:+ line +:+ newline) fp (fs w) /\
    fopen_denied w' = fopen_denied w /\
    events w' =
      events w ++ (if log_to_console (config p) then [EvPrintf line] else [])
        ++ [EvFprintf fp line].
Proof.
  intros Hp Hlevel Hfile Hfp line size Hsize.
  rewrite logger_log_eq, Hp.
  apply Nat.ltb_ge in Hlevel. rewrite Hlevel. cbv zeta.
  rewrite Hfile, Hfp. fold line. fold size.
  apply Z.leb_gt in Hsize. rewrite Hsize.
  eexists. split; [reflexivity|].
  cbn [private_data set_private]. split; [reflexivity|].
  destruct (log_to_console (config p));
    cbn [fs fopen_denied events set_private sys_fprintf sys_printf sys];
    rewrite <- ?app_assoc; auto.
Qed.

Lemma alter_present (f : string -> string) (k : string) (x : string)
    (m : gmap string string) :
  m !! k = Some x -> alter f k m = <[k := f x]> m.
Proof.
  intros H. apply map_eq. intros j. destruct (decide (j = k)) as [->|Hne].
  - rewrite lookup_alter_eq, lookup_insert_eq, H. reflexivity.
  - rewrite lookup_alter_ne, lookup_insert_ne by congruence. reflexivity.
Qed.

(** X14. Writes that stay below the size limit append to the open file
    and to nothing else: after a run of accepted calls the file holds
    its previous content followed by the formatted lines in call order,
    each closed by a newline, every other file is as before, and the
    byte counter has advanced by exactly the number of bytes
    appended. *)
Theorem logger_log_all_appends fuel env :
  forall (calls : list (LogLevel * string)) w p fp content,
  private_data w = Some p ->
  Forall (fun c => (level_code (min_level (config p)) <= level_code c.1)%nat)
         calls ->
  log_to_file (config p) = true ->
  log_fp p = Some fp ->
  fs w !! fp = Some content ->
  0 <= current_file_size p ->
  let text := written (lines_of env (config p) calls) in
  current_file_size p + Z.of_nat (String.length text) < size_limit (config p) ->
  exists w',
    logger_log_all fuel env (log_calls calls) w = Some w' /\
    fs w' = <[fp := content +:+ text]> (fs w) /\
    private_data w' =
      Some {| config := config p; log_fp := Some fp;
              current_file_size :=
                current_file_size p + Z.of_nat (String.length text);
              file_count := file_count p |}.
Proof.
  induction calls as [|[level message] calls IH];
    intros w p fp content Hp Hlevels Hfile Hfp Hcontent Hsize text Hroom.
  - exists w. subst text. cbn. split; [reflexivity|].
    split.
    + assert (Happ : content +:+ EmptyString = content).
      { clear. induction content as [|c s IH]; [reflexivity|].
        change (String c (s +:+ EmptyString) = String c s). congruence. }
      rewrite Happ. symmetry. apply insert_id. exact Hcontent.
    + rewrite Hp, Z.add_0_r. destruct p; cbn in *. congruence.
  - apply Forall_cons in Hlevels as [Hlevel Hlevels]. cbn [fst] in Hlevel.
    subst text. cbn [lines_of map written fst snd] in Hroom |- *.
    fold (lines_of env (config p) calls) in Hroom |- *.
    set (line := format_message env (config p) level message) in *.
    set (rest := written (lines_of env (config p) calls)) in *.
    rewrite !length_append in Hroom. cbn [newline String.length] in Hroom.
    pose proof (size_limit_range (config p)) as Hlim.
    assert (Hsmall :
      u32 (current_file_size p + (Z.of_nat (String.length line) + 1))
      = current_file_size p + (Z.of_nat (String.length line) + 1)).
    { apply u32_small. lia. }
    destruct (logger_log_write fuel env level message w p fp Hp Hlevel
                Hfile Hfp) as (w1 & Hlog & Hp1 & Hfs1 & _).
    { fold line. rewrite Hsmall. lia. }
    fold line in Hp1, Hfs1. rewrite Hsmall in Hp1.
    rewrite (alter_present _ _ _ _ Hcontent) in Hfs1.
    destruct (IH w1 _ fp (content +:+ line +:+ newline) Hp1)
      as (w' & Hall & Hfs' & Hp');
      try assumption; try reflexivity.
    { rewrite Hfs1. apply lookup_insert_eq. }
    { cbn [current_file_size]. lia. }
    { cbn [config current_file_size]. fold rest. lia. }
    exists w'. cbn [log_calls map logger_log_all fst snd].
    fold (log_calls calls). rewrite Hlog.
    split; [exact Hall|].
    cbn [config current_file_size file_count] in Hfs', Hp'.
    fold rest in Hfs', Hp'. split.
    + rewrite Hfs', Hfs1, insert_insert_eq.
      rewrite <- !append_assoc. reflexivity.
    + rewrite Hp'. do 2 f_equal.
      rewrite !length_append. cbn [newline String.length]. lia.
Qed.

(** *** What a rotation does to the files *)

Lemma rotated_name_neq (path : string) (i : Z) :
  (String.length path < 127)%nat -> rotated_name path i <> path.
Proof.
  intros Hlen Heq. apply (f_equal String.length) in Heq.
  unfold rotated_name, snprintf in Heq.
  change (String.substring 0 127 (path +:+ "." +:+ decimal i))
    with (strncpy 127 (path +:+ "." +:+ decimal i)) in Heq.
  rewrite strncpy_length, !length_append in Heq.
  cbn [String.length] in Heq. lia.
Qed.

Lemma rotate_step_keeps_log cfg (k : nat) w :
  (String.length (log_file cfg) < 127)%nat ->
  fs (rotate_step cfg (Z.of_nat (S k)) w) !! log_file cfg
  = fs w !! log_file cfg.
Proof.
  intros Hlen. unfold rotate_step.
  destruct (Z.eqb_spec (Z.of_nat (S k)) 0) as [H0|_]; [lia|].
  pose proof (rotated_name_neq (log_file cfg) (Z.of_nat (S k)) Hlen) as Hold.
  pose proof (rotated_name_neq (log_file cfg) (Z.of_nat (S k) + 1) Hlen)
    as Hnew.
  destruct (_ =? _); cbn [fs sys sys_remove sys_rename].
  - apply lookup_delete_ne. exact Hold.
  - destruct (fs w !! rotated_name (log_file cfg) (Z.of_nat (S k)));
      [|reflexivity].
    rewrite lookup_insert_ne by exact Hnew.
    apply lookup_delete_ne. exact Hold.
Qed.

(** When the step at index 0 renames, the loop leaves the log file's
    content under the first rotated name and nothing under the log
    file's own name. *)
Lemma rotate_loop_history cfg (n : nat) : forall w content,
  (String.length (log_file cfg) < 127)%nat ->
  u32 0 <> sub (max_files cfg) 1 ->
  fs w !! log_file cfg = Some content ->
  fs (rotate_loop cfg (S n) w) !! rotated_name (log_file cfg) 1
    = Some content /\
  fs (rotate_loop cfg (S n) w) !! log_file cfg = None.
Proof.
  induction n as [|n IH]; intros w content Hlen Hrename Hcontent.
  - cbn [rotate_loop]. unfold rotate_step.
    change (Z.of_nat 0) with 0. cbn [Z.eqb Z.add].
    apply Z.eqb_neq in Hrename. rewrite Hrename.
    rewrite strncpy_fits by lia.
    cbn [fs sys sys_rename]. rewrite Hcontent.
    pose proof (rotated_name_neq (log_file cfg) 1 Hlen) as Hne.
    split.
    + apply lookup_insert_eq.
    + rewrite lookup_insert_ne by exact Hne. apply lookup_delete_eq.
  - change (rotate_loop cfg (S (S n)) w)
      with (rotate_loop cfg (S n) (rotate_step cfg (Z.of_nat (S n)) w)).
    apply IH; [exact Hlen | exact Hrename |].
    rewrite rotate_step_keeps_log by exact Hlen. exact Hcontent.
Qed.

Lemma rotation_renames_log cfg :
  2 <= max_files cfg <= 2 ^ 31 ->
  u32 0 <> sub (max_files cfg) 1 /\
  exists n, Z.to_nat (to_int (sub (max_files cfg) 1) + 1) = S n.
Proof.
  intros H. split.
  - unfold sub, u32, modulus. change (2 ^ 32) with 4294967296.
    change (2 ^ 31) with 2147483648 in H.
    rewrite (Z.mod_small (max_files cfg - 1)) by lia.
    rewrite Z.mod_0_l by lia. lia.
  - rewrite rotate_loop_count by lia.
    exists (Z.to_nat (max_files cfg) - 1)%nat.
    change (2 ^ 31) with 2147483648 in H. lia.
Qed.

(** The state [logger_log] hands to [logger_rotate_log_file]. *)
Lemma logger_log_reaches_limit fuel env level (message : string) w p fp :
  private_data w = Some p ->
  (level_code (min_level (config p)) <= level_code level)%nat ->
  log_to_file (config p) = true ->
  log_fp p = Some fp ->
  let line := format_message env (config p) level message in
  let size := u32 (current_file_size p + (Z.of_nat (String.length line) + 1)) in
  size_limit (config p) <= size ->
  exists w0,
    logger_log (S fuel) env level (Some message) w =
      match rotate_with (logger_log fuel env) w0 with
      | Some w' => Some (true, w')
      | None => None
      end /\
    private_data w0 =
      Some {| config := config p; log_fp := Some fp;
              current_file_size := size; file_count := file_count p |} /\
    fs w0 = alter (fun content => content +:+ line +:+ newline) fp (fs w) /\
    fopen_denied w0 = fopen_denied w /\
    events w0 =
      events w ++ (if log_to_console (config p) then [EvPrintf line] else [])
        ++ [EvFprintf fp line].
Proof.
  intros Hp Hlevel Hfile Hfp line size Hsize.
  rewrite logger_log_eq, Hp.
  apply Nat.ltb_ge in Hlevel. rewrite Hlevel. cbv zeta.
  rewrite Hfile, Hfp. fold line. fold size.
  apply Z.leb_le in Hsize. rewrite Hsize.
  eexists. split; [reflexivity|].
  cbn [private_data set_private]. split; [reflexivity|].
  destruct (log_to_console (config p));
    cbn [fs fopen_denied events set_private sys_fprintf sys_printf sys];
    rewrite <- ?app_assoc; auto.
Qed.

(** The notice a rotation writes into the fresh file. *)
Lemma logger_log_notice_fs fuel env w p path :
  private_data w = Some p ->
  log_fp p = Some path ->
  log_to_file (config p) = true ->
  current_file_size p = 0 ->
  size_limit (config p) <> 0 ->
  fs w !! path = Some EmptyString ->
  let notice :=
    format_message env (config p) LOG_LEVEL_INFO "Log file rotated" in
  let notice_logged :=
    (level_code (min_level (config p)) <=? level_code LOG_LEVEL_INFO)%nat in
  exists b w',
    logger_log fuel env LOG_LEVEL_INFO (Some "Log file rotated"%string) w
      = Some (b, w') /\
    fs w' =
      <[path := if notice_logged then notice +:+ newline else EmptyString]>
        (fs w) /\
    exists p', private_data w' = Some p' /\ log_fp p' = Some path /\
               config p' = config p.
Proof.
  intros Hp Hfp Hfile Hsize Hlimit Hempty notice notice_logged.
  subst notice_logged.
  destruct (Nat.leb_spec (level_code (min_level (config p)))
              (level_code LOG_LEVEL_INFO)) as [Hinfo|Hinfo].
  - pose proof (format_message_length env (config p) LOG_LEVEL_INFO
                  "Log file rotated") as Hlen. fold notice in Hlen.
    destruct (logger_log_write fuel env LOG_LEVEL_INFO "Log file rotated"
                w p path Hp Hinfo Hfile Hfp) as (w' & Hlog & Hp' & Hfs' & _).
    { fold notice. rewrite Hsize.
      rewrite u32_small by (unfold modulus; lia).
      destruct (size_limit_cases (config p)); lia. }
    exists true, w'. split; [exact Hlog|]. fold notice in Hfs'.
    split.
    + rewrite Hfs', (alter_present _ _ _ _ Hempty). reflexivity.
    + eexists. split; [exact Hp'|]. split; reflexivity.
  - exists false, w. split.
    + apply logger_log_gated. right. right. exists p. split; [exact Hp|].
      exact Hinfo.
    + split; [symmetry; apply insert_id; exact Hempty|].
      exists p. auto.
Qed.

(** X15. A rotation with [max_files] at least 2 keeps the log that was
    just finished: when a write reaches the size limit and the file can
    be reopened, the previous content of the log file together with the
    line just written ends up under the first rotated name, and the log
    file itself starts over, holding the rotation notice alone (or
    nothing, when the minimum level is above INFO). *)
Theorem logger_rotation_keeps_last_log fuel env level (message : string)
    w p (content : string) :
  private_data w = Some p ->
  let cfg := config p in
  let path := log_file cfg in
  (level_code (min_level cfg) <= level_code level)%nat ->
  log_to_file cfg = true ->
  log_fp p = Some path ->
  (String.length path < 127)%nat ->
  2 <= max_files cfg <= 2 ^ 31 ->
  size_limit cfg <> 0 ->
  fopen_denied w path = false ->
  fs w !! path = Some content ->
  let line := format_message env cfg level message in
  size_limit cfg
    <= u32 (current_file_size p + (Z.of_nat (String.length line) + 1)) ->
  let notice := format_message env cfg LOG_LEVEL_INFO "Log file rotated" in
  let notice_logged :=
    (level_code (min_level cfg) <=? level_code LOG_LEVEL_INFO)%nat in
  exists w',
    logger_log (S fuel) env level (Some message) w = Some (true, w') /\
    fs w' !! rotated_name path 1 = Some (content +:+ line +:+ newline) /\
    fs w' !! path
      = Some (if notice_logged then notice +:+ newline else EmptyString).
Proof.
  intros Hp cfg path Hlevel Hfile Hfp Hlen Hfiles Hlimit Hopen Hcontent
    line Hreach notice notice_logged.
  destruct (logger_log_reaches_limit fuel env level message w p path
              Hp Hlevel Hfile Hfp Hreach)
    as (w0 & Hlog & Hp0 & Hfs0 & Hden0 & _).
  fold cfg line in Hp0, Hfs0. rewrite Hlog.
  rewrite (rotate_with_eq _ w0 _ path Hp0 eq_refl). cbv zeta.
  cbn [config current_file_size file_count]. fold cfg path.
  rewrite Hden0, Hopen.
  destruct (rotation_renames_log cfg Hfiles) as (Hrename & n & ->).
  match goal with
  | |- context [rotate_loop cfg (S n) ?wc] =>
      destruct (rotate_loop_history cfg n wc (content +:+ line +:+ newline)
                  Hlen Hrename) as (Hhist & Hgone);
      [cbn [fs set_private sys_fclose sys]; rewrite Hfs0;
       fold path; rewrite lookup_alter_eq, Hcontent; reflexivity|];
      set (w1 := rotate_loop cfg (S n) wc) in *
  end.
  match goal with
  | |- context [logger_log fuel env _ _ ?w2] =>
      destruct (logger_log_notice_fs fuel env w2 _ path eq_refl eq_refl
                  Hfile eq_refl Hlimit) as (b & w' & -> & Hfs' & _);
      [cbn [fs set_private sys]; apply lookup_insert_eq|]
  end.
  exists w'. split; [reflexivity|].
  cbn [config] in Hfs'. fold cfg notice notice_logged in Hfs'.
  cbn [fs set_private sys] in Hfs'. rewrite Hfs'.
  pose proof (rotated_name_neq path 1 Hlen) as Hne.
  split.
  - rewrite !lookup_insert_ne by congruence. exact Hhist.
  - apply lookup_insert_eq.
Qed.

(** X16. With [max_files] 0 or 1 a rotation keeps no history: the log
    file is deleted (or merely truncated) and started over, so after
    the call every other file is as before and the log file holds the
    rotation notice alone; its previous content and the line just
    written are gone. *)
Theorem logger_rotation_without_history fuel env level (message : string)
    w p :
  private_data w = Some p ->
  let cfg := config p in
  let path := log_file cfg in
  (level_code (min_level cfg) <= level_code level)%nat ->
  log_to_file cfg = true ->
  log_fp p = Some path ->
  (String.length path <= 127)%nat ->
  max_files cfg = 0 \/ max_files cfg = 1 ->
  size_limit cfg <> 0 ->
  fopen_denied w path = false ->
  let line := format_message env cfg level message in
  size_limit cfg
    <= u32 (current_file_size p + (Z.of_nat (String.length line) + 1)) ->
  let notice := format_message env cfg LOG_LEVEL_INFO "Log file rotated" in
  let notice_logged :=
    (level_code (min_level cfg) <=? level_code LOG_LEVEL_INFO)%nat in
  exists w',
    logger_log (S fuel) env level (Some message) w = Some (true, w') /\
    fs w' =
      <[path := if notice_logged then notice +:+ newline else EmptyString]>
        (fs w).
Proof.
  intros Hp cfg path Hlevel Hfile Hfp Hlen Hfiles Hlimit Hopen
    line Hreach notice notice_logged.
  destruct (logger_log_reaches_limit fuel env level message w p path
              Hp Hlevel Hfile Hfp Hreach)
    as (w0 & Hlog & Hp0 & Hfs0 & Hden0 & _).
  fold cfg line in Hp0, Hfs0. rewrite Hlog.
  rewrite (rotate_with_eq _ w0 _ path Hp0 eq_refl). cbv zeta.
  cbn [config current_file_size file_count]. fold cfg path.
  rewrite Hden0, Hopen.
  match goal with
  | |- context [rotate_loop cfg ?n ?wc] =>
      assert (Hloop : <[path := EmptyString]> (fs (rotate_loop cfg n wc))
                      = <[path := EmptyString]> (fs w));
      [|set (w1 := rotate_loop cfg n wc) in *]
  end.
  { destruct Hfiles as [H|H]; rewrite H.
    - change (Z.to_nat (to_int (sub 0 1) + 1)) with 0%nat.
      cbn [rotate_loop fs set_private sys_fclose sys].
      rewrite Hfs0. apply insert_alter_eq.
    - change (Z.to_nat (to_int (sub 1 1) + 1)) with 1%nat.
      cbn [rotate_loop]. unfold rotate_step.
      change (Z.of_nat 0) with 0. cbn [Z.eqb]. rewrite H.
      change (u32 0 =? sub 1 1) with true. cbv iota.
      rewrite strncpy_fits by exact Hlen.
      cbn [fs set_private sys_fclose sys_remove sys]. fold path.
      rewrite Hfs0, insert_delete_eq. apply insert_alter_eq. }
  match goal with
  | |- context [logger_log fuel env _ _ ?w2] =>
      destruct (logger_log_notice_fs fuel env w2 _ path eq_refl eq_refl
                  Hfile eq_refl Hlimit) as (b & w' & -> & Hfs' & _);
      [cbn [fs set_private sys]; apply lookup_insert_eq|]
  end.
  exists w'. split; [reflexivity|].
  cbn [config] in Hfs'. fold cfg notice notice_logged in Hfs'.
  cbn [fs set_private sys] in Hfs'.
  rewrite Hfs', Hloop. apply insert_insert_eq.
Qed.

(** *** A logger without an open file *)

(** A write that reaches the limit while [fopen] refuses the log file:
    the rotation ends at the refused call. *)
Lemma logger_log_reopen_refused fuel env level (message : string) w p fp :
  private_data w = Some p ->
  (level_code (min_level (config p)) <= level_code level)%nat ->
  log_to_file (config p) = true ->
  log_fp p = Some fp ->
  fopen_denied w (log_file (config p)) = true ->
  let line := format_message env (config p) level message in
  let size := u32 (current_file_size p + (Z.of_nat (String.length line) + 1)) in
  size_limit (config p) <= size ->
  exists w',
    logger_log (S fuel) env level (Some message) w = Some (true, w') /\
    private_data w' =
      Some {| config := config p; log_fp := None; current_file_size := size;
              file_count := file_count p |} /\
    last (events w')
      = Some (EvFopen (log_file (config p)) ModeTruncate false).
Proof.
  intros Hp Hlevel Hfile Hfp Hdenied line size Hreach.
  destruct (logger_log_reaches_limit fuel env level message w p fp
              Hp Hlevel Hfile Hfp Hreach)
    as (w0 & Hlog & Hp0 & _ & Hden0 & _).
  fold line size in Hp0. rewrite Hlog.
  rewrite (rotate_with_eq _ w0 _ fp Hp0 eq_refl). cbv zeta.
  cbn [config current_file_size file_count].
  rewrite Hden0, Hdenied.
  match goal with
  | |- context [rotate_loop ?c ?n ?wc] =>
      destruct (rotate_loop_frame c n wc) as (Hpriv & _ & _);
      set (w1 := rotate_loop c n wc) in *
  end.
  cbn [private_data set_private] in Hpriv.
  eexists. split; [reflexivity|]. split; [exact Hpriv|].
  cbn [events sys]. apply last_snoc.
Qed.


Lemma logger_log_without_file fuel env level (message : option string) w p :
  private_data w = Some p ->
  log_fp p = None ->
  exists b w',
    logger_log fuel env level message w = Some (b, w') /\
    fs w' = fs w /\ private_data w' = Some p.
Proof.
  intros Hp Hfp. rewrite logger_log_eq, Hp.
  destruct message as [message|]; [|eauto].
  destruct (_ <? _)%nat; [eauto|]. cbv zeta. rewrite Hfp.
  destruct (log_to_console (config p)), (log_to_file (config p));
    do 2 eexists; (split; [reflexivity|]); split; (reflexivity || exact Hp).
Qed.

Lemma logger_log_all_without_file fuel env
    (calls : list (LogLevel * option string)) : forall w p,
  private_data w = Some p ->
  log_fp p = None ->
  exists w',
    logger_log_all fuel env calls w = Some w' /\
    fs w' = fs w /\ private_data w' = Some p.
Proof.
  induction calls as [|[level message] calls IH]; intros w p Hp Hfp.
  - exists w. auto.
  - destruct (logger_log_without_file fuel env level message w p Hp Hfp)
      as (b & w1 & Hlog & Hfs1 & Hp1).
    destruct (IH w1 p Hp1 Hfp) as (w' & Hall & Hfs' & Hp').
    exists w'. cbn [logger_log_all]. rewrite Hlog.
    split; [exact Hall|]. split; [congruence | exact Hp'].
Qed.

(** X17. When the [fopen] that ends a rotation is refused, the call of
    [logger_log] that triggered the rotation still returns true; it
    leaves the logger without a stream and with the byte counter not
    reset, the refused [fopen] being the last thing it did.  From then
    on no call of [logger_log] touches any file, and the stream is never
    opened again: whatever is logged afterwards, the files stay as they
    are and the logger stays in that state. *)
Theorem logger_reopen_failure_is_silent fuel env level (message : string)
    w p fp (calls : list (LogLevel * option string)) :
  private_data w = Some p ->
  let cfg := config p in
  (level_code (min_level cfg) <= level_code level)%nat ->
  log_to_file cfg = true ->
  log_fp p = Some fp ->
  fopen_denied w (log_file cfg) = true ->
  let line := format_message env cfg level message in
  let size := u32 (current_file_size p + (Z.of_nat (String.length line) + 1)) in
  size_limit cfg <= size ->
  exists w' w'',
    logger_log (S fuel) env level (Some message) w = Some (true, w') /\
    private_data w' =
      Some {| config := cfg; log_fp := None; current_file_size := size;
              file_count := file_count p |} /\
    last (events w') = Some (EvFopen (log_file cfg) ModeTruncate false) /\
    logger_log_all fuel env calls w' = Some w'' /\
    fs w'' = fs w' /\
    private_data w'' = private_data w'.
Proof.
  intros Hp cfg Hlevel Hfile Hfp Hdenied line size Hreach.
  destruct (logger_log_reopen_refused fuel env level message w p fp
              Hp Hlevel Hfile Hfp Hdenied Hreach)
    as (w' & Hlog & Hp' & Hlast).
  destruct (logger_log_all_without_file fuel env calls w' _ Hp' eq_refl)
    as (w'' & Hall & Hfs'' & Hp'').
  exists w', w''. split; [exact Hlog|]. split; [exact Hp'|].
  split; [exact Hlast|]. split; [exact Hall|].
  split; [exact Hfs'' | congruence].
Qed.

(** X18. [logger_set_config] replaces the configuration, which
    [logger_get_config] then returns, and nothing else: no file is
    opened, closed or renamed, and the stream and the byte counter stay
    as they were.  So a logger set up without file logging does not
    start writing to a file when [log_to_file] is switched on later, and
    a logger with an open stream keeps writing to that stream whatever
    [log_file] the new configuration names. *)
Theorem logger_set_config_keeps_stream (cfg out : LoggerConfig) w p :
  private_data w = Some p ->
  let w1 := logger_set_config (Some cfg) w in
  logger_get_config (Some out) w1 = Some cfg /\
  private_data w1 =
    Some {| config := cfg; log_fp := log_fp p;
            current_file_size := current_file_size p;
            file_count := file_count p |} /\
  fs w1 = fs w /\ events w1 = events w /\
  (log_fp p = None ->
   forall fuel env calls, exists w2,
     logger_log_all fuel env calls w1 = Some w2 /\ fs w2 = fs w) /\
  (forall fp fuel env level (message : string),
     log_fp p = Some fp ->
     (level_code (min_level cfg) <= level_code level)%nat ->
     log_to_file cfg = true ->
     let line := format_message env cfg level message in
     u32 (current_file_size p + (Z.of_nat (String.length line) + 1))
       < size_limit cfg ->
     exists w2,
       logger_log fuel env level (Some message) w1 = Some (true, w2) /\
       fs w2 = alter (fun content => content +:+ line +:+ newline) fp (fs w)).
Proof.
  intros Hp w1.
  assert (Hp1 : private_data w1 =
                Some {| config := cfg; log_fp := log_fp p;
                        current_file_size := current_file_size p;
                        file_count := file_count p |}).
  { subst w1. unfold logger_set_config. rewrite Hp. reflexivity. }
  assert (Hfs1 : fs w1 = fs w).
  { subst w1. unfold logger_set_config. rewrite Hp. reflexivity. }
  split; [unfold logger_get_config; rewrite Hp1; reflexivity|].
  split; [exact Hp1|]. split; [exact Hfs1|].
  split; [subst w1; unfold logger_set_config; rewrite Hp; reflexivity|].
  split.
  - intros Hnone fuel env calls.
    destruct (logger_log_all_without_file fuel env calls w1 _ Hp1 Hnone)
      as (w2 & Hall & Hfs2 & _).
    exists w2. split; [exact Hall | congruence].
  - intros fp fuel env level message Hfp Hlevel Hfile line Hsize.
    destruct (logger_log_write fuel env level message w1 _ fp Hp1 Hlevel
                Hfile Hfp Hsize) as (w2 & Hlog & _ & Hfs2 & _).
    exists w2. split; [exact Hlog|]. rewrite Hfs2, Hfs1. reflexivity.
Qed.

(** *** Set-up *)

(** X19. [logger_init] with file logging, when [fopen] succeeds and the
    set-up message is accepted and stays below the limit: the call
    returns true, asks [system] to create the directory part of the path
    (if the path has one), opens the file in append mode and appends the
    set-up line to what the file held.  The byte counter starts from the
    size of the existing file divided by 1024, to which the bytes of the
    set-up line are added undivided; whenever the file was not empty the
    counter is therefore below the number of bytes in the file. *)
Theorem logger_init_appends_to_existing_file fuel env (cfg : LoggerConfig)
    w (content : string) :
  log_to_file cfg = true ->
  fopen_denied w (log_file cfg) = false ->
  fs w !! log_file cfg = Some content ->
  (level_code (min_level cfg) <= level_code LOG_LEVEL_INFO)%nat ->
  let seed := u32 (Z.of_nat (String.length content)) / 1024 in
  let line := format_message env cfg LOG_LEVEL_INFO "Logger initialized" in
  seed + (Z.of_nat (String.length line) + 1) < size_limit cfg ->
  exists w',
    logger_init fuel env true (Some cfg) w
      = Some (true,
              option_map mkdir_command
                (cut_at_last_slash (strncpy 127 (log_file cfg))),
              w') /\
    private_data w' =
      Some {| config := cfg; log_fp := Some (log_file cfg);
              current_file_size := seed + (Z.of_nat (String.length line) + 1);
              file_count := 0 |} /\
    fs w' = <[log_file cfg := content +:+ line +:+ newline]> (fs w) /\
    events w' =
      events w ++ [EvFopen (log_file cfg) ModeAppend true]
        ++ (if log_to_console cfg then [EvPrintf line] else [])
        ++ [EvFprintf (log_file cfg) line] /\
    (content <> EmptyString ->
     seed + (Z.of_nat (String.length line) + 1)
       < Z.of_nat (String.length (content +:+ line +:+ newline))).
Proof.
  intros Hfile Hopen Hcontent Hinfo seed line Hroom.
  unfold logger_init. cbn [negb]. cbv zeta. rewrite Hfile.
  unfold sys_fopen. cbn [fopen_denied set_private fs]. rewrite Hopen, Hcontent.
  cbn [fs sys]. rewrite Hcontent. fold seed. cbn [negb].
  pose proof (size_limit_range cfg) as Hlim.
  assert (Hseed : 0 <= seed).
  { subst seed. apply Z.div_pos; [apply u32_range | lia]. }
  assert (Hsmall : u32 (seed + (Z.of_nat (String.length line) + 1))
                   = seed + (Z.of_nat (String.length line) + 1)).
  { apply u32_small. lia. }
  match goal with
  | |- context [logger_log fuel env _ _ ?w1] =>
      destruct (logger_log_write fuel env LOG_LEVEL_INFO "Logger initialized"
                  w1 _ (log_file cfg) eq_refl Hinfo Hfile eq_refl)
        as (w' & Hlog & Hp' & Hfs' & _ & Hev')
  end.
  { cbn [config current_file_size]. fold line. rewrite Hsmall. exact Hroom. }
  cbn [config current_file_size file_count] in Hp', Hfs', Hev'.
  fold line in Hp', Hfs', Hev'. rewrite Hsmall in Hp'.
  cbn [fs events set_private sys] in Hfs', Hev'.
  rewrite Hlog. exists w'. split; [reflexivity|]. split; [exact Hp'|].
  split; [rewrite Hfs', (alter_present _ _ _ _ Hcontent); reflexivity|].
  split; [rewrite Hev', <- app_assoc; reflexivity|].
  intros Hne. rewrite !length_append. cbn [newline String.length].
  assert (Hpos : (0 < String.length content)%nat).
  { destruct content; [contradiction | cbn; lia]. }
  assert (seed < Z.of_nat (String.length content)); [|lia].
  subst seed.
  apply Z.le_lt_trans with (Z.of_nat (String.length content) / 1024).
  - apply Z.div_le_mono; [lia|].
    unfold u32. apply Z.mod_le; [lia | reflexivity].
  - apply Z.div_lt; lia.
Qed.

(** X20. The ways [logger_init] ends without a file.  When [malloc]
    fails it returns false at once.  When file logging is on and
    [fopen] is refused it returns false with the logger left
    unallocated, having created no file and written nothing, not even
    the set-up line on the console.  When file logging is off it opens
    nothing, runs no command, and returns true with the set-up line on
    the console only.  A null configuration stands for the built-in
    defaults. *)
Theorem logger_init_without_file fuel env (cfg_in : option LoggerConfig) w :
  let cfg := match cfg_in with Some c => c | None => default_config end in
  logger_init fuel env false cfg_in w
    = Some (false, None, set_private None w) /\
  (log_to_file cfg = true ->
   fopen_denied w (log_file cfg) = true ->
   exists command w',
     logger_init fuel env true cfg_in w = Some (false, command, w') /\
     private_data w' = None /\ fs w' = fs w /\
     events w' = events w ++ [EvFopen (log_file cfg) ModeAppend false]) /\
  (log_to_file cfg = false ->
   exists w',
     logger_init fuel env true cfg_in w = Some (true, None, w') /\
     private_data w' =
       Some {| config := cfg; log_fp := None; current_file_size := 0;
               file_count := 0 |} /\
     fs w' = fs w /\
     events w' =
       events w ++
         (if log_to_console cfg
             && (level_code (min_level cfg) <=? level_code LOG_LEVEL_INFO)%nat
          then [EvPrintf (format_message env cfg LOG_LEVEL_INFO
                            "Logger initialized")]
          else [])).
Proof.
  intros cfg. split; [reflexivity|]. split.
  - intros Hfile Hdenied. unfold logger_init. cbn [negb]. cbv zeta.
    fold cfg. rewrite Hfile. unfold sys_fopen.
    cbn [fopen_denied set_private]. rewrite Hdenied. cbn [negb].
    do 2 eexists. split; [reflexivity|]. repeat split.
  - intros Hfile. unfold logger_init. cbn [negb]. cbv zeta.
    fold cfg. rewrite Hfile. cbn [negb].
    rewrite logger_log_eq. cbn [private_data set_private config log_fp].
    rewrite Hfile.
    destruct (Nat.leb_spec (level_code (min_level cfg))
                (level_code LOG_LEVEL_INFO)) as [Hinfo|Hinfo].
    + apply Nat.ltb_ge in Hinfo. rewrite Hinfo. cbv zeta.
      destruct (log_to_console cfg); cbn [andb];
        eexists; (split; [reflexivity|]); cbn; rewrite ?app_nil_r;
        repeat split.
    + apply Nat.ltb_lt in Hinfo. rewrite Hinfo.
      eexists. split; [reflexivity|]. cbn. rewrite andb_false_r, app_nil_r.
      repeat split.
Qed.

(** *** Shutdown *)

(** X21. [logger_cleanup].  A logger without a stream is freed without
    a word, the console included.  With a stream, the shutdown line is
    logged at INFO like any other message and, when that write stays
    below the limit (or is not made at all), the stream is closed as the
    last call and the logger is left unallocated, so that every later
    [logger_log] returns false and does nothing.  When the shutdown line
    itself reaches the limit and the reopening [fopen] of the rotation
    is refused, [fclose] is called on a null stream. *)
Theorem logger_cleanup_outcomes fuel env w p :
  private_data w = Some p ->
  let cfg := config p in
  let line := format_message env cfg LOG_LEVEL_INFO "Logger shutting down" in
  let size := u32 (current_file_size p + (Z.of_nat (String.length line) + 1)) in
  let written :=
    (level_code (min_level cfg) <=? level_code LOG_LEVEL_INFO)%nat
    && log_to_file cfg in
  (log_fp p = None ->
   logger_cleanup fuel env w = CleanupReturns (set_private None w)) /\
  (forall fp,
     log_fp p = Some fp ->
     written = false \/ size < size_limit cfg ->
     exists w',
       logger_cleanup fuel env w = CleanupReturns w' /\
       private_data w' = None /\
       last (events w') = Some (EvFclose fp) /\
       fs w' = (if written
                then alter (fun content => content +:+ line +:+ newline) fp
                       (fs w)
                else fs w) /\
       forall fuel' env' level message,
         logger_log fuel' env' level message w' = Some (false, w')) /\
  (forall fp,
     log_fp p = Some fp ->
     written = true ->
     size_limit cfg <= size ->
     fopen_denied w (log_file cfg) = true ->
     exists w', logger_cleanup (S fuel) env w = CleanupClosesNull w').
Proof.
  intros Hp cfg line size written. subst cfg. split; [|split].
  - intros Hfp. unfold logger_cleanup. rewrite Hp, Hfp. reflexivity.
  - intros fp Hfp Hcase. unfold logger_cleanup. rewrite Hp, Hfp.
    assert (Hlog : exists b w1,
      logger_log fuel env LOG_LEVEL_INFO (Some "Logger shutting down"%string) w
        = Some (b, w1) /\
      (exists p1, private_data w1 = Some p1 /\ log_fp p1 = Some fp) /\
      fs w1 = (if written
               then alter (fun content => content +:+ line +:+ newline) fp
                      (fs w)
               else fs w)).
    { subst written.
      destruct (Nat.leb_spec (level_code (min_level (config p)))
                  (level_code LOG_LEVEL_INFO)) as [Hinfo|Hinfo];
        cbn [andb] in *.
      - destruct (log_to_file (config p)) eqn:Hfile.
        + destruct Hcase as [Hcase|Hsize]; [discriminate|].
          destruct (logger_log_write fuel env LOG_LEVEL_INFO
                      "Logger shutting down" w p fp Hp Hinfo Hfile Hfp Hsize)
            as (w1 & Hlog & Hp1 & Hfs1 & _).
          exists true, w1. split; [exact Hlog|]. split; [eauto|exact Hfs1].
        + rewrite logger_log_eq, Hp. apply Nat.ltb_ge in Hinfo.
          rewrite Hinfo. cbv zeta. rewrite Hfile.
          destruct (log_to_console (config p)); do 2 eexists;
            (split; [reflexivity|]); split; eauto.
      - exists false, w. split; [|split; eauto].
        apply logger_log_gated. right. right. exists p. auto. }
    destruct Hlog as (b & w1 & -> & (p1 & Hp1 & Hfp1) & Hfs1).
    rewrite Hp1, Hfp1. eexists. split; [reflexivity|].
    cbn [private_data set_private sys_fclose sys events fs].
    split; [reflexivity|]. split; [apply last_snoc|]. split; [exact Hfs1|].
    intros fuel' env' level message. apply logger_log_gated. left. reflexivity.
  - intros fp Hfp Hwritten Hreach Hdenied. subst written.
    apply andb_true_iff in Hwritten as [Hinfo Hfile].
    apply Nat.leb_le in Hinfo.
    unfold logger_cleanup. rewrite Hp, Hfp.
    destruct (logger_log_reopen_refused fuel env LOG_LEVEL_INFO
                "Logger shutting down" w p fp Hp Hinfo Hfile Hfp Hdenied
                Hreach)
      as (w' & -> & Hp' & _).
    rewrite Hp'. cbn [log_fp]. eauto.
Qed.

(** *** The [log_sensor_data] switch and sensor lines *)

Lemma rotate_loop_switch b cfg (n : nat) : forall w,
  rotate_loop (set_log_sensor_data b cfg) n (with_sensor_switch b w)
  = with_sensor_switch b (rotate_loop cfg n w).
Proof.
  induction n as [|n IH]; intros w; [reflexivity|].
  cbn [rotate_loop]. rewrite <- IH. f_equal.
  unfold rotate_step. cbn [log_file max_files set_log_sensor_data].
  destruct (_ =? _); reflexivity.
Qed.

Lemma rotate_with_switch b
    (log log' : LogLevel -> option string -> World -> option (bool * World)) :
  (forall level message w,
     log' level message (with_sensor_switch b w)
     = match log level message w with
       | Some (r, w') => Some (r, with_sensor_switch b w')
       | None => None
       end) ->
  forall w,
    rotate_with log' (with_sensor_switch b w)
    = option_map (with_sensor_switch b) (rotate_with log w).
Proof.
  intros Hlog [pd files denied evs]. unfold rotate_with.
  destruct pd as [p|]; [|reflexivity].
  cbn [private_data with_sensor_switch set_private option_map log_fp config
       file_count current_file_size].
  destruct (log_fp p) as [fp|]; [|reflexivity].
  change (max_files (set_log_sensor_data b (config p)))
    with (max_files (config p)).
  set (n := Z.to_nat _).
  match goal with
  | |- context [rotate_loop (config p) n ?w0] => set (w0c := w0)
  end.
  match goal with
  | |- context [rotate_loop (set_log_sensor_data b (config p)) _ ?w0] =>
      change w0 with (with_sensor_switch b w0c)
  end.
  rewrite rotate_loop_switch.
  set (w1 := rotate_loop (config p) n w0c).
  unfold sys_fopen.
  change (fopen_denied (with_sensor_switch b w1)) with (fopen_denied w1).
  change (log_file (set_log_sensor_data b (config p)))
    with (log_file (config p)).
  destruct (fopen_denied w1 (log_file (config p))); [reflexivity|].
  match goal with
  | |- context [log LOG_LEVEL_INFO _ ?w2] => set (w2c := w2)
  end.
  match goal with
  | |- context [log' LOG_LEVEL_INFO _ ?w2] =>
      change w2 with (with_sensor_switch b w2c)
  end.
  rewrite Hlog. destruct (log _ _ w2c) as [[r w3]|]; reflexivity.
Qed.

(** [logger_log] never consults the [log_sensor_data] switch. *)
Lemma logger_log_switch b env (fuel : nat) : forall level message w,
  logger_log fuel env level message (with_sensor_switch b w)
  = match logger_log fuel env level message w with
    | Some (r, w') => Some (r, with_sensor_switch b w')
    | None => None
    end.
Proof.
  induction fuel as [|fuel IH]; intros level message [pd files denied evs];
    rewrite !logger_log_eq;
    (destruct pd as [p|]; [|reflexivity]);
    (destruct message as [message|]; [|reflexivity]);
    cbn [private_data with_sensor_switch set_private option_map config
         log_fp current_file_size file_count];
    change (min_level (set_log_sensor_data b (config p)))
      with (min_level (config p));
    (destruct (_ <? _)%nat; [reflexivity|]);
    cbv zeta;
    change (format_message env (set_log_sensor_data b (config p)) level message)
      with (format_message env (config p) level message);
    change (log_to_console (set_log_sensor_data b (config p)))
      with (log_to_console (config p));
    change (log_to_file (set_log_sensor_data b (config p)))
      with (log_to_file (config p));
    change (size_limit (set_log_sensor_data b (config p)))
      with (size_limit (config p));
    set (line := format_message env (config p) level message);
    destruct (log_to_file (config p)), (log_fp p) as [fp|],
      (log_to_console (config p));
    try reflexivity;
    (destruct (_ <=? _); [|reflexivity]);
    try reflexivity;
    match goal with
    | |- match rotate_with _ ?w0 with _ => _ end
         = match match rotate_with _ ?w0c with _ => _ end with _ => _ end =>
        change w0 with (with_sensor_switch b w0c);
        rewrite (rotate_with_switch b _ _ IH);
        destruct (rotate_with (logger_log fuel env) w0c); reflexivity
    end.
Qed.

(** X22. [logger_log_sensor_data] is [logger_log] applied to one line of
    at most 255 bytes built from the sensor and the record; it returns
    false without doing anything when the sensor or the record is
    absent.  The [log_sensor_data] switch of the configuration is never
    consulted: with the switch set either way the call returns the same
    value, makes the same calls and leaves the same files. *)
Theorem logger_log_sensor_data_ignores_switch {W : Type} fuel env
    (fmt : float -> string) (sensor : Sensor W) (data : SensorData)
    level w (b : bool) :
  (String.length (sensor_message fmt sensor data) <= 255)%nat /\
  logger_log_sensor_data fuel env fmt (Some sensor) (Some data) level w
    = logger_log fuel env level (Some (sensor_message fmt sensor data)) w /\
  logger_log_sensor_data fuel env fmt (@None (Sensor W)) (Some data) level w
    = Some (false, w) /\
  logger_log_sensor_data fuel env fmt (Some sensor) None level w
    = Some (false, w) /\
  match logger_log_sensor_data fuel env fmt (Some sensor) (Some data) level w,
        logger_log_sensor_data fuel env fmt (Some sensor) (Some data) level
          (with_sensor_switch b w) with
  | Some (r, w1), Some (r', w2) =>
      r' = r /\ events w2 = events w1 /\ fs w2 = fs w1 /\
      w2 = with_sensor_switch b w1
  | None, None => True
  | _, _ => False
  end.
Proof.
  assert (Heq : forall w0,
    logger_log_sensor_data fuel env fmt (Some sensor) (Some data) level w0
    = logger_log fuel env level (Some (sensor_message fmt sensor data)) w0).
  { intros w0. unfold logger_log_sensor_data.
    destruct (private_data w0) as [p|] eqn:Hp.
    - destruct (_ <? _)%nat eqn:Hlt; [|reflexivity].
      symmetry. apply logger_log_gated. right. right. exists p.
      split; [exact Hp|]. apply Nat.ltb_lt. exact Hlt.
    - symmetry. apply logger_log_gated. left. exact Hp. }
  split; [apply substring_length|]. split; [apply Heq|].
  split; [unfold logger_log_sensor_data; destruct (private_data w);
          reflexivity|].
  split; [unfold logger_log_sensor_data; destruct (private_data w);
          reflexivity|].
  rewrite !Heq, logger_log_switch.
  destruct (logger_log fuel env level _ w) as [[r w1]|]; [|exact I].
  repeat split.
Qed.

(** *** The whole history under a rotation *)







(** *** The properties above at concrete inputs *)

Lemma logger_log_returns_witness :
  exists b w',
    logger_log 1 (env_at 1 0) LOG_LEVEL_WARNING (Some "x"%string)
      (logger_world 1 3 1020) = Some (b, w') /\
    logger_log 5 (env_at 1 0) LOG_LEVEL_WARNING (Some "x"%string)
      (logger_world 1 3 1020) = Some (b, w').
Proof.
  apply (logger_log_returns 4 (env_at 1 0) LOG_LEVEL_WARNING
           (Some "x"%string) (logger_world 1 3 1020)).
  intros p [= <-]. vm_compute. discriminate.
Defined.

Lemma logger_log_all_appends_witness :
  exists w',
    logger_log_all 1 (env_at 1 0) (log_calls two_calls) (logger_world 1 3 0)
      = Some w' /\
    fs w' =
      <["app.log"%string :=
          "old" +:+ written (lines_of (env_at 1 0) (logger_config 1 3)
                               two_calls)]>
        (fs (logger_world 1 3 0)).
Proof.
  destruct (logger_log_all_appends 1 (env_at 1 0) two_calls
              (logger_world 1 3 0) _ "app.log" "old" eq_refl)
    as (w' & Hall & Hfs & _).
  - repeat constructor; cbn; lia.
  - reflexivity.
  - reflexivity.
  - reflexivity.
  - cbn. lia.
  - vm_compute. reflexivity.
  - exists w'. split; [exact Hall | exact Hfs].
Defined.

Lemma logger_rotation_keeps_last_log_witness :
  exists w',
    logger_log 1 (env_at 1 0) LOG_LEVEL_WARNING (Some "x"%string)
      (logger_world 1 3 1020) = Some (true, w') /\
    fs w' !! rotated_name "app.log" 1
      = Some ("old" +:+ "[WARNING] x" +:+ newline).
Proof.
  destruct (logger_rotation_keeps_last_log 0 (env_at 1 0) LOG_LEVEL_WARNING
              "x" (logger_world 1 3 1020) _ "old" eq_refl)
    as (w' & Hlog & Hhist & _).
  - cbn. lia.
  - reflexivity.
  - reflexivity.
  - cbn. lia.
  - split; vm_compute; discriminate.
  - vm_compute. discriminate.
  - reflexivity.
  - reflexivity.
  - vm_compute. discriminate.
  - exists w'. split; [exact Hlog | exact Hhist].
Defined.

Lemma logger_rotation_without_history_witness :
  exists w',
    logger_log 1 (env_at 1 0) LOG_LEVEL_WARNING (Some "x"%string)
      (logger_world 1 1 1020) = Some (true, w') /\
    fs w' = <["app.log"%string := "[INFO] Log file rotated" +:+ newline]>
              (fs (logger_world 1 1 1020)).
Proof.
  destruct (logger_rotation_without_history 0 (env_at 1 0) LOG_LEVEL_WARNING
              "x" (logger_world 1 1 1020) _ eq_refl)
    as (w' & Hlog & Hfs).
  - cbn. lia.
  - reflexivity.
  - reflexivity.
  - cbn. lia.
  - right. reflexivity.
  - vm_compute. discriminate.
  - reflexivity.
  - vm_compute. discriminate.
  - exists w'. split; [exact Hlog | exact Hfs].
Defined.

Lemma logger_reopen_failure_is_silent_witness :
  exists w' w'',
    logger_log 1 (env_at 1 0) LOG_LEVEL_WARNING (Some "x"%string)
      (locked_world 1 3 1020) = Some (true, w') /\
    logger_log_all 0 (env_at 1 0) [(LOG_LEVEL_ERROR, Some "y"%string)] w'
      = Some w'' /\
    fs w'' = fs w'.
Proof.
  destruct (logger_reopen_failure_is_silent 0 (env_at 1 0) LOG_LEVEL_WARNING
              "x" (locked_world 1 3 1020) _ "app.log"
              [(LOG_LEVEL_ERROR, Some "y"%string)] eq_refl)
    as (w' & w'' & Hlog & _ & _ & Hall & Hfs & _).
  - cbn. lia.
  - reflexivity.
  - reflexivity.
  - reflexivity.
  - vm_compute. discriminate.
  - exists w', w''. split; [exact Hlog|]. split; [exact Hall | exact Hfs].
Defined.

Lemma logger_set_config_keeps_stream_witness :
  logger_get_config (Some default_config)
    (logger_set_config (Some (logger_config 2 5)) (logger_world 1 3 0))
  = Some (logger_config 2 5) /\
  fs (logger_set_config (Some (logger_config 2 5)) (logger_world 1 3 0))
  = fs (logger_world 1 3 0).
Proof.
  destruct (logger_set_config_keeps_stream (logger_config 2 5) default_config
              (logger_world 1 3 0) _ eq_refl)
    as (Hget & _ & Hfs & _).
  split; [exact Hget | exact Hfs].
Defined.

Lemma logger_init_appends_to_existing_file_witness :
  exists w',
    logger_init 0 (env_at 1 0) true (Some (logger_config 1 3)) unset_world
      = Some (true, None, w') /\
    fs w' = <["app.log"%string := "old" +:+ "[INFO] Logger initialized"
                                   +:+ newline]> (fs unset_world).
Proof.
  destruct (logger_init_appends_to_existing_file 0 (env_at 1 0)
              (logger_config 1 3) unset_world "old")
    as (w' & Hinit & _ & Hfs & _).
  - reflexivity.
  - reflexivity.
  - reflexivity.
  - cbn. lia.
  - vm_compute. reflexivity.
  - exists w'. split; [exact Hinit | exact Hfs].
Defined.

Lemma logger_init_without_file_witness :
  exists command w',
    logger_init 0 (env_at 1 0) true None (locked_world 1 3 0)
      = Some (false, command, w') /\
    private_data w' = None.
Proof.
  destruct (logger_init_without_file 0 (env_at 1 0) None (locked_world 1 3 0))
    as (_ & Hdenied & _).
  destruct Hdenied as (command & w' & Hinit & Hp & _);
    [reflexivity | reflexivity |].
  exists command, w'. split; [exact Hinit | exact Hp].
Defined.

Lemma logger_cleanup_outcomes_witness :
  (exists w',
     logger_cleanup 0 (env_at 1 0) (logger_world 1 3 0) = CleanupReturns w' /\
     private_data w' = None /\
     last (events w') = Some (EvFclose "app.log")) /\
  (exists w',
     logger_cleanup 1 (env_at 1 0) (locked_world 1 3 1020)
     = CleanupClosesNull w').
Proof.
  split.
  - destruct (logger_cleanup_outcomes 0 (env_at 1 0) (logger_world 1 3 0) _
                eq_refl) as (_ & Hplain & _).
    destruct (Hplain "app.log"%string) as (w' & Hclean & Hp & Hlast & _);
      [reflexivity | right; vm_compute; reflexivity |].
    exists w'. split; [exact Hclean|]. split; [exact Hp | exact Hlast].
  - destruct (logger_cleanup_outcomes 0 (env_at 1 0) (locked_world 1 3 1020) _
                eq_refl) as (_ & _ & Hnull).
    apply (Hnull "app.log"%string);
      [reflexivity | reflexivity | vm_compute; discriminate | reflexivity].
Defined.

End LoggerOpsFacts.
